(** * Training utilities ([src/utils/train_utils.py]): checkpoint bookkeeping,
    logging set-up and label helpers, embedded as executable definitions.

    The Python code keeps its bookkeeping in attributes of the function
    object [save_checkpoint], reads and writes checkpoint files, and raises
    exceptions half-way through a call.  The embedding therefore threads an
    explicit [World] through every call and returns either an exception or
    a value next to the world reached so far: what a call changed before it
    raised stays changed, as in Python. *)

From stdpp Require Import gmap strings list fin_maps pretty.
From Stdlib Require Import Ascii QArith.
Open Scope Z_scope.

(** ** Python values *)

(** A Python [float] under comparison.  Comparisons of floats (and of ints
    against floats) are exact on the numbers they denote, so a finite float
    is carried as the rational it denotes; [float("inf")], [float("-inf")]
    and NaN are separate values. *)
Inductive pyfloat :=
  | NegInf
  | Fin (q : Q)
  | PosInf
  | NaN.

(** [x < y] on floats: false as soon as one side is NaN. *)
Definition float_lt (x y : pyfloat) : bool :=
  match x, y with
  | NaN, _ | _, NaN => false
  | _, NegInf => false
  | NegInf, _ => true
  | PosInf, _ => false
  | Fin _, PosInf => true
  | Fin a, Fin b => negb (Qle_bool b a)
  end.

(** The command-line namespace [args], with the attributes the modelled
    functions read. *)
Record Args := {
  resume_training : bool;
  restore_file : option string;
  no_save : bool;
  save_interval : Z;
  step_checkpoints : bool;
  no_log : bool;
  log_file : option string;
  checkpoint_dir : string;
}.

(** The result of [state_dict()] of a model, optimizer or scheduler: an
    opaque serialised blob. *)
Definition blob := string.

Inductive pyval :=
  | PyNone
  | PyInt (z : Z)
  | PyFloat (x : pyfloat)
  | PyStates (l : list blob)
  | PyNamespace (a : Args).

(** A [dict] with string keys: the checkpoint record, and the attribute
    dictionary of the function object [save_checkpoint]. *)
Abbreviation dict := (gmap string pyval).

Inductive exn :=
  | AssertionError
  | TypeError
  | AttributeError
  | ZeroDivisionError
  | IndexError
  | RuntimeError
  | UnpicklingError.

(** A value, or the exception raised instead. *)
Definition result (A : Type) : Type := exn + A.

Global Instance result_ret : MRet result := λ A x, inr x.
Global Instance result_bind : MBind result := λ A B k m,
  match m with
  | inl e => inl e
  | inr x => k x
  end.

(** The number a value denotes in a comparison, when it is an int or a
    float. *)
Definition as_number (v : pyval) : option pyfloat :=
  match v with
  | PyInt z => Some (Fin (inject_Z z))
  | PyFloat x => Some x
  | _ => None
  end.

(** [a < b].  Ordering is modelled on numbers; every other pair of operands
    is a [TypeError] (as for [None], the default [score]). *)
Definition py_lt (a b : pyval) : result bool :=
  match as_number a, as_number b with
  | Some x, Some y => inr (float_lt x y)
  | _, _ => inl TypeError
  end.

(** [a > b]. *)
Definition py_gt (a b : pyval) : result bool := py_lt b a.

(** The builtin [max(a, b)]: keeps [a] unless [b > a]. *)
Definition py_max (a b : pyval) : result pyval :=
  match py_gt b a with
  | inl e => inl e
  | inr true => inr b
  | inr false => inr a
  end.

(** [a % b] on ints: the result has the sign of the divisor, as [Z.modulo];
    a zero divisor raises. *)
Definition py_mod (a b : Z) : result Z :=
  if decide (b = 0) then inl ZeroDivisionError else inr (a mod b).

(** [os.path.join(d, name)] for a [name] that is not absolute. *)
Fixpoint ends_with_slash (d : string) : bool :=
  match d with
  | EmptyString => false
  | String c EmptyString => bool_decide (c = "/"%char)
  | String _ d' => ends_with_slash d'
  end.

Definition path_join (d name : string) : string :=
  if bool_decide (d = "") || ends_with_slash d then d +:+ name
  else d +:+ "/" +:+ name.

(** ** The world *)

(** The content of a regular file, as the writes that produced it: a
    record pickled by [torch.save], or lines of log text. *)
Inductive chunk :=
  | Pickled (d : dict)
  | Line (s : string).

Abbreviation file := (list chunk).

(** Logging levels, with their numeric values. *)
Inductive level := NOTSET | DEBUG | INFO | WARNING.

Definition level_num (l : level) : Z :=
  match l with
  | NOTSET => 0
  | DEBUG => 10
  | INFO => 20
  | WARNING => 30
  end.

Inductive handler :=
  | StreamHandler (lvl : level)
  | FileHandler (path : string) (mode : string) (lvl : level).

Definition handler_level (h : handler) : level :=
  match h with
  | StreamHandler l => l
  | FileHandler _ _ l => l
  end.

(** What a call did to the outside, in order. *)
Inductive event :=
  | EvMakedirs (path : string)
  | EvSave (path : string) (d : dict)
  | EvOpen (path : string) (mode : string)
  | EvLog (h : handler) (msg : string).

Record World := {
  attrs : dict;               (** [save_checkpoint.__dict__] *)
  files : gmap string file;   (** regular files, by path *)
  dirs : gset string;         (** directories *)
  regular_fds : gset Z;       (** open descriptors that are regular files *)
  argv : list string;         (** [sys.argv] *)
  root_handlers : list handler; (** handlers of the root logger *)
  root_level : level;         (** level of the root logger *)
  trace : list event;         (** effects so far, oldest first *)
}.

Definition set_attrs (f : dict → dict) (w : World) : World :=
  {| attrs := f (attrs w); files := files w; dirs := dirs w;
     regular_fds := regular_fds w; argv := argv w;
     root_handlers := root_handlers w;
     root_level := root_level w; trace := trace w |}.

Definition set_files (f : gmap string file → gmap string file) (w : World) : World :=
  {| attrs := attrs w; files := f (files w); dirs := dirs w;
     regular_fds := regular_fds w; argv := argv w;
     root_handlers := root_handlers w;
     root_level := root_level w; trace := trace w |}.

Definition set_dirs (f : gset string → gset string) (w : World) : World :=
  {| attrs := attrs w; files := files w; dirs := f (dirs w);
     regular_fds := regular_fds w; argv := argv w;
     root_handlers := root_handlers w;
     root_level := root_level w; trace := trace w |}.

Definition set_root (hs : list handler) (l : level) (w : World) : World :=
  {| attrs := attrs w; files := files w; dirs := dirs w;
     regular_fds := regular_fds w; argv := argv w;
     root_handlers := hs; root_level := l; trace := trace w |}.

Definition emit (e : event) (w : World) : World :=
  {| attrs := attrs w; files := files w; dirs := dirs w;
     regular_fds := regular_fds w; argv := argv w;
     root_handlers := root_handlers w;
     root_level := root_level w; trace := trace w ++ [e] |}.

(** A process that has not touched the checkpoint bookkeeping or the root
    logger yet. *)
Definition fresh_process (fs : gmap string file) (ds : gset string)
    (fds : gset Z) (av : list string) : World :=
  {| attrs := ∅; files := fs; dirs := ds; regular_fds := fds; argv := av;
     root_handlers := []; root_level := WARNING; trace := [] |}.

(** ** A state and exception monad *)

Definition M (A : Type) : Type := World → World * result A.

Global Instance M_ret : MRet M := λ A x w, (w, inr x).
Global Instance M_bind : MBind M := λ A B k m w,
  match m w with
  | (w', inl e) => (w', inl e)
  | (w', inr x) => k x w'
  end.

Definition raise {A} (e : exn) : M A := λ w, (w, inl e).
Definition lift {A} (r : result A) : M A := λ w, (w, r).
Definition modify (f : World → World) : M unit := λ w, (f w, inr tt).
Definition gets {A} (f : World → A) : M A := λ w, (w, inr (f w)).
Definition when (b : bool) (m : M unit) : M unit := if b then m else mret tt.

(** [assert c] *)
Definition py_assert (c : bool) : M unit :=
  if c then mret tt else raise AssertionError.

(** [getattr(save_checkpoint, name, dflt)] *)
Definition getattr_default (name : string) (dflt : pyval) : M pyval :=
  gets (λ w, default dflt (attrs w !! name)).

(** [save_checkpoint.name], which raises when the attribute was never set. *)
Definition getattr (name : string) : M pyval := λ w,
  match attrs w !! name with
  | Some v => (w, inr v)
  | None => (w, inl AttributeError)
  end.

(** [save_checkpoint.name = v] *)
Definition setattr (name : string) (v : pyval) : M unit :=
  modify (set_attrs (insert name v)).

(** The directories above [path]: the prefixes of [path] that a ["/"]
    follows, but for the empty prefix and the prefixes that end in ["/"]
    themselves (the root, and the first part of a doubled separator). *)
Fixpoint parents_from (pre path : string) : list string :=
  match path with
  | EmptyString => []
  | String c rest =>
      (if bool_decide (c = "/"%char) && negb (bool_decide (pre = ""))
          && negb (ends_with_slash pre)
       then [pre] else [])
      ++ parents_from (pre +:+ String c EmptyString) rest
  end.

Definition parents (path : string) : list string := parents_from "" path.

(** [os.makedirs(path, exist_ok=True)] where it succeeds: nothing is created
    when [path] is a directory already; otherwise [path] is created, and
    with it the directories above it that are missing.  The call is
    modelled on a disk that lets it succeed: the real one raises for an
    empty [path] and for a regular file at [path] or above it. *)
Definition create_dir (path : string) (w : World) : World :=
  emit (EvMakedirs path)
    (set_dirs (λ ds, if bool_decide (path ∈ ds) then ds
                     else list_to_set (path :: parents path) ∪ ds) w).

Definition makedirs (path : string) : M unit := modify (create_dir path).

(** [torch.save(d, path)]: the whole file is replaced. *)
Definition write_pickle (d : dict) (path : string) (w : World) : World :=
  emit (EvSave path d) (set_files (insert path [Pickled d]) w).

Definition torch_save (d : dict) (path : string) : M unit :=
  modify (write_pickle d path).

(** [os.path.isfile(path)] for a path given as a string. *)
Definition isfile (path : string) : M bool :=
  gets (λ w, bool_decide (is_Some (files w !! path))).

(** [os.path.isfile(n)] for an int [n]: an int is taken as a file
    descriptor. *)
Definition isfile_fd (n : Z) : M bool :=
  gets (λ w, bool_decide (n ∈ regular_fds w)).

(** [torch.load(path)] of an existing file: the record that [torch.save]
    pickled there; a file that is anything else does not unpickle. *)
Definition torch_load (path : string) : M dict := λ w,
  match files w !! path with
  | Some [Pickled d] => (w, inr d)
  | _ => (w, inl UnpicklingError)
  end.

(** [logging.basicConfig(handlers=hs, level=l)]: does nothing once the root
    logger has handlers. *)
Definition basicConfig (hs : list handler) (l : level) : M unit :=
  modify (λ w, match root_handlers w with
               | [] => set_root hs l w
               | _ :: _ => w
               end).

(** A handler writes one record: a file handler appends a line to its
    file. *)
Definition handle (msg : string) (w : World) (h : handler) : World :=
  let w := emit (EvLog h msg) w in
  match h with
  | StreamHandler _ => w
  | FileHandler path _ _ => set_files (alter (λ f, f ++ [Line msg]) path) w
  end.

(** [logging.info(msg)]: configures a root logger without handlers with
    the default stream handler first; the record then goes to the handlers
    whose level lets it through, if the root logger's level does. *)
Definition logging_info (msg : string) : M unit :=
  hs ← gets root_handlers;
  when (bool_decide (hs = [])) (modify (λ w, set_root [StreamHandler NOTSET] (root_level w) w));;
  modify (λ w,
    if bool_decide (level_num (root_level w) ≤ level_num INFO) then
      foldl (handle msg) w
        (filter (λ h, level_num (handler_level h) ≤ level_num INFO) (root_handlers w))
    else w).

(** [logging.FileHandler(path, mode=mode)]: the file is opened at once;
    mode ["w"] empties it, mode ["a"] keeps what is there. *)
Definition open_file_handler (path mode : string) (lvl : level) : M handler :=
  modify (λ w,
    emit (EvOpen path mode)
      (set_files (λ fs, if bool_decide (mode = "w") then <[path := []]> fs
                        else match fs !! path with
                             | Some _ => fs
                             | None => <[path := []]> fs
                             end) w));;
  mret (FileHandler path mode lvl).

(** ** Checkpoints *)

(** A model, optimizer or scheduler argument: one instance or a list of
    them, each given by its state. *)
Inductive component :=
  | Single (s : blob)
  | Many (l : list blob).

(** [[x] if x is not None and not isinstance(x, list) else x] *)
Definition as_list (c : option component) : option (list blob) :=
  match c with
  | None => None
  | Some (Single s) => Some [s]
  | Some (Many l) => Some l
  end.

(** [[m.state_dict() for m in xs] if xs is not None else None] *)
Definition states_of (xs : option (list blob)) : pyval :=
  match xs with
  | Some l => PyStates l
  | None => PyNone
  end.

(** [(score < best_score and mode == "min") or (score > best_score and mode == "max")] *)
Definition improves (score best_score : pyval) (mode : string) : M bool :=
  lt ← lift (py_lt score best_score);
  if lt && bool_decide (mode = "min") then mret true
  else
    gt ← lift (py_gt score best_score);
    mret (gt && bool_decide (mode = "max")).

Definition checkpoint_step_name (step : Z) : string :=
  "checkpoint" +:+ pretty step +:+ ".pt".

Definition save_checkpoint (args : Args) (step : Z)
    (model optimizer scheduler : option component)
    (score : pyval) (mode : string) : M unit :=
  py_assert (bool_decide (mode = "min") || bool_decide (mode = "max"));;
  last_step ← getattr_default "last_step" (PyInt (-1));
  new_last ← lift (py_max last_step (PyInt step));
  setattr "last_step" new_last;;
  let default_score :=
    if bool_decide (mode = "min") then PyFloat PosInf else PyFloat NegInf in
  best_score ← getattr_default "best_score" default_score;
  better ← improves score best_score mode;
  when better (setattr "best_step" (PyInt step);; setattr "best_score" score);;
  due ← (if no_save args then mret false
         else r ← lift (py_mod step (save_interval args));
              mret (bool_decide (r = 0)));
  when due (
    makedirs (checkpoint_dir args);;
    let model := as_list model in
    let optimizer := as_list optimizer in
    let scheduler := as_list scheduler in
    rec_last ← getattr "last_step";
    rec_best_step ← getattr "best_step";
    rec_best_score ← getattr_default "best_score" PyNone;
    let state_dict : dict :=
      <["step" := PyInt step]> (
      <["score" := score]> (
      <["last_step" := rec_last]> (
      <["best_step" := rec_best_step]> (
      <["best_score" := rec_best_score]> (
      <["model" := states_of model]> (
      <["optimizer" := states_of optimizer]> (
      <["scheduler" := states_of scheduler]> (
      <["args" := PyNamespace args]> ∅)))))))) in
    when (step_checkpoints args)
      (torch_save state_dict
         (path_join (checkpoint_dir args) (checkpoint_step_name step)));;
    better ← improves score best_score mode;
    when better
      (torch_save state_dict (path_join (checkpoint_dir args) "checkpoint_best.pt"));;
    forward ← lift (py_gt (PyInt step) last_step);
    when forward
      (torch_save state_dict (path_join (checkpoint_dir args) "checkpoint_last.pt"))).

(** [for m, state in zip(ms, saved): m.load_state_dict(state)]: instances
    are paired with saved states by position; what the shorter sequence
    does not reach is left alone. *)
Fixpoint load_states (ms saved : list blob) : list blob :=
  match ms, saved with
  | _ :: ms', s :: saved' => s :: load_states ms' saved'
  | _, _ => ms
  end.

(** One of the three blocks
    [if xs is not None and state_dict.get(key, None) is not None: ...].
    [zip] raises [TypeError] for a saved entry that cannot be iterated: of
    the values modelled, an int, a float and a namespace.  A list is the
    one iterable among them (a tuple, a dict or a string as saved entry is
    outside [pyval]). *)
Definition restore_component (xs : option (list blob)) (state_dict : dict)
    (key : string) : M (option (list blob)) :=
  match xs with
  | None => mret None
  | Some ms =>
      match default PyNone (state_dict !! key) with
      | PyNone => mret (Some ms)
      | PyStates saved => mret (Some (load_states ms saved))
      | PyInt _ | PyFloat _ | PyNamespace _ => raise TypeError
      end
  end.

(** The instances after the call, as lists. *)
Record Loaded := {
  loaded_record : dict;
  loaded_model : option (list blob);
  loaded_optimizer : option (list blob);
  loaded_scheduler : option (list blob);
}.

(** [None] is the implicit [return None] of the path that restores
    nothing. *)
Definition load_checkpoint (args : Args)
    (model optimizer scheduler : option component) : M (option Loaded) :=
  match restore_file args with
  | None => mret None
  | Some path =>
      found ← isfile path;
      if found : bool then
        state_dict ← torch_load path;
        let model := as_list model in
        let optimizer := as_list optimizer in
        let scheduler := as_list scheduler in
        when (bool_decide (is_Some (state_dict !! "best_score")))
          (setattr "best_score" (default PyNone (state_dict !! "best_score")));;
        when (bool_decide (is_Some (state_dict !! "last_step")))
          (setattr "last_step" (default PyNone (state_dict !! "last_step")));;
        model' ← restore_component model state_dict "model";
        optimizer' ← restore_component optimizer state_dict "optimizer";
        scheduler' ← restore_component scheduler state_dict "scheduler";
        logging_info ("Loaded checkpoint " +:+ path);;
        mret (Some {| loaded_record := state_dict; loaded_model := model';
                      loaded_optimizer := optimizer';
                      loaded_scheduler := scheduler' |})
      else mret None
  end.

(** ** Logging set-up *)

Section Logging.
(** The text of [vars(args)], as [str.format] renders it. *)
Variable repr_vars : Args → string.

Definition init_logging (args : Args) : M unit :=
  let stream_handler := StreamHandler INFO in
  handlers ← (if no_log args then mret [stream_handler]
              else match log_file args with
                   | None => mret [stream_handler]
                   | Some path =>
                       (* [args.resume_training] is the bool of the
                          [--resume-training] flag: a bool is an int, and
                          [os.path.isfile] takes an int as a descriptor. *)
                       resumed ← isfile_fd (Z.b2z (resume_training args));
                       let mode := if resumed : bool then "a" else "w" in
                       file_handler ← open_file_handler path mode DEBUG;
                       mret [stream_handler; file_handler]
                   end);
  basicConfig handlers DEBUG;;
  av ← gets argv;
  logging_info ("COMMAND: " +:+ String.concat " " av);;
  logging_info ("Arguments: " +:+ repr_vars args).
End Logging.

(** ** Pure helpers on tensors *)

Fixpoint traverse {A B} (f : A → result B) (l : list A) : result (list B) :=
  match l with
  | [] => inr []
  | x :: l' => y ← f x; ys ← traverse f l'; mret (y :: ys)
  end.

(** A two-dimensional tensor, as the list of its rows. *)
Abbreviation matrix A := (list (list A)).

(** [t.unsqueeze(-1)]: shape [[n]] to [[n, 1]]. *)
Definition unsqueeze_last {A} (t : list A) : matrix A := (λ x, [x]) <$> t.

(** [t.unsqueeze(0)]: shape [[n]] to [[1, n]]. *)
Definition unsqueeze_first {A} (t : list A) : matrix A := [t].

(** One dimension of [expand]: a dimension of the wanted size is kept, a
    dimension of size one is repeated, anything else is refused. *)
Definition expand_dim {A} (l : list A) (n : nat) : result (list A) :=
  if decide (length l = n) then inr l
  else match l with
       | [x] => inr (replicate n x)
       | _ => inl RuntimeError
       end.

(** [m.expand([rows, cols])] *)
Definition expand {A} (m : matrix A) (rows cols : nat) : result (matrix A) :=
  m' ← expand_dim m rows;
  traverse (λ r, expand_dim r cols) m'.

(** [torch.eq] on tensors of one shape. *)
Definition torch_eq (a b : matrix Z) : matrix bool :=
  zip_with (zip_with (λ x y, bool_decide (x = y))) a b.

(** The mask as returned: booleans, or their values as floats. *)
Inductive mask_tensor :=
  | BoolMask (m : matrix bool)
  | FloatMask (m : matrix pyfloat).

Definition to_float (b : bool) : pyfloat := if b then Fin 1 else Fin 0.

Definition bool_mask (target context : list Z) (float : bool) : result mask_tensor :=
  let num_targets := length target in
  let num_contexts := length context in
  lhs ← expand (unsqueeze_last target) num_targets num_contexts;
  rhs ← expand (unsqueeze_first context) num_targets num_contexts;
  let mask := torch_eq lhs rhs in
  if float then mret (FloatMask (map (map to_float) mask))
  else mret (BoolMask mask).





Section Connectivity.
(** Scalars of the tensors, their sum, and the division of a scalar by a
    non-zero int. *)
Context {R : Type}.
Variable add : R → R → R.
Variable div_int : R → Z → R.
(** [pdist(F.normalize(mask, p=1, dim=1), F.normalize(graph, p=1, dim=1))]:
    one distance per row, or nothing when torch refuses the shapes (a
    [RuntimeError]; torch divides by zero without raising). *)
Variable row_distances : matrix R → matrix R → option (list R).








End Connectivity.

(** ** Experiment set-up *)

(** The namespace that the parser of [add_logging_arguments] and the
    training script build: the options of [add_logging_arguments], the
    [model] and [dataset] that the training script adds, and the four
    attributes that [setup_experiment] sets ([None] while it has not). *)
Record Config := {
  cfg_seed : Z;
  cfg_output_dir : string;
  cfg_experiment : option string;
  cfg_resume_training : bool;
  cfg_restore_file : option string;
  cfg_valid_interval : Z;
  cfg_no_save : bool;
  cfg_save_interval : Z;
  cfg_step_checkpoints : bool;
  cfg_no_log : bool;
  cfg_log_interval : Z;
  cfg_no_visual : bool;
  cfg_visual_interval : Z;
  cfg_no_progress : bool;
  cfg_draft : bool;
  cfg_dry_run : bool;
  cfg_model : string;
  cfg_dataset : string;
  cfg_experiment_dir : option string;
  cfg_checkpoint_dir : option string;
  cfg_log_dir : option string;
  cfg_log_file : option string;
}.

(** The defaults of [add_logging_arguments]: what the parser yields for an
    empty command line, next to the [model] and [dataset] of the script. *)
Definition parsed_defaults (model dataset : string) : Config :=
  {| cfg_seed := 0; cfg_output_dir := "experiments"; cfg_experiment := None;
     cfg_resume_training := false; cfg_restore_file := None;
     cfg_valid_interval := 1; cfg_no_save := false; cfg_save_interval := 1;
     cfg_step_checkpoints := false; cfg_no_log := false;
     cfg_log_interval := 100; cfg_no_visual := false;
     cfg_visual_interval := 100; cfg_no_progress := false;
     cfg_draft := false; cfg_dry_run := false;
     cfg_model := model; cfg_dataset := dataset;
     cfg_experiment_dir := None; cfg_checkpoint_dir := None;
     cfg_log_dir := None; cfg_log_file := None |}.

(** [args.no_save = args.no_log = args.no_visual = True] *)
Definition set_dry (c : Config) : Config :=
  {| cfg_seed := cfg_seed c; cfg_output_dir := cfg_output_dir c;
     cfg_experiment := cfg_experiment c;
     cfg_resume_training := cfg_resume_training c;
     cfg_restore_file := cfg_restore_file c;
     cfg_valid_interval := cfg_valid_interval c; cfg_no_save := true;
     cfg_save_interval := cfg_save_interval c;
     cfg_step_checkpoints := cfg_step_checkpoints c; cfg_no_log := true;
     cfg_log_interval := cfg_log_interval c; cfg_no_visual := true;
     cfg_visual_interval := cfg_visual_interval c;
     cfg_no_progress := cfg_no_progress c; cfg_draft := cfg_draft c;
     cfg_dry_run := cfg_dry_run c; cfg_model := cfg_model c;
     cfg_dataset := cfg_dataset c;
     cfg_experiment_dir := cfg_experiment_dir c;
     cfg_checkpoint_dir := cfg_checkpoint_dir c;
     cfg_log_dir := cfg_log_dir c; cfg_log_file := cfg_log_file c |}.

(** [args.experiment = e] *)
Definition set_experiment (e : string) (c : Config) : Config :=
  {| cfg_seed := cfg_seed c; cfg_output_dir := cfg_output_dir c;
     cfg_experiment := Some e;
     cfg_resume_training := cfg_resume_training c;
     cfg_restore_file := cfg_restore_file c;
     cfg_valid_interval := cfg_valid_interval c; cfg_no_save := cfg_no_save c;
     cfg_save_interval := cfg_save_interval c;
     cfg_step_checkpoints := cfg_step_checkpoints c; cfg_no_log := cfg_no_log c;
     cfg_log_interval := cfg_log_interval c; cfg_no_visual := cfg_no_visual c;
     cfg_visual_interval := cfg_visual_interval c;
     cfg_no_progress := cfg_no_progress c; cfg_draft := cfg_draft c;
     cfg_dry_run := cfg_dry_run c; cfg_model := cfg_model c;
     cfg_dataset := cfg_dataset c;
     cfg_experiment_dir := cfg_experiment_dir c;
     cfg_checkpoint_dir := cfg_checkpoint_dir c;
     cfg_log_dir := cfg_log_dir c; cfg_log_file := cfg_log_file c |}.

(** [args.experiment_dir = d] *)
Definition set_experiment_dir (d : string) (c : Config) : Config :=
  {| cfg_seed := cfg_seed c; cfg_output_dir := cfg_output_dir c;
     cfg_experiment := cfg_experiment c;
     cfg_resume_training := cfg_resume_training c;
     cfg_restore_file := cfg_restore_file c;
     cfg_valid_interval := cfg_valid_interval c; cfg_no_save := cfg_no_save c;
     cfg_save_interval := cfg_save_interval c;
     cfg_step_checkpoints := cfg_step_checkpoints c; cfg_no_log := cfg_no_log c;
     cfg_log_interval := cfg_log_interval c; cfg_no_visual := cfg_no_visual c;
     cfg_visual_interval := cfg_visual_interval c;
     cfg_no_progress := cfg_no_progress c; cfg_draft := cfg_draft c;
     cfg_dry_run := cfg_dry_run c; cfg_model := cfg_model c;
     cfg_dataset := cfg_dataset c;
     cfg_experiment_dir := Some d;
     cfg_checkpoint_dir := cfg_checkpoint_dir c;
     cfg_log_dir := cfg_log_dir c; cfg_log_file := cfg_log_file c |}.

(** [args.checkpoint_dir = d] *)
Definition set_checkpoint_dir (d : string) (c : Config) : Config :=
  {| cfg_seed := cfg_seed c; cfg_output_dir := cfg_output_dir c;
     cfg_experiment := cfg_experiment c;
     cfg_resume_training := cfg_resume_training c;
     cfg_restore_file := cfg_restore_file c;
     cfg_valid_interval := cfg_valid_interval c; cfg_no_save := cfg_no_save c;
     cfg_save_interval := cfg_save_interval c;
     cfg_step_checkpoints := cfg_step_checkpoints c; cfg_no_log := cfg_no_log c;
     cfg_log_interval := cfg_log_interval c; cfg_no_visual := cfg_no_visual c;
     cfg_visual_interval := cfg_visual_interval c;
     cfg_no_progress := cfg_no_progress c; cfg_draft := cfg_draft c;
     cfg_dry_run := cfg_dry_run c; cfg_model := cfg_model c;
     cfg_dataset := cfg_dataset c;
     cfg_experiment_dir := cfg_experiment_dir c;
     cfg_checkpoint_dir := Some d;
     cfg_log_dir := cfg_log_dir c; cfg_log_file := cfg_log_file c |}.

(** [args.log_dir = d; args.log_file = f] *)
Definition set_log (d f : string) (c : Config) : Config :=
  {| cfg_seed := cfg_seed c; cfg_output_dir := cfg_output_dir c;
     cfg_experiment := cfg_experiment c;
     cfg_resume_training := cfg_resume_training c;
     cfg_restore_file := cfg_restore_file c;
     cfg_valid_interval := cfg_valid_interval c; cfg_no_save := cfg_no_save c;
     cfg_save_interval := cfg_save_interval c;
     cfg_step_checkpoints := cfg_step_checkpoints c; cfg_no_log := cfg_no_log c;
     cfg_log_interval := cfg_log_interval c; cfg_no_visual := cfg_no_visual c;
     cfg_visual_interval := cfg_visual_interval c;
     cfg_no_progress := cfg_no_progress c; cfg_draft := cfg_draft c;
     cfg_dry_run := cfg_dry_run c; cfg_model := cfg_model c;
     cfg_dataset := cfg_dataset c;
     cfg_experiment_dir := cfg_experiment_dir c;
     cfg_checkpoint_dir := cfg_checkpoint_dir c;
     cfg_log_dir := Some d; cfg_log_file := Some f |}.

(** The namespace as [save_checkpoint], [load_checkpoint] and
    [init_logging] read it.  [checkpoint_dir] is read only with [no_save]
    unset, and then [setup_experiment] has set it. *)
Definition args_of (c : Config) : Args :=
  {| resume_training := cfg_resume_training c;
     restore_file := cfg_restore_file c;
     no_save := cfg_no_save c;
     save_interval := cfg_save_interval c;
     step_checkpoints := cfg_step_checkpoints c;
     no_log := cfg_no_log c;
     log_file := cfg_log_file c;
     checkpoint_dir := default "" (cfg_checkpoint_dir c) |}.

(** [s.replace(a, b)] for single characters. *)
Fixpoint replace_char (a b : ascii) (s : string) : string :=
  match s with
  | EmptyString => EmptyString
  | String c s' => String (if bool_decide (c = a) then b else c) (replace_char a b s')
  end.

Definition starts_with_slash (s : string) : bool :=
  match s with
  | String c _ => bool_decide (c = "/"%char)
  | EmptyString => false
  end.

(** One round of the loop of [os.path.join]: an absolute component replaces
    what was joined so far. *)
Definition join_step (path b : string) : string :=
  if starts_with_slash b then b
  else if bool_decide (path = "") || ends_with_slash path then path +:+ b
  else path +:+ "/" +:+ b.

(** [os.path.join(a, *p)] *)
Definition os_path_join (a : string) (p : list string) : string :=
  foldl join_step a p.

(** The state that [setup_experiment] touches besides the namespace: the
    flags of [torch.backends.cudnn], the seeds given to the three random
    number generators, and the world. *)
Record Runtime := {
  rt_world : World;
  cudnn_deterministic : bool;
  cudnn_benchmark : bool;
  torch_seed : option Z;
  numpy_seed : option Z;
  random_seed : option Z;
}.

Definition set_rt_world (f : World → World) (rt : Runtime) : Runtime :=
  {| rt_world := f (rt_world rt);
     cudnn_deterministic := cudnn_deterministic rt;
     cudnn_benchmark := cudnn_benchmark rt;
     torch_seed := torch_seed rt; numpy_seed := numpy_seed rt;
     random_seed := random_seed rt |}.

(** A process before [setup_experiment]: cudnn at its defaults, no
    generator seeded. *)
Definition fresh_runtime (w : World) : Runtime :=
  {| rt_world := w; cudnn_deterministic := false; cudnn_benchmark := false;
     torch_seed := None; numpy_seed := None; random_seed := None |}.

(** The library that refused the seed. *)
Inductive seed_fault :=
  | TorchSeedFault
  | NumpySeedFault.

Section Setup.
(** Whether [torch.manual_seed] and [np.random.seed] take a seed; each
    raises on a seed outside its range.  [random.seed] takes every int. *)
Variable torch_takes : Z → bool.
Variable numpy_takes : Z → bool.

(** The function mutates [args] and returns nothing: the namespace after
    the call is returned here.  [os.makedirs] is modelled where it succeeds
    (see [create_dir]), so that the one fault of the model is a refused
    seed; a call that [os.makedirs] makes fail is outside the model. *)
Definition setup_experiment (args : Config) (rt : Runtime)
    : Runtime * (seed_fault + Config) :=
  let rt1 :=
    {| rt_world := rt_world rt; cudnn_deterministic := true;
       cudnn_benchmark := false; torch_seed := torch_seed rt;
       numpy_seed := numpy_seed rt; random_seed := random_seed rt |} in
  if negb (torch_takes (cfg_seed args)) then (rt1, inl TorchSeedFault)
  else
    let rt2 :=
      {| rt_world := rt_world rt1; cudnn_deterministic := cudnn_deterministic rt1;
         cudnn_benchmark := cudnn_benchmark rt1;
         torch_seed := Some (cfg_seed args);
         numpy_seed := numpy_seed rt1; random_seed := random_seed rt1 |} in
    if negb (numpy_takes (cfg_seed args)) then (rt2, inl NumpySeedFault)
    else
      let rt3 :=
        {| rt_world := rt_world rt2;
           cudnn_deterministic := cudnn_deterministic rt2;
           cudnn_benchmark := cudnn_benchmark rt2;
           torch_seed := torch_seed rt2;
           numpy_seed := Some (cfg_seed args);
           random_seed := Some (cfg_seed args) |} in
      if cfg_dry_run args then (rt3, inr (set_dry args))
      else
        let experiment :=
          match cfg_experiment args with
          | Some e => if bool_decide (e = "") then replace_char "_" "-" (cfg_model args)
                      else e
          | None => replace_char "_" "-" (cfg_model args)
          end in
        let experiment :=
          if negb (cfg_resume_training args) then String.concat "-" [experiment]
          else experiment in
        let args := set_experiment experiment args in
        let experiment_dir :=
          os_path_join (cfg_output_dir args)
            [cfg_dataset args;
             (if cfg_draft args then "drafts/" else "") +:+ experiment] in
        let args := set_experiment_dir experiment_dir args in
        let rt4 := set_rt_world (create_dir experiment_dir) rt3 in
        let '(args, rt5) :=
          if negb (cfg_no_save args) then
            let checkpoint_dir := os_path_join experiment_dir ["checkpoints"] in
            (set_checkpoint_dir checkpoint_dir args,
             set_rt_world (create_dir checkpoint_dir) rt4)
          else (args, rt4) in
        let '(args, rt6) :=
          if negb (cfg_no_log args) then
            let log_dir := os_path_join experiment_dir ["logs"] in
            (set_log log_dir (os_path_join log_dir ["train.log"]) args,
             set_rt_world (create_dir log_dir) rt5)
          else (args, rt5) in
        (rt6, inr args).
End Setup.

(** ** Vocabulary of the properties *)

(** *** Bookkeeping *)

Definition is_int (v : pyval) : bool :=
  match v with
  | PyInt _ => true
  | _ => false
  end.

Definition is_number (v : pyval) : bool :=
  match v with
  | PyInt _ | PyFloat _ => true
  | _ => false
  end.

(** [mode == "min" or mode == "max"] *)
Definition valid_mode (mode : string) : bool :=
  bool_decide (mode = "min") || bool_decide (mode = "max").

(** What [save_checkpoint] reads as the previous [last_step]. *)
Definition last_step_value (a : dict) : pyval :=
  default (PyInt (-1)) (a !! "last_step").

(** The int in [last_step], [-1] while it is unset. *)
Definition last_step_int (a : dict) : Z :=
  match last_step_value a with
  | PyInt z => z
  | _ => -1
  end.

(** The worst score of a mode, and what [save_checkpoint] reads as the
    best score so far. *)
Definition default_score (mode : string) : pyval :=
  if bool_decide (mode = "min") then PyFloat PosInf else PyFloat NegInf.

Definition current_best (a : dict) (mode : string) : pyval :=
  default (default_score mode) (a !! "best_score").

(** The bookkeeping attributes hold what [save_checkpoint] stores in them:
    an int in [last_step] and a number in [best_score], where set. *)
Definition wf_attrs (a : dict) : bool :=
  is_int (last_step_value a) && is_number (default (PyInt 0) (a !! "best_score")).

(** [score] is strictly better than [best]: below it for mode ["min"],
    above it for mode ["max"]. *)
Definition strictly_improves (score best : pyval) (mode : string) : bool :=
  match as_number score, as_number best with
  | Some s, Some b =>
      (bool_decide (mode = "min") && float_lt s b)
      || (bool_decide (mode = "max") && float_lt b s)
  | _, _ => false
  end.

(** The pair of [best_score] and [best_step] differs between [w] and [w']. *)
Definition best_updated (w w' : World) : Prop :=
  (attrs w' !! "best_score", attrs w' !! "best_step")
  ≠ (attrs w !! "best_score", attrs w !! "best_step").

(** *** Effects of a call *)

(** The events a call added to the trace of [w], given the world [w'] it
    ended in. *)
Definition new_events (w w' : World) : list event :=
  drop (length (trace w)) (trace w').

(** A call from [w] to [w'] wrote the file [path]. *)
Definition wrote (path : string) (w w' : World) : Prop :=
  ∃ d, EvSave path d ∈ new_events w w'.

(** A call from [w] to [w'] did nothing to the outside. *)
Definition no_io (w w' : World) : Prop :=
  trace w' = trace w ∧ files w' = files w ∧ dirs w' = dirs w.

(** The field [key] of the record pickled in the file [path]. *)
Definition stored_field (w : World) (path key : string) : option pyval :=
  match files w !! path with
  | Some [Pickled d] => d !! key
  | _ => None
  end.

(** The paths of the three kinds of checkpoint file. *)
Definition best_path (args : Args) : string :=
  path_join (checkpoint_dir args) "checkpoint_best.pt".

Definition last_path (args : Args) : string :=
  path_join (checkpoint_dir args) "checkpoint_last.pt".

Definition step_path (args : Args) (step : Z) : string :=
  path_join (checkpoint_dir args) (checkpoint_step_name step).

(** *** [save_checkpoint], case by case *)

(** The record that a call of [save_checkpoint] pickles, from the
    attributes [a] at that point. *)
Definition record_of (args : Args) (step : Z)
    (model optimizer scheduler : option component) (score : pyval)
    (a : dict) (best_step : pyval) : dict :=
  <["step" := PyInt step]> (
  <["score" := score]> (
  <["last_step" := default PyNone (a !! "last_step")]> (
  <["best_step" := best_step]> (
  <["best_score" := default PyNone (a !! "best_score")]> (
  <["model" := states_of (as_list model)]> (
  <["optimizer" := states_of (as_list optimizer)]> (
  <["scheduler" := states_of (as_list scheduler)]> (
  <["args" := PyNamespace args]> ∅)))))))).

(** The world once a call of [save_checkpoint] has done its bookkeeping. *)
Definition after_bookkeeping (step : Z) (score : pyval) (mode : string)
    (w : World) : World :=
  let w1 :=
    set_attrs (insert "last_step" (PyInt (Z.max (last_step_int (attrs w)) step))) w in
  if strictly_improves score (current_best (attrs w) mode) mode
  then set_attrs (insert "best_score" score)
         (set_attrs (insert "best_step" (PyInt step)) w1)
  else w1.

(** The world once a call that reached its writes has done them; [w2] is
    the world after [os.makedirs]. *)
Definition after_writes (args : Args) (step : Z)
    (model optimizer scheduler : option component) (score : pyval)
    (better forward : bool) (best_step : pyval) (w2 : World) : World :=
  let d := record_of args step model optimizer scheduler score (attrs w2) best_step in
  let w3 := if step_checkpoints args then write_pickle d (step_path args step) w2 else w2 in
  let w4 := if better then write_pickle d (best_path args) w3 else w3 in
  if forward then write_pickle d (last_path args) w4 else w4.

(** A call of [save_checkpoint] on well-formed bookkeeping with a numeric
    score, written out case by case ([save_checkpoint_cases] below proves
    that this is what the code does). *)
Definition save_cases (args : Args) (step : Z)
    (model optimizer scheduler : option component) (score : pyval)
    (mode : string) (w : World) : World * result unit :=
  let w1 := after_bookkeeping step score mode w in
  if no_save args then (w1, inr tt)
  else if decide (save_interval args = 0) then (w1, inl ZeroDivisionError)
  else if bool_decide (step mod save_interval args = 0) then
    let w2 := create_dir (checkpoint_dir args) w1 in
    match attrs w1 !! "best_step" with
    | None => (w2, inl AttributeError)
    | Some best_step =>
        (after_writes args step model optimizer scheduler score
           (strictly_improves score (current_best (attrs w) mode) mode)
           (bool_decide (last_step_int (attrs w) < step)) best_step w2,
         inr tt)
    end
  else (w1, inr tt).

(** The event of one conditional [torch.save]. *)
Definition saved (b : bool) (d : dict) (path : string) : list event :=
  if b then [EvSave path d] else [].

(** *** [load_checkpoint] *)

(** The bookkeeping after a load of the record [d]: [last_step] and
    [best_score] are taken from [d] where [d] has them. *)
Definition restore_attrs (d a : dict) : dict :=
  let a1 := match d !! "best_score" with
            | Some v => <["best_score" := v]> a
            | None => a
            end in
  match d !! "last_step" with
  | Some v => <["last_step" := v]> a1
  | None => a1
  end.

(** A saved entry for the model, optimizer or scheduler states that
    [load_checkpoint] can use: a list of states, or [None]. *)
Definition states_or_none (v : pyval) : bool :=
  match v with
  | PyNone | PyStates _ => true
  | _ => false
  end.

(** *** Sequences of saves *)

(** [x <= y] on floats. *)
Definition float_le (x y : pyfloat) : bool :=
  match x, y with
  | NaN, _ | _, NaN => false
  | NegInf, _ => true
  | _, PosInf => true
  | Fin a, Fin b => Qle_bool a b
  | _, _ => false
  end.

(** [a < b] and [a <= b] hold (no exception, and true). *)
Definition score_lt (a b : pyval) : bool :=
  match as_number a, as_number b with
  | Some x, Some y => float_lt x y
  | _, _ => false
  end.

Definition score_le (a b : pyval) : bool :=
  match as_number a, as_number b with
  | Some x, Some y => float_le x y
  | _, _ => false
  end.

(** The arguments of one call of [save_checkpoint]. *)
Record SaveCall := {
  call_args : Args;
  call_step : Z;
  call_model : option component;
  call_optimizer : option component;
  call_scheduler : option component;
  call_score : pyval;
  call_mode : string;
}.

(** The world a call leaves, whether it returned or raised. *)
Definition run_call (c : SaveCall) (w : World) : World :=
  (save_checkpoint (call_args c) (call_step c) (call_model c) (call_optimizer c)
     (call_scheduler c) (call_score c) (call_mode c) w).1.

(** [P] holds of every call of the sequence [cs] run from [w], with the
    worlds before and after that call. *)
Fixpoint each_call (P : World → SaveCall → World → Prop) (cs : list SaveCall)
    (w : World) : Prop :=
  match cs with
  | [] => True
  | c :: cs' => P w c (run_call c w) ∧ each_call P cs' (run_call c w)
  end.

(** The score of call [c] strictly improves on the best score that [w]
    holds. *)
Definition call_improves (w : World) (c : SaveCall) : bool :=
  strictly_improves (call_score c) (current_best (attrs w) (call_mode c)) (call_mode c).

Definition scores (cs : list SaveCall) : list pyval := call_score <$> cs.

(** Each score is below the one before it. *)
Fixpoint strictly_decreasing (l : list pyval) : bool :=
  match l with
  | a :: (b :: _) as l' => score_lt b a && strictly_decreasing l'
  | _ => true
  end.

(** Each score is at least the one before it. *)
Fixpoint non_decreasing (l : list pyval) : bool :=
  match l with
  | a :: (b :: _) as l' => score_le a b && non_decreasing l'
  | _ => true
  end.

(** All calls use mode ["min"]; all calls use a valid mode. *)
Definition min_calls (cs : list SaveCall) : Prop :=
  Forall (λ c, call_mode c = "min") cs.

Definition valid_calls (cs : list SaveCall) : Prop :=
  Forall (λ c, valid_mode (call_mode c) = true) cs.

(** The first call of the sequence improves on the best score of [w]. *)
Definition first_improves (cs : list SaveCall) (w : World) : Prop :=
  match cs with
  | [] => True
  | c :: _ => call_improves w c = true
  end.

(** The worlds a process reaches without any [save_checkpoint] call that
    improved on the best score so far: from a fresh process, by loads and
    by well-formed saves whose score does not strictly improve. *)
Inductive never_improved : World → Prop :=
  | never_fresh (fs : gmap string file) (ds : gset string) (fds : gset Z)
      (av : list string) :
      never_improved (fresh_process fs ds fds av)
  | never_load (args : Args) (model optimizer scheduler : option component)
      (w : World) :
      never_improved w →
      never_improved (load_checkpoint args model optimizer scheduler w).1
  | never_save (args : Args) (step : Z)
      (model optimizer scheduler : option component) (score : pyval)
      (mode : string) (w : World) :
      never_improved w →
      valid_mode mode = true → wf_attrs (attrs w) = true →
      is_number score = true →
      strictly_improves score (current_best (attrs w) mode) mode = false →
      never_improved
        (save_checkpoint args step model optimizer scheduler score mode w).1.

(** *** [connectivity] *)



(** *** Example runs *)

(** Arguments under which only steps that are multiples of 5 are due. *)
Definition skip_args : Args :=
  {| resume_training := false; restore_file := None; no_save := false;
     save_interval := 5; step_checkpoints := true; no_log := true;
     log_file := None; checkpoint_dir := "ckpt" |}.

(** A call that only does bookkeeping: with [skip_args], a step that is not
    a multiple of 5 is not due. *)
Definition bookkeeping_call (step : Z) (score : pyval) : SaveCall :=
  {| call_args := skip_args; call_step := step; call_model := None;
     call_optimizer := None; call_scheduler := None; call_score := score;
     call_mode := "min" |}.

(** A run that is resumed from a checkpoint: the first process saves at
    step 10 with score 0.5, a second process loads what it wrote. *)
Definition demo_args : Args :=
  {| resume_training := true; restore_file := Some "ckpt/checkpoint_last.pt";
     no_save := false; save_interval := 1; step_checkpoints := true;
     no_log := false; log_file := Some "logs/train.log";
     checkpoint_dir := "ckpt" |}.

Definition first_run : World :=
  (save_checkpoint demo_args 10 (Some (Single "weights")) None None
     (PyFloat (Fin 0.5)) "min" (fresh_process ∅ ∅ ∅ ["train.py"])).1.

Definition resumed : World :=
  (load_checkpoint demo_args (Some (Single "init")) None None
     (fresh_process (files first_run) (dirs first_run) ∅ ["train.py"])).1.

(** A second save at the step of [first_run], with a worse score. *)
Definition repeated_save : World * result unit :=
  save_checkpoint demo_args 10 (Some (Single "weights")) None None
    (PyFloat (Fin 0.7)) "min" first_run.

(** The process of a resumed run at the moment it sets up logging: the
    checkpoints of [first_run] and the log of that run are on disk, and
    standard output is a terminal, so no descriptor is a regular file. *)
Definition resumed_logging : World :=
  fresh_process (<["logs/train.log" := [Line "epoch 1"]]> (files first_run))
    (dirs first_run) ∅ ["train.py"; "--resume-training"].

(** The same run without any checkpoint on disk, started with standard
    output redirected to a file: descriptor 1 is a regular file. *)
Definition redirected_logging : World :=
  fresh_process (<["logs/train.log" := [Line "epoch 1"]]> ∅) ∅ {[1]}
    ["train.py"; "--resume-training"].

(** *** What the disk must allow *)

(** [os.makedirs(path, exist_ok=True)] can succeed: [path] is not empty and
    no regular file lies at [path] or above it. *)
Definition can_makedirs (path : string) (w : World) : bool :=
  negb (bool_decide (path = ""))
  && forallb (λ p, bool_decide (files w !! p = None)) (path :: parents path).

(** A due call of [save_checkpoint] can create its directory and write its
    files: none of the three checkpoint paths is a directory. *)
Definition can_save (args : Args) (step : Z) (w : World) : bool :=
  can_makedirs (checkpoint_dir args) w
  && forallb (λ p, bool_decide (p ∉ dirs w))
       [step_path args step; best_path args; last_path args].

(** A saved entry that [zip] cannot iterate. *)
Definition not_iterable (v : pyval) : bool :=
  match v with
  | PyInt _ | PyFloat _ | PyNamespace _ => true
  | PyNone | PyStates _ => false
  end.

(** *** Outcomes of [save_checkpoint] *)

(** What a call of [save_checkpoint] on well-formed bookkeeping returns or
    raises, read off its arguments and the bookkeeping before the call. *)
Definition expected_outcome (args : Args) (step : Z) (score : pyval)
    (mode : string) (a : dict) : result unit :=
  if negb (valid_mode mode) then inl AssertionError
  else if negb (is_number score) then inl TypeError
  else if no_save args then inr tt
  else if bool_decide (save_interval args = 0) then inl ZeroDivisionError
  else if negb (bool_decide (step mod save_interval args = 0)) then inr tt
  else if bool_decide (a !! "best_step" = None)
          && negb (strictly_improves score (current_best a mode) mode)
       then inl AttributeError
  else inr tt.

(** The worlds of a process that has only called [save_checkpoint] so far,
    with any arguments. *)
Inductive saves_only : World → Prop :=
  | saves_fresh (fs : gmap string file) (ds : gset string) (fds : gset Z)
      (av : list string) :
      saves_only (fresh_process fs ds fds av)
  | saves_call (args : Args) (step : Z)
      (model optimizer scheduler : option component) (score : pyval)
      (mode : string) (w : World) :
      saves_only w →
      saves_only (save_checkpoint args step model optimizer scheduler score mode w).1.

(** *** Instances after a load *)

(** The states of the instances [xs] once [load_checkpoint] has treated the
    saved entry [v]: a saved list is loaded by position, [None] (or no
    entry) leaves the instances alone. *)
Definition restored (xs : option (list blob)) (v : pyval) : option (list blob) :=
  match xs with
  | None => None
  | Some ms =>
      match v with
      | PyStates saved => Some (load_states ms saved)
      | _ => Some ms
      end
  end.

(** The world once [load_checkpoint] has restored the bookkeeping from the
    record [d]. *)
Definition restored_world (d : dict) (w : World) : World :=
  let w1 := match d !! "best_score" with
            | Some v => set_attrs (insert "best_score" v) w
            | None => w
            end in
  match d !! "last_step" with
  | Some v => set_attrs (insert "last_step" v) w1
  | None => w1
  end.

(** *** [setup_experiment] *)

(** Both seeded libraries take the seed of the namespace. *)
Definition seeds_taken (torch_takes numpy_takes : Z → bool) (c : Config) : bool :=
  torch_takes (cfg_seed c) && numpy_takes (cfg_seed c).

(** The name of the experiment: the one given, or for want of one (none, or
    the empty string) the name of the model with dashes. *)
Definition experiment_name (c : Config) : string :=
  match cfg_experiment c with
  | Some (String x e) => String x e
  | _ => replace_char "_" "-" (cfg_model c)
  end.

(** The components below [output_dir] that lead to the experiment. *)
Definition experiment_parts (c : Config) : list string :=
  [cfg_dataset c; (if cfg_draft c then "drafts/" else "") +:+ experiment_name c].

(** The directories that a set-up asks for, in the order of the calls. *)
Definition setup_dirs (c : Config) : list string :=
  [os_path_join (cfg_output_dir c) (experiment_parts c)]
  ++ (if cfg_no_save c then []
      else [os_path_join (cfg_output_dir c) (experiment_parts c ++ ["checkpoints"])])
  ++ (if cfg_no_log c then []
      else [os_path_join (cfg_output_dir c) (experiment_parts c ++ ["logs"])]).

(** The set-up can create its directories. *)
Definition can_setup (c : Config) (w : World) : bool :=
  forallb (λ d, can_makedirs d w) (setup_dirs c).

(** The namespace with its flag [resume_training] set to [b]. *)
Definition with_resume_training (b : bool) (c : Config) : Config :=
  {| cfg_seed := cfg_seed c; cfg_output_dir := cfg_output_dir c;
     cfg_experiment := cfg_experiment c;
     cfg_resume_training := b;
     cfg_restore_file := cfg_restore_file c;
     cfg_valid_interval := cfg_valid_interval c; cfg_no_save := cfg_no_save c;
     cfg_save_interval := cfg_save_interval c;
     cfg_step_checkpoints := cfg_step_checkpoints c; cfg_no_log := cfg_no_log c;
     cfg_log_interval := cfg_log_interval c; cfg_no_visual := cfg_no_visual c;
     cfg_visual_interval := cfg_visual_interval c;
     cfg_no_progress := cfg_no_progress c; cfg_draft := cfg_draft c;
     cfg_dry_run := cfg_dry_run c; cfg_model := cfg_model c;
     cfg_dataset := cfg_dataset c;
     cfg_experiment_dir := cfg_experiment_dir c;
     cfg_checkpoint_dir := cfg_checkpoint_dir c;
     cfg_log_dir := cfg_log_dir c; cfg_log_file := cfg_log_file c |}.

(** An example: the defaults of the parser for a model and a data set, in a
    process that takes every seed. *)
Definition demo_config : Config := parsed_defaults "graph_net" "cora".

Definition demo_setup : Runtime * (seed_fault + Config) :=
  setup_experiment (λ _, true) (λ _, true) demo_config
    (fresh_runtime (fresh_process ∅ ∅ ∅ ["train.py"])).

(** The namespace that a set-up leaves when it is no dry run. *)
Definition laid_out (c : Config) : Config :=
  let experiment_dir := os_path_join (cfg_output_dir c) (experiment_parts c) in
  let c1 := set_experiment_dir experiment_dir (set_experiment (experiment_name c) c) in
  let c2 := if cfg_no_save c then c1
            else set_checkpoint_dir (os_path_join experiment_dir ["checkpoints"]) c1 in
  if cfg_no_log c then c2
  else set_log (os_path_join experiment_dir ["logs"])
         (os_path_join (os_path_join experiment_dir ["logs"]) ["train.log"]) c2.

(** The runtime that a set-up leaves when the seed is taken. *)
Definition seeded (c : Config) (w : World) : Runtime :=
  {| rt_world := w; cudnn_deterministic := true; cudnn_benchmark := false;
     torch_seed := Some (cfg_seed c); numpy_seed := Some (cfg_seed c);
     random_seed := Some (cfg_seed c) |}.

(** What the parser yields for [--dry-run]. *)
Definition dry_config : Config :=
  {| cfg_seed := 0; cfg_output_dir := "experiments"; cfg_experiment := None;
     cfg_resume_training := false; cfg_restore_file := None;
     cfg_valid_interval := 1; cfg_no_save := false; cfg_save_interval := 1;
     cfg_step_checkpoints := false; cfg_no_log := false;
     cfg_log_interval := 100; cfg_no_visual := false;
     cfg_visual_interval := 100; cfg_no_progress := false;
     cfg_draft := false; cfg_dry_run := true;
     cfg_model := "graph_net"; cfg_dataset := "cora";
     cfg_experiment_dir := None; cfg_checkpoint_dir := None;
     cfg_log_dir := None; cfg_log_file := None |}.

(** What the parser yields for [--seed -1], a seed that numpy refuses, and
    the seeds that numpy takes. *)
Definition negative_seed_config : Config :=
  {| cfg_seed := -1; cfg_output_dir := "experiments"; cfg_experiment := None;
     cfg_resume_training := false; cfg_restore_file := None;
     cfg_valid_interval := 1; cfg_no_save := false; cfg_save_interval := 1;
     cfg_step_checkpoints := false; cfg_no_log := false;
     cfg_log_interval := 100; cfg_no_visual := false;
     cfg_visual_interval := 100; cfg_no_progress := false;
     cfg_draft := false; cfg_dry_run := false;
     cfg_model := "graph_net"; cfg_dataset := "cora";
     cfg_experiment_dir := None; cfg_checkpoint_dir := None;
     cfg_log_dir := None; cfg_log_file := None |}.

Definition numpy_seed_range (z : Z) : bool :=
  bool_decide (0 ≤ z) && bool_decide (z < 2 ^ 32).

(** An experiment named by an absolute path. *)
Definition absolute_config : Config :=
  {| cfg_seed := 0; cfg_output_dir := "experiments";
     cfg_experiment := Some "/scratch/run1";
     cfg_resume_training := false; cfg_restore_file := None;
     cfg_valid_interval := 1; cfg_no_save := false; cfg_save_interval := 1;
     cfg_step_checkpoints := false; cfg_no_log := false;
     cfg_log_interval := 100; cfg_no_visual := false;
     cfg_visual_interval := 100; cfg_no_progress := false;
     cfg_draft := false; cfg_dry_run := false;
     cfg_model := "graph_net"; cfg_dataset := "cora";
     cfg_experiment_dir := None; cfg_checkpoint_dir := None;
     cfg_log_dir := None; cfg_log_file := None |}.

(** *** Masks *)

(** The entry [(i, j)] of a matrix, if it has one. *)
Definition mask_entry {A} (m : matrix A) (i j : nat) : option A :=
  row ← m !! i; row !! j.

(** ** Numbers *)

Lemma float_lt_int (a b : Z) :
  float_lt (Fin (inject_Z a)) (Fin (inject_Z b)) = bool_decide (a < b).
Proof.
  unfold float_lt, Qle_bool, inject_Z; simpl.
  rewrite !Z.mul_1_r.
  destruct (Z.leb_spec b a); case_bool_decide; simpl; auto; lia.
Qed.

Lemma float_lt_irrefl (x : pyfloat) : float_lt x x = false.
Proof.
  destruct x; simpl; auto.
  apply negb_false_iff, Qle_bool_iff, Qle_refl.
Qed.

Lemma float_lt_asym (x y : pyfloat) : float_lt x y = true → float_lt y x = false.
Proof.
  destruct x, y; simpl; auto; try discriminate.
  rewrite negb_true_iff, negb_false_iff.
  intros H. apply Qle_bool_iff. apply Qnot_lt_le. intros Hlt.
  apply Qlt_le_weak, Qle_bool_iff in Hlt. congruence.
Qed.

Lemma py_max_int (l step : Z) :
  py_max (PyInt l) (PyInt step) = inr (PyInt (Z.max l step)).
Proof.
  unfold py_max, py_gt, py_lt; cbn [as_number]. rewrite float_lt_int.
  case_bool_decide; f_equal; f_equal; lia.
Qed.

Lemma py_gt_int (step l : Z) :
  py_gt (PyInt step) (PyInt l) = inr (bool_decide (l < step)).
Proof. unfold py_gt, py_lt; cbn [as_number]. by rewrite float_lt_int. Qed.

Lemma is_int_inv (v : pyval) : is_int v = true → ∃ z, v = PyInt z.
Proof. destruct v; try discriminate; eauto. Qed.

Lemma is_number_inv (v : pyval) : is_number v = true → ∃ x, as_number v = Some x.
Proof. destruct v; try discriminate; simpl; eauto. Qed.

Lemma is_number_default_score (mode : string) : is_number (default_score mode) = true.
Proof. unfold default_score; by case_bool_decide. Qed.

Lemma wf_attrs_last (a : dict) :
  wf_attrs a = true → last_step_value a = PyInt (last_step_int a).
Proof.
  unfold wf_attrs, last_step_int. intros [H _]%andb_true_iff.
  by destruct (is_int_inv _ H) as [z ->].
Qed.

Lemma wf_attrs_best (a : dict) (mode : string) :
  wf_attrs a = true → is_number (current_best a mode) = true.
Proof.
  unfold wf_attrs, current_best. intros [_ H]%andb_true_iff.
  destruct (a !! "best_score"); simpl in *; auto using is_number_default_score.
Qed.

Lemma improves_eq (score best : pyval) (mode : string) (w : World) :
  is_number score = true → is_number best = true →
  improves score best mode w = (w, inr (strictly_improves score best mode)).
Proof.
  intros [s Hs]%is_number_inv [b Hb]%is_number_inv.
  unfold improves, strictly_improves, py_gt, py_lt, lift, mbind, M_bind, mret, M_ret.
  rewrite Hs, Hb.
  destruct (float_lt s b) eqn:Hlt, (bool_decide (mode = "min")); simpl;
    rewrite ?Hs, ?Hb, ?(float_lt_asym _ _ Hlt);
    by destruct (float_lt b s), (bool_decide (mode = "max")).
Qed.

(** A score that is not a number cannot be compared. *)
Lemma improves_not_number (score best : pyval) (mode : string) (w : World) :
  is_number score = false →
  improves score best mode w = (w, inl TypeError).
Proof.
  intros Hs. unfold improves, py_lt, lift, mbind, M_bind.
  by destruct score.
Qed.

(** ** [save_checkpoint], case by case *)

Lemma attrs_create_dir (p : string) (w : World) : attrs (create_dir p w) = attrs w.
Proof. reflexivity. Qed.

Lemma attrs_write_pickle (d : dict) (p : string) (w : World) :
  attrs (write_pickle d p w) = attrs w.
Proof. reflexivity. Qed.

Lemma attrs_set_attrs (f : dict → dict) (w : World) :
  attrs (set_attrs f w) = f (attrs w).
Proof. reflexivity. Qed.

Lemma save_checkpoint_cases (args : Args) (step : Z)
    (model optimizer scheduler : option component) (score : pyval)
    (mode : string) (w : World) :
  valid_mode mode = true → wf_attrs (attrs w) = true → is_number score = true →
  save_checkpoint args step model optimizer scheduler score mode w
  = save_cases args step model optimizer scheduler score mode w.
Proof.
  intros Hmode Hwf Hscore.
  pose proof (wf_attrs_last _ Hwf) as Hlast.
  pose proof (wf_attrs_best _ mode Hwf) as Hbest.
  unfold save_checkpoint, save_cases, after_bookkeeping.
  unfold valid_mode in Hmode. rewrite Hmode.
  unfold py_assert, getattr_default, gets, setattr, makedirs, torch_save,
    getattr, modify, lift, when.
  unfold mbind, M_bind, mret, M_ret.
  fold (last_step_value (attrs w)). rewrite Hlast, py_max_int.
  rewrite attrs_set_attrs, lookup_insert_ne by done.
  fold (default_score mode). fold (current_best (attrs w) mode).
  rewrite improves_eq by done.
  unfold py_mod, after_writes, record_of, best_path, last_path, step_path.
  destruct (strictly_improves score (current_best (attrs w) mode) mode) eqn:Hbetter;
    destruct (no_save args); try reflexivity;
    destruct (decide (save_interval args = 0)); try reflexivity;
    destruct (bool_decide (step mod save_interval args = 0)); try reflexivity;
    cbv beta iota zeta;
    rewrite ?attrs_create_dir, ?attrs_set_attrs;
    repeat (rewrite lookup_insert_eq || rewrite lookup_insert_ne by done);
    cbv beta iota zeta;
    rewrite ?attrs_create_dir, ?attrs_set_attrs;
    repeat (rewrite lookup_insert_eq || rewrite lookup_insert_ne by done);
    [|destruct (attrs w !! "best_step") eqn:Hbs; [|reflexivity]];
    cbv beta iota zeta;
    rewrite ?attrs_create_dir, ?attrs_set_attrs;
    repeat (rewrite lookup_insert_eq || rewrite lookup_insert_ne by done);
    cbn [default from_option id];
    destruct (step_checkpoints args);
    cbv beta iota zeta;
    rewrite improves_eq, Hbetter, py_gt_int by done;
    destruct (bool_decide (last_step_int (attrs w) < step)); reflexivity.
Qed.

(** A score that is not a number stops the call at the comparison, after
    [last_step] was updated. *)
Lemma save_checkpoint_not_number (args : Args) (step : Z)
    (model optimizer scheduler : option component) (score : pyval)
    (mode : string) (w : World) :
  valid_mode mode = true → wf_attrs (attrs w) = true → is_number score = false →
  save_checkpoint args step model optimizer scheduler score mode w
  = (set_attrs (insert "last_step" (PyInt (Z.max (last_step_int (attrs w)) step))) w,
     inl TypeError).
Proof.
  intros Hmode Hwf Hscore.
  pose proof (wf_attrs_last _ Hwf) as Hlast.
  unfold save_checkpoint.
  unfold valid_mode in Hmode. rewrite Hmode.
  unfold py_assert, getattr_default, gets, setattr, modify, lift.
  unfold mbind, M_bind, mret, M_ret.
  fold (last_step_value (attrs w)). rewrite Hlast, py_max_int.
  by rewrite improves_not_number.
Qed.

(** *** What a call leaves in the bookkeeping *)

Lemma after_bookkeeping_last (step : Z) (score : pyval) (mode : string) (w : World) :
  attrs (after_bookkeeping step score mode w) !! "last_step"
  = Some (PyInt (Z.max (last_step_int (attrs w)) step)).
Proof.
  unfold after_bookkeeping. case_match; rewrite !attrs_set_attrs;
    repeat (rewrite lookup_insert_eq || rewrite lookup_insert_ne by done); done.
Qed.

Lemma after_bookkeeping_best_score (step : Z) (score : pyval) (mode : string) (w : World) :
  attrs (after_bookkeeping step score mode w) !! "best_score"
  = if strictly_improves score (current_best (attrs w) mode) mode
    then Some score else attrs w !! "best_score".
Proof.
  unfold after_bookkeeping. case_match; rewrite !attrs_set_attrs;
    repeat (rewrite lookup_insert_eq || rewrite lookup_insert_ne by done); done.
Qed.

Lemma after_bookkeeping_best_step (step : Z) (score : pyval) (mode : string) (w : World) :
  attrs (after_bookkeeping step score mode w) !! "best_step"
  = if strictly_improves score (current_best (attrs w) mode) mode
    then Some (PyInt step) else attrs w !! "best_step".
Proof.
  unfold after_bookkeeping. case_match; rewrite !attrs_set_attrs;
    repeat (rewrite lookup_insert_eq || rewrite lookup_insert_ne by done); done.
Qed.

Lemma after_bookkeeping_no_io (step : Z) (score : pyval) (mode : string) (w : World) :
  no_io w (after_bookkeeping step score mode w).
Proof. unfold after_bookkeeping, no_io. by case_match. Qed.

Lemma attrs_after_writes (args : Args) (step : Z)
    (model optimizer scheduler : option component) (score : pyval)
    (better forward : bool) (best_step : pyval) (w2 : World) :
  attrs (after_writes args step model optimizer scheduler score better forward
           best_step w2) = attrs w2.
Proof. unfold after_writes. by repeat case_match. Qed.

(** Whatever the case, the attributes after the call are those after its
    bookkeeping. *)
Lemma attrs_save_cases (args : Args) (step : Z)
    (model optimizer scheduler : option component) (score : pyval)
    (mode : string) (w : World) :
  attrs (save_cases args step model optimizer scheduler score mode w).1
  = attrs (after_bookkeeping step score mode w).
Proof.
  unfold save_cases. repeat case_match; simpl; try done.
  by rewrite attrs_after_writes.
Qed.

(** *** What a call adds to the trace *)

Lemma new_events_app (w w' : World) (l : list event) :
  trace w' = trace w ++ l → new_events w w' = l.
Proof. unfold new_events. intros ->. by rewrite drop_app_length. Qed.

Lemma trace_after_bookkeeping (step : Z) (score : pyval) (mode : string) (w : World) :
  trace (after_bookkeeping step score mode w) = trace w.
Proof. unfold after_bookkeeping. by case_match. Qed.

Lemma trace_after_writes (args : Args) (step : Z)
    (model optimizer scheduler : option component) (score : pyval)
    (better forward : bool) (best_step : pyval) (w2 : World) :
  trace (after_writes args step model optimizer scheduler score better forward
           best_step w2)
  = trace w2
    ++ saved (step_checkpoints args)
         (record_of args step model optimizer scheduler score (attrs w2) best_step)
         (step_path args step)
    ++ saved better
         (record_of args step model optimizer scheduler score (attrs w2) best_step)
         (best_path args)
    ++ saved forward
         (record_of args step model optimizer scheduler score (attrs w2) best_step)
         (last_path args).
Proof.
  unfold after_writes, saved.
  destruct (step_checkpoints args), better, forward; simpl;
    rewrite <- ?app_assoc, ?app_nil_r; reflexivity.
Qed.

Lemma strictly_improves_not_number (score best : pyval) (mode : string) :
  is_number score = false → strictly_improves score best mode = false.
Proof. by destruct score. Qed.

Lemma save_cases_skipped (args : Args) (step : Z)
    (model optimizer scheduler : option component) (score : pyval)
    (mode : string) (w : World) :
  no_save args = true ∨ ¬ (save_interval args | step) →
  no_io w (save_cases args step model optimizer scheduler score mode w).1.
Proof.
  intros Hskip. unfold save_cases.
  destruct (no_save args) eqn:Hno; [apply after_bookkeeping_no_io|].
  destruct Hskip as [?|Hndiv]; [done|].
  destruct (decide (save_interval args = 0)) as [|Hsi]; [apply after_bookkeeping_no_io|].
  case_bool_decide as Hmod; [|apply after_bookkeeping_no_io].
  destruct Hndiv. by apply Z.mod_divide.
Qed.

(** C6. A call of [save_checkpoint] with [no_save] set, or with a [step] that
    is not a multiple of [save_interval], writes no file and creates no
    directory, and still updates the bookkeeping: [last_step] becomes the
    maximum of the previous [last_step] (read as [-1] while unset) and
    [step], and [best_score]/[best_step] become [score]/[step] when [score]
    strictly improves on the best so far under [mode] (and stay as they were
    otherwise). *)
Theorem save_checkpoint_skipped (w : World) (args : Args) (step : Z)
    (model optimizer scheduler : option component) (score : pyval) (mode : string) :
  valid_mode mode = true →
  wf_attrs (attrs w) = true →
  no_save args = true ∨ ¬ (save_interval args | step) →
  let w' := (save_checkpoint args step model optimizer scheduler score mode w).1 in
  no_io w w'
  ∧ attrs w' !! "last_step" = Some (PyInt (Z.max (last_step_int (attrs w)) step))
  ∧ (if strictly_improves score (current_best (attrs w) mode) mode
     then attrs w' !! "best_score" = Some score
          ∧ attrs w' !! "best_step" = Some (PyInt step)
     else attrs w' !! "best_score" = attrs w !! "best_score"
          ∧ attrs w' !! "best_step" = attrs w !! "best_step").
Proof.
  intros Hmode Hwf Hskip w'. subst w'.
  destruct (is_number score) eqn:Hscore.
  - rewrite save_checkpoint_cases by done.
    split; [by apply save_cases_skipped|].
    rewrite attrs_save_cases, after_bookkeeping_last,
      after_bookkeeping_best_score, after_bookkeeping_best_step.
    split; [done|]. by case_match.
  - rewrite save_checkpoint_not_number by done.
    rewrite strictly_improves_not_number by done. simpl.
    rewrite lookup_insert_eq, !lookup_insert_ne by done.
    repeat split.
Qed.

Lemma save_checkpoint_skipped_witness :
  let w := fresh_process ∅ ∅ ∅ [] in
  let w' := (save_checkpoint skip_args 7 None None None (PyFloat (Fin 0.5)) "min" w).1 in
  no_io w w'
  ∧ attrs w' !! "last_step" = Some (PyInt (Z.max (last_step_int (attrs w)) 7))
  ∧ (if strictly_improves (PyFloat (Fin 0.5)) (current_best (attrs w) "min") "min"
     then attrs w' !! "best_score" = Some (PyFloat (Fin 0.5))
          ∧ attrs w' !! "best_step" = Some (PyInt 7)
     else attrs w' !! "best_score" = attrs w !! "best_score"
          ∧ attrs w' !! "best_step" = attrs w !! "best_step").
Proof.
  apply (save_checkpoint_skipped (fresh_process ∅ ∅ ∅ []) skip_args 7
           None None None (PyFloat (Fin 0.5)) "min").
  - reflexivity.
  - reflexivity.
  - right. intros [k Hk]. simpl in Hk. lia.
Defined.

(** ** [load_checkpoint] *)

Lemma restore_component_world (xs : option (list blob)) (d : dict)
    (key : string) (w : World) :
  (restore_component xs d key w).1 = w.
Proof. unfold restore_component. by repeat case_match. Qed.

Lemma attrs_foldl_handle (msg : string) (hs : list handler) (w : World) :
  attrs (foldl (handle msg) w hs) = attrs w.
Proof.
  revert w. induction hs as [|h hs IH]; intros w; simpl; [done|].
  rewrite IH. by destruct h.
Qed.

Lemma attrs_logging_info (msg : string) (w : World) :
  attrs (logging_info msg w).1 = attrs w.
Proof.
  unfold logging_info, gets, when, modify, mbind, M_bind, mret, M_ret.
  repeat case_match; simplify_eq/=; rewrite ?attrs_foldl_handle; done.
Qed.

Lemma logging_info_returns (msg : string) (w : World) :
  (logging_info msg w).2 = inr tt.
Proof.
  unfold logging_info, gets, when, modify, mbind, M_bind, mret, M_ret.
  by repeat case_match.
Qed.

Lemma when_is_Some_setattr (d : dict) (key : string) (w : World) :
  when (bool_decide (is_Some (d !! key)))
    (setattr key (default PyNone (d !! key))) w
  = (match d !! key with
     | Some v => set_attrs (insert key v) w
     | None => w
     end, inr tt).
Proof.
  by destruct (d !! key).
Qed.

(** Whatever happens to the instances afterwards, a load of an existing
    pickled record leaves the bookkeeping as [restore_attrs] says. *)
Lemma load_checkpoint_attrs (args : Args)
    (model optimizer scheduler : option component) (w : World)
    (path : string) (d : dict) :
  restore_file args = Some path →
  files w !! path = Some [Pickled d] →
  attrs (load_checkpoint args model optimizer scheduler w).1
  = restore_attrs d (attrs w).
Proof.
  intros Hpath Hfile. unfold load_checkpoint. rewrite Hpath.
  unfold isfile, torch_load, gets.
  unfold mbind at 1, M_bind at 1. rewrite Hfile.
  rewrite bool_decide_eq_true_2 by eauto.
  unfold mbind at 1, M_bind at 1. rewrite Hfile.
  unfold mbind at 1, M_bind at 1.
  unfold mbind at 1, M_bind at 1. rewrite when_is_Some_setattr.
  unfold mbind at 1, M_bind at 1. rewrite when_is_Some_setattr.
  set (w1 := match d !! "last_step" with Some v => _ | None => _ end).
  assert (attrs w1 = restore_attrs d (attrs w)) as Hw1.
  { unfold w1, restore_attrs. by repeat case_match. }
  clearbody w1.
  unfold mbind, M_bind.
  pose proof (restore_component_world (as_list model) d "model" w1) as H1.
  destruct (restore_component (as_list model) d "model" w1) as [w2 [e|x]];
    simpl in H1; subst w2; [done|].
  pose proof (restore_component_world (as_list optimizer) d "optimizer" w1) as H2.
  destruct (restore_component (as_list optimizer) d "optimizer" w1) as [w2 [e|y]];
    simpl in H2; subst w2; [done|].
  pose proof (restore_component_world (as_list scheduler) d "scheduler" w1) as H3.
  destruct (restore_component (as_list scheduler) d "scheduler" w1) as [w2 [e|z]];
    simpl in H3; subst w2; [done|].
  pose proof (attrs_logging_info ("Loaded checkpoint " +:+ path) w1) as H4.
  destruct (logging_info ("Loaded checkpoint " +:+ path) w1) as [w2 [e|[]]];
    simpl in H4; simpl; congruence.
Qed.

Lemma files_write_pickle (d : dict) (p path : string) (w : World) :
  files (write_pickle d p w) !! path
  = if decide (p = path) then Some [Pickled d] else files w !! path.
Proof. unfold write_pickle; simpl. by rewrite lookup_insert. Qed.

(** Every file that the writes of a call touched holds the record of that
    call. *)
Lemma files_after_writes_wrote (args : Args) (step : Z)
    (model optimizer scheduler : option component) (score : pyval)
    (better forward : bool) (best_step : pyval) (w2 : World)
    (path : string) (d' : dict) :
  let d := record_of args step model optimizer scheduler score (attrs w2) best_step in
  EvSave path d' ∈ saved (step_checkpoints args) d (step_path args step)
                   ++ saved better d (best_path args)
                   ++ saved forward d (last_path args) →
  files (after_writes args step model optimizer scheduler score better forward
           best_step w2) !! path = Some [Pickled d].
Proof.
  intros d. unfold after_writes, saved. fold d.
  destruct (step_checkpoints args), better, forward; simpl; intros H;
    repeat (apply elem_of_cons in H as [H|H]; [injection H as -> _|]);
    try (by apply elem_of_nil in H);
    rewrite ?lookup_insert; repeat case_decide; done.
Qed.

Lemma restore_component_returns (xs : option (list blob)) (d : dict)
    (key : string) (w : World) :
  states_or_none (default PyNone (d !! key)) = true →
  ∃ r, restore_component xs d key w = (w, inr r).
Proof.
  unfold restore_component. intros H.
  destruct xs; [|by eexists].
  destruct (default PyNone (d !! key)); try discriminate; by eexists.
Qed.

(** A load of an existing pickled record whose saved states are lists (or
    absent) returns that record. *)
Lemma load_checkpoint_returns (args : Args)
    (model optimizer scheduler : option component) (w : World)
    (path : string) (d : dict) :
  restore_file args = Some path →
  files w !! path = Some [Pickled d] →
  states_or_none (default PyNone (d !! "model")) = true →
  states_or_none (default PyNone (d !! "optimizer")) = true →
  states_or_none (default PyNone (d !! "scheduler")) = true →
  ∃ l, (load_checkpoint args model optimizer scheduler w).2 = inr (Some l)
       ∧ loaded_record l = d.
Proof.
  intros Hpath Hfile Hm Ho Hs. unfold load_checkpoint. rewrite Hpath.
  unfold isfile, torch_load, gets.
  unfold mbind at 1, M_bind at 1. rewrite Hfile.
  rewrite bool_decide_eq_true_2 by eauto.
  unfold mbind at 1, M_bind at 1. rewrite Hfile.
  unfold mbind at 1, M_bind at 1.
  unfold mbind at 1, M_bind at 1. rewrite when_is_Some_setattr.
  unfold mbind at 1, M_bind at 1. rewrite when_is_Some_setattr.
  set (w1 := match d !! "last_step" with Some v => _ | None => _ end).
  clearbody w1.
  unfold mbind, M_bind.
  destruct (restore_component_returns (as_list model) d "model" w1 Hm) as [x ->].
  destruct (restore_component_returns (as_list optimizer) d "optimizer" w1 Ho) as [y ->].
  destruct (restore_component_returns (as_list scheduler) d "scheduler" w1 Hs) as [z ->].
  pose proof (logging_info_returns ("Loaded checkpoint " +:+ path) w1) as H4.
  destruct (logging_info ("Loaded checkpoint " +:+ path) w1) as [w2 [e|[]]];
    simpl in H4; [done|].
  simpl. eauto.
Qed.

Lemma states_of_ok (xs : option (list blob)) : states_or_none (states_of xs) = true.
Proof. by destruct xs. Qed.

(** The record of a call: its fields. *)
Lemma record_of_lookup (args : Args) (step : Z)
    (model optimizer scheduler : option component) (score : pyval)
    (a : dict) (best_step : pyval) :
  let d := record_of args step model optimizer scheduler score a best_step in
  d !! "step" = Some (PyInt step)
  ∧ d !! "score" = Some score
  ∧ d !! "last_step" = Some (default PyNone (a !! "last_step"))
  ∧ d !! "best_step" = Some best_step
  ∧ d !! "best_score" = Some (default PyNone (a !! "best_score"))
  ∧ d !! "model" = Some (states_of (as_list model))
  ∧ d !! "optimizer" = Some (states_of (as_list optimizer))
  ∧ d !! "scheduler" = Some (states_of (as_list scheduler)).
Proof.
  unfold record_of; simpl.
  repeat split;
    repeat (rewrite lookup_insert_eq || rewrite lookup_insert_ne by done); done.
Qed.

(** *** A call that is due: [no_save] unset and [step] a multiple of
    [save_interval] *)

Lemma save_cases_due (args : Args) (step : Z)
    (model optimizer scheduler : option component) (score : pyval)
    (mode : string) (w : World) :
  no_save args = false → (save_interval args | step) → save_interval args ≠ 0 →
  save_cases args step model optimizer scheduler score mode w
  = let w1 := after_bookkeeping step score mode w in
    let w2 := create_dir (checkpoint_dir args) w1 in
    match attrs w1 !! "best_step" with
    | None => (w2, inl AttributeError)
    | Some best_step =>
        (after_writes args step model optimizer scheduler score
           (strictly_improves score (current_best (attrs w) mode) mode)
           (bool_decide (last_step_int (attrs w) < step)) best_step w2,
         inr tt)
    end.
Proof.
  intros Hno Hdiv Hsi. unfold save_cases. rewrite Hno.
  destruct (decide (save_interval args = 0)); [done|].
  rewrite bool_decide_eq_true_2; [done|]. by apply Z.mod_divide.
Qed.

Lemma new_events_after_writes (args : Args) (step : Z)
    (model optimizer scheduler : option component) (score : pyval)
    (mode : string) (better forward : bool) (best_step : pyval) (w : World) :
  let w2 := create_dir (checkpoint_dir args) (after_bookkeeping step score mode w) in
  let d := record_of args step model optimizer scheduler score (attrs w2) best_step in
  new_events w
    (after_writes args step model optimizer scheduler score better forward
       best_step w2)
  = EvMakedirs (checkpoint_dir args)
    :: saved (step_checkpoints args) d (step_path args step)
    ++ saved better d (best_path args)
    ++ saved forward d (last_path args).
Proof.
  intros w2 d. apply new_events_app.
  rewrite trace_after_writes. fold w2 d.
  unfold w2 at 1, create_dir, emit; simpl.
  rewrite trace_after_bookkeeping. by rewrite <- app_assoc.
Qed.

Lemma divide_nonzero (a b : Z) : (a | b) → b ≠ 0 → a ≠ 0.
Proof. intros [k ->] Hb ->. lia. Qed.

Lemma valid_mode_inv (mode : string) :
  valid_mode mode = true → mode = "min" ∨ mode = "max".
Proof.
  unfold valid_mode. intros [H|H]%orb_true_iff; apply bool_decide_eq_true in H; auto.
Qed.

(** C1. In a fresh process, [save_checkpoint] at step 10 with score 0.5
    ([no_save] unset, [save_interval] dividing 10, mode ["min"] or ["max"])
    returns and writes [checkpoint_best.pt] and [checkpoint_last.pt]; a
    [load_checkpoint] whose [restore_file] names any file that call wrote,
    run on the files the call left (in the same process or in another one),
    returns the record and leaves [last_step = 10] and [best_score = 0.5]
    in the bookkeeping. *)
Theorem save_load_roundtrip (args : Args) (fs : gmap string file)
    (ds : gset string) (fds : gset Z) (av : list string)
    (model optimizer scheduler : option component) (mode : string) :
  no_save args = false →
  (save_interval args | 10) →
  valid_mode mode = true →
  let w0 := fresh_process fs ds fds av in
  let call := save_checkpoint args 10 model optimizer scheduler
                (PyFloat (Fin 0.5)) mode w0 in
  call.2 = inr tt
  ∧ wrote (best_path args) w0 call.1
  ∧ wrote (last_path args) w0 call.1
  ∧ ∀ (path : string) (w : World) (args' : Args)
      (model' optimizer' scheduler' : option component),
      wrote path w0 call.1 →
      files w = files call.1 →
      restore_file args' = Some path →
      let loaded := load_checkpoint args' model' optimizer' scheduler' w in
      (∃ l, loaded.2 = inr (Some l))
      ∧ attrs loaded.1 !! "last_step" = Some (PyInt 10)
      ∧ attrs loaded.1 !! "best_score" = Some (PyFloat (Fin 0.5)).
Proof.
  intros Hno Hdiv Hmode w0 call. subst call.
  assert (strictly_improves (PyFloat (Fin 0.5)) (current_best (attrs w0) mode) mode
          = true) as Hbetter.
  { by destruct (valid_mode_inv _ Hmode) as [-> | ->]. }
  rewrite save_checkpoint_cases by done.
  rewrite save_cases_due by (try apply (divide_nonzero _ 10); done).
  cbv zeta. rewrite after_bookkeeping_best_step, Hbetter.
  cbn [fst snd].
  unfold wrote. rewrite new_events_after_writes.
  change (bool_decide (last_step_int (attrs w0) < 10)) with true.
  set (w2 := create_dir _ _).
  set (d := record_of _ _ _ _ _ _ _ _).
  split; [done|].
  split; [exists d; unfold saved at 2 3; set_solver|].
  split; [exists d; unfold saved at 2 3; set_solver|].
  intros path w args' model' optimizer' scheduler' [d' Hd'] Hfiles Hpath.
  apply elem_of_cons in Hd' as [Hd'|Hd']; [done|].
  pose proof (files_after_writes_wrote _ _ _ _ _ _ _ _ _ _ _ _ Hd') as Hfile.
  fold w2 d in Hfile. rewrite <- Hfiles in Hfile.
  destruct (record_of_lookup args 10 model optimizer scheduler (PyFloat (Fin 0.5))
              (attrs w2) (PyInt 10)) as (_ & _ & Hl & _ & Hb & Hm & Ho & Hs).
  fold d in Hl, Hb, Hm, Ho, Hs.
  split.
  - destruct (load_checkpoint_returns args' model' optimizer' scheduler' w path d)
      as (l & Hl' & _); rewrite ?Hm, ?Ho, ?Hs; simpl; auto using states_of_ok.
    eauto.
  - rewrite (load_checkpoint_attrs _ _ _ _ _ path d) by done.
    unfold restore_attrs. rewrite Hl, Hb.
    rewrite lookup_insert_eq, lookup_insert_ne, lookup_insert_eq by done.
    unfold w2. rewrite attrs_create_dir, after_bookkeeping_last,
      after_bookkeeping_best_score, Hbetter. done.
Qed.

Lemma save_load_roundtrip_witness :
  no_save skip_args = false
  ∧ (save_interval skip_args | 10)
  ∧ valid_mode "min" = true
  ∧ let w0 := fresh_process ∅ ∅ ∅ [] in
    let call := save_checkpoint skip_args 10 None None None (PyFloat (Fin 0.5)) "min" w0 in
    let loaded :=
      load_checkpoint
        {| resume_training := true; restore_file := Some "ckpt/checkpoint_last.pt";
           no_save := false; save_interval := 5; step_checkpoints := true;
           no_log := true; log_file := None; checkpoint_dir := "ckpt" |}
        None None None call.1 in
    attrs loaded.1 !! "last_step" = Some (PyInt 10)
    ∧ attrs loaded.1 !! "best_score" = Some (PyFloat (Fin 0.5)).
Proof.
  assert (no_save skip_args = false) as H1 by reflexivity.
  assert (save_interval skip_args | 10) as H2 by (exists 2; reflexivity).
  assert (valid_mode "min" = true) as H3 by reflexivity.
  refine (conj H1 (conj H2 (conj H3 _))).
  destruct (save_load_roundtrip skip_args ∅ ∅ ∅ [] None None None "min" H1 H2 H3)
    as (_ & _ & Hlast & Hload).
  destruct (Hload "ckpt/checkpoint_last.pt"
              (save_checkpoint skip_args 10 None None None (PyFloat (Fin 0.5)) "min"
                 (fresh_process ∅ ∅ ∅ [])).1
              {| resume_training := true;
                 restore_file := Some "ckpt/checkpoint_last.pt";
                 no_save := false; save_interval := 5; step_checkpoints := true;
                 no_log := true; log_file := None; checkpoint_dir := "ckpt" |}
              None None None Hlast eq_refl eq_refl) as (_ & Hl & Hb).
  exact (conj Hl Hb).
Defined.

(** Whatever the call does, the bookkeeping after [load_checkpoint] is that
    of [restore_attrs] when [restore_file] names a pickled record, and is
    untouched otherwise. *)
Lemma load_checkpoint_attrs_cases (args : Args)
    (model optimizer scheduler : option component) (w : World) :
  attrs (load_checkpoint args model optimizer scheduler w).1
  = match restore_file args with
    | Some path =>
        match files w !! path with
        | Some [Pickled d] => restore_attrs d (attrs w)
        | _ => attrs w
        end
    | None => attrs w
    end.
Proof.
  destruct (restore_file args) as [path|] eqn:Hpath.
  - destruct (files w !! path) as [[|[d|] [|]]|] eqn:Hfile;
      try (by apply (load_checkpoint_attrs _ _ _ _ _ path));
      unfold load_checkpoint; rewrite Hpath;
      unfold isfile, torch_load, gets, mbind, M_bind; rewrite Hfile;
      try (rewrite bool_decide_eq_true_2 by eauto; by rewrite Hfile).
    rewrite bool_decide_eq_false_2; [done|]. by intros [? ?].
  - unfold load_checkpoint. by rewrite Hpath.
Qed.

Lemma restore_attrs_best_step (d a : dict) :
  restore_attrs d a !! "best_step" = a !! "best_step".
Proof.
  unfold restore_attrs. repeat case_match;
    repeat (rewrite lookup_insert_ne by done); done.
Qed.

(** [load_checkpoint] never sets, changes or removes [best_step]. *)
Lemma load_checkpoint_best_step (args : Args)
    (model optimizer scheduler : option component) (w : World) :
  attrs (load_checkpoint args model optimizer scheduler w).1 !! "best_step"
  = attrs w !! "best_step".
Proof.
  rewrite load_checkpoint_attrs_cases.
  repeat case_match; auto using restore_attrs_best_step.
Qed.

Lemma never_improved_best_step (w : World) :
  never_improved w → attrs w !! "best_step" = None.
Proof.
  induction 1 as [| |args step model optimizer scheduler score mode w _ IH Hm Hwf Hs Hno].
  - done.
  - by rewrite load_checkpoint_best_step.
  - rewrite save_checkpoint_cases, attrs_save_cases, after_bookkeeping_best_step by done.
    by rewrite Hno.
Qed.

(** A due call that finds [best_step] unset and does not improve raises
    before anything is written. *)
Lemma save_due_raises (args : Args) (step : Z)
    (model optimizer scheduler : option component) (score : pyval)
    (mode : string) (w : World) :
  valid_mode mode = true → wf_attrs (attrs w) = true → is_number score = true →
  no_save args = false → (save_interval args | step) → save_interval args ≠ 0 →
  attrs w !! "best_step" = None →
  strictly_improves score (current_best (attrs w) mode) mode = false →
  save_checkpoint args step model optimizer scheduler score mode w
  = (create_dir (checkpoint_dir args) (after_bookkeeping step score mode w),
     inl AttributeError).
Proof.
  intros Hmode Hwf Hscore Hno Hdiv Hsi Hbs Hbetter.
  rewrite save_checkpoint_cases, save_cases_due by done.
  cbv zeta. by rewrite after_bookkeeping_best_step, Hbetter, Hbs.
Qed.

(** A due call that finds [best_step] set, or improves, does its writes and
    returns. *)
Lemma save_due_returns (args : Args) (step : Z)
    (model optimizer scheduler : option component) (score : pyval)
    (mode : string) (w : World) :
  valid_mode mode = true → wf_attrs (attrs w) = true → is_number score = true →
  no_save args = false → (save_interval args | step) → save_interval args ≠ 0 →
  is_Some (attrs (after_bookkeeping step score mode w) !! "best_step") →
  ∃ best_step,
    attrs (after_bookkeeping step score mode w) !! "best_step" = Some best_step
    ∧ save_checkpoint args step model optimizer scheduler score mode w
      = (after_writes args step model optimizer scheduler score
           (strictly_improves score (current_best (attrs w) mode) mode)
           (bool_decide (last_step_int (attrs w) < step)) best_step
           (create_dir (checkpoint_dir args) (after_bookkeeping step score mode w)),
         inr tt).
Proof.
  intros Hmode Hwf Hscore Hno Hdiv Hsi [bs Hbs].
  exists bs. split; [done|].
  rewrite save_checkpoint_cases, save_cases_due by done.
  cbv zeta. by rewrite Hbs.
Qed.

Lemma new_events_create_dir (p : string) (step : Z) (score : pyval)
    (mode : string) (w : World) :
  new_events w (create_dir p (after_bookkeeping step score mode w)) = [EvMakedirs p].
Proof.
  apply new_events_app. unfold create_dir, emit; simpl.
  by rewrite trace_after_bookkeeping.
Qed.

(** C10. In a process where no save has improved on the best score so far
    (a fresh process, possibly after loads and after saves that did not
    improve), [best_step] is unset, and a due call of [save_checkpoint]
    ([no_save] unset, [step] a multiple of [save_interval]) whose score does
    not strictly improve either raises [AttributeError]: it has created the
    directory, writes no file and leaves [best_step] unset. *)
Theorem save_checkpoint_raises_without_best_step (w : World) (args : Args)
    (step : Z) (model optimizer scheduler : option component) (score : pyval)
    (mode : string) :
  never_improved w →
  valid_mode mode = true → wf_attrs (attrs w) = true → is_number score = true →
  no_save args = false → (save_interval args | step) → save_interval args ≠ 0 →
  strictly_improves score (current_best (attrs w) mode) mode = false →
  let call := save_checkpoint args step model optimizer scheduler score mode w in
  attrs w !! "best_step" = None
  ∧ call.2 = inl AttributeError
  ∧ new_events w call.1 = [EvMakedirs (checkpoint_dir args)]
  ∧ (∀ path, ¬ wrote path w call.1)
  ∧ files call.1 = files w
  ∧ attrs call.1 !! "best_step" = None.
Proof.
  intros Hnever Hmode Hwf Hscore Hno Hdiv Hsi Hbetter call.
  pose proof (never_improved_best_step _ Hnever) as Hbs.
  subst call. rewrite save_due_raises by done. cbn [fst snd].
  rewrite new_events_create_dir.
  repeat split; try done.
  - intros path [d Hd]. rewrite new_events_create_dir in Hd.
    apply list_elem_of_singleton in Hd. discriminate.
  - unfold create_dir; simpl. apply after_bookkeeping_no_io.
  - by rewrite attrs_create_dir, after_bookkeeping_best_step, Hbetter.
Qed.

Lemma save_checkpoint_raises_without_best_step_witness :
  never_improved resumed
  ∧ wf_attrs (attrs resumed) = true
  ∧ strictly_improves (PyFloat (Fin 0.7)) (current_best (attrs resumed) "min") "min"
    = false
  ∧ (save_checkpoint demo_args 11 (Some (Single "weights")) None None
       (PyFloat (Fin 0.7)) "min" resumed).2 = inl AttributeError.
Proof.
  assert (never_improved resumed) as H1 by apply never_load, never_fresh.
  assert (wf_attrs (attrs resumed) = true) as H2 by (vm_compute; reflexivity).
  assert (strictly_improves (PyFloat (Fin 0.7)) (current_best (attrs resumed) "min")
            "min" = false) as H3 by (vm_compute; reflexivity).
  assert (save_interval demo_args | 11) as H4 by (exists 11; reflexivity).
  assert (save_interval demo_args ≠ 0) as H5 by (simpl; lia).
  refine (conj H1 (conj H2 (conj H3 _))).
  exact (proj1 (proj2 (save_checkpoint_raises_without_best_step resumed demo_args 11
           (Some (Single "weights")) None None (PyFloat (Fin 0.7)) "min"
           H1 eq_refl H2 eq_refl eq_refl H4 H5 H3))).
Defined.

(** The first save of a process with the score [float("inf")] under mode
    ["min"] does not improve on the default best, and raises. *)
Example first_save_inf_raises :
  (save_checkpoint demo_args 10 (Some (Single "weights")) None None
     (PyFloat PosInf) "min" (fresh_process ∅ ∅ ∅ ["train.py"])).2
  = inl AttributeError.
Proof. vm_compute. reflexivity. Qed.

(** ** Paths of the checkpoint files *)

Lemma string_app_length (a b : string) :
  String.length (a +:+ b) = (String.length a + String.length b)%nat.
Proof.
  induction a as [|c a IH]; [done|].
  change (String c a +:+ b) with (String c (a +:+ b)). simpl. by rewrite IH.
Qed.

Lemma string_app_inj_r (a b c : string) : a +:+ c = b +:+ c → a = b.
Proof.
  revert b. induction a as [|x a IH]; intros [|y b] H.
  - done.
  - apply (f_equal String.length) in H.
    change ("" +:+ c) with c in H.
    change (String y b +:+ c) with (String y (b +:+ c)) in H.
    simpl in H. rewrite string_app_length in H. lia.
  - apply (f_equal String.length) in H.
    change ("" +:+ c) with c in H.
    change (String x a +:+ c) with (String x (a +:+ c)) in H.
    simpl in H. rewrite string_app_length in H. lia.
  - change (String x a +:+ c) with (String x (a +:+ c)) in H.
    change (String y b +:+ c) with (String y (b +:+ c)) in H.
    injection H as -> H'. f_equal. by apply IH.
Qed.

Lemma path_join_inj (d a b : string) : path_join d a = path_join d b → a = b.
Proof.
  unfold path_join. case_match; intros Heq.
  - by apply String.app_inj in Heq.
  - apply String.app_inj in Heq. by apply (String.app_inj "/") in Heq.
Qed.

Lemma checkpoint_step_name_inj (s1 s2 : Z) :
  checkpoint_step_name s1 = checkpoint_step_name s2 → s1 = s2.
Proof.
  unfold checkpoint_step_name. intros H.
  apply (String.app_inj "checkpoint") in H.
  apply string_app_inj_r in H. by apply pretty_Z_inj in H.
Qed.

(** The decimal text of an int starts with a digit or a minus sign, never
    with an underscore. *)
Lemma pretty_N_go_head (x : N) (s : string) :
  (0 < x)%N → ∃ c r, pretty_N_go x s = String c r ∧ c ≠ "_"%char.
Proof.
  revert s. induction (N.lt_wf_0 x) as [x _ IH]. intros s Hx.
  rewrite pretty_N_go_step by done.
  destruct (decide (x `div` 10 = 0)%N) as [->|Hdiv].
  - rewrite pretty_N_go_0. eexists _, _. split; [done|].
    unfold pretty_N_char. by repeat case_match.
  - apply IH; [by apply N.div_lt|]. by apply N.neq_0_lt_0.
Qed.

Lemma pretty_Z_head (z : Z) : ∃ c r, pretty z = String c r ∧ c ≠ "_"%char.
Proof.
  destruct z as [|p|p].
  - by eexists _, _.
  - unfold pretty, pretty_Z, pretty, pretty_positive, pretty, pretty_N.
    rewrite decide_False by done. apply pretty_N_go_head. lia.
  - unfold pretty, pretty_Z. by eexists _, _.
Qed.

Lemma checkpoint_step_name_not_underscore (step : Z) (rest : string) :
  checkpoint_step_name step ≠ "checkpoint_" +:+ rest.
Proof.
  unfold checkpoint_step_name. intros H.
  apply (String.app_inj "checkpoint") in H.
  destruct (pretty_Z_head step) as (c & r & Hp & Hc). rewrite Hp in H.
  change (String c r +:+ ".pt") with (String c (r +:+ ".pt")) in H.
  change ("_" +:+ rest) with (String "_" rest) in H.
  by injection H as -> _.
Qed.

Lemma step_path_inj (args : Args) (s1 s2 : Z) :
  step_path args s1 = step_path args s2 → s1 = s2.
Proof. intros H%path_join_inj. by apply checkpoint_step_name_inj. Qed.

Lemma step_path_not_best (args : Args) (step : Z) :
  step_path args step ≠ best_path args.
Proof.
  intros H%path_join_inj.
  by apply (checkpoint_step_name_not_underscore step "best.pt").
Qed.

Lemma step_path_not_last (args : Args) (step : Z) :
  step_path args step ≠ last_path args.
Proof.
  intros H%path_join_inj.
  by apply (checkpoint_step_name_not_underscore step "last.pt").
Qed.

Lemma best_path_not_last (args : Args) : best_path args ≠ last_path args.
Proof. intros H%path_join_inj. discriminate. Qed.

(** ** What a returning call writes *)

Lemma wrote_after_writes (args : Args) (step : Z)
    (model optimizer scheduler : option component) (score : pyval)
    (mode : string) (better forward : bool) (best_step : pyval) (w : World)
    (path : string) :
  wrote path w
    (after_writes args step model optimizer scheduler score better forward
       best_step
       (create_dir (checkpoint_dir args) (after_bookkeeping step score mode w)))
  ↔ (step_checkpoints args = true ∧ path = step_path args step)
    ∨ (better = true ∧ path = best_path args)
    ∨ (forward = true ∧ path = last_path args).
Proof.
  unfold wrote. rewrite new_events_after_writes. unfold saved.
  split.
  - intros [d Hd]. apply elem_of_cons in Hd as [Hd|Hd]; [done|].
    destruct (step_checkpoints args), better, forward; simpl in Hd;
      repeat (apply elem_of_cons in Hd as [Hd|Hd]; [injection Hd as -> _|]);
      try (by apply elem_of_nil in Hd); auto.
  - intros [[-> ->]|[[-> ->]|[-> ->]]]; eexists;
      repeat case_match; simpl; rewrite !elem_of_cons; eauto 10.
Qed.

Lemma files_after_writes_other (args : Args) (step : Z)
    (model optimizer scheduler : option component) (score : pyval)
    (better forward : bool) (best_step : pyval) (w2 : World) (path : string) :
  path ≠ step_path args step → path ≠ best_path args → path ≠ last_path args →
  files (after_writes args step model optimizer scheduler score better forward
           best_step w2) !! path = files w2 !! path.
Proof.
  intros H1 H2 H3. unfold after_writes.
  repeat case_match; rewrite ?files_write_pickle;
    repeat (rewrite decide_False by done); done.
Qed.

Lemma files_create_dir (p : string) (step : Z) (score : pyval) (mode : string)
    (w : World) :
  files (create_dir p (after_bookkeeping step score mode w)) = files w.
Proof. unfold create_dir; simpl. apply after_bookkeeping_no_io. Qed.

(** When a due call returns, it writes [checkpoint_last.pt] exactly if
    [step] exceeds the previous [last_step]. *)
Lemma last_written_iff (w : World) (args : Args) (step : Z)
    (model optimizer scheduler : option component) (score : pyval) (mode : string) :
  valid_mode mode = true → wf_attrs (attrs w) = true → is_number score = true →
  no_save args = false → (save_interval args | step) → save_interval args ≠ 0 →
  is_Some (attrs w !! "best_step")
  ∨ strictly_improves score (current_best (attrs w) mode) mode = true →
  let call := save_checkpoint args step model optimizer scheduler score mode w in
  call.2 = inr tt
  ∧ (wrote (last_path args) w call.1 ↔ last_step_int (attrs w) < step).
Proof.
  intros Hmode Hwf Hscore Hno Hdiv Hsi Hbs call. subst call.
  destruct (save_due_returns args step model optimizer scheduler score mode w)
    as (bs & _ & ->); try done.
  { rewrite after_bookkeeping_best_step. destruct Hbs as [?| ->]; [by case_match|done]. }
  split; [done|]. cbn [fst]. rewrite wrote_after_writes.
  pose proof (step_path_not_last args step).
  pose proof (best_path_not_last args).
  rewrite bool_decide_eq_true. intuition congruence.
Qed.

Lemma not_wrote_same_trace (path : string) (w w' : World) :
  trace w' = trace w → ¬ wrote path w w'.
Proof.
  intros Htrace [d Hd]. unfold new_events in Hd.
  rewrite Htrace, drop_all in Hd. by apply elem_of_nil in Hd.
Qed.

(** No call writes [checkpoint_last.pt] unless its step exceeds the previous
    [last_step], whether it returns or raises. *)
Lemma last_kept_unless_forward (w : World) (args : Args) (step : Z)
    (model optimizer scheduler : option component) (score : pyval) (mode : string) :
  valid_mode mode = true → wf_attrs (attrs w) = true →
  step ≤ last_step_int (attrs w) →
  ¬ wrote (last_path args) w
      (save_checkpoint args step model optimizer scheduler score mode w).1.
Proof.
  intros Hmode Hwf Hle.
  destruct (is_number score) eqn:Hscore.
  - rewrite save_checkpoint_cases by done. unfold save_cases.
    destruct (no_save args);
      [apply not_wrote_same_trace, trace_after_bookkeeping|].
    destruct (decide (save_interval args = 0));
      [apply not_wrote_same_trace, trace_after_bookkeeping|].
    case_bool_decide; [|apply not_wrote_same_trace, trace_after_bookkeeping].
    cbv zeta. destruct (attrs (after_bookkeeping step score mode w) !! "best_step");
      cbn [fst].
    + rewrite wrote_after_writes, bool_decide_eq_true.
      pose proof (step_path_not_last args step).
      pose proof (best_path_not_last args).
      intuition (try congruence; try lia).
    + intros [d Hd]. rewrite new_events_create_dir in Hd.
      apply list_elem_of_singleton in Hd. discriminate.
  - rewrite save_checkpoint_not_number by done. by apply not_wrote_same_trace.
Qed.

(** C7. A due call of [save_checkpoint] ([no_save] unset, [step] a multiple
    of [save_interval]) that finds [best_step] set or improves on the best
    score returns, and writes [checkpoint{step}.pt] exactly if
    [step_checkpoints] is set.  That path differs from those of
    [checkpoint_best.pt] and [checkpoint_last.pt] and from the path of any
    other step, and the call leaves the per-step files of all other steps
    as they were: a per-step file is only ever rewritten by a save at its
    own step. *)
Theorem step_checkpoint_written (w : World) (args : Args) (step : Z)
    (model optimizer scheduler : option component) (score : pyval) (mode : string) :
  valid_mode mode = true → wf_attrs (attrs w) = true → is_number score = true →
  no_save args = false → (save_interval args | step) → save_interval args ≠ 0 →
  is_Some (attrs w !! "best_step")
  ∨ strictly_improves score (current_best (attrs w) mode) mode = true →
  let call := save_checkpoint args step model optimizer scheduler score mode w in
  call.2 = inr tt
  ∧ (wrote (step_path args step) w call.1 ↔ step_checkpoints args = true)
  ∧ step_path args step ≠ best_path args
  ∧ step_path args step ≠ last_path args
  ∧ (∀ step', step' ≠ step →
       step_path args step' ≠ step_path args step
       ∧ ¬ wrote (step_path args step') w call.1
       ∧ files call.1 !! step_path args step' = files w !! step_path args step').
Proof.
  intros Hmode Hwf Hscore Hno Hdiv Hsi Hbs call. subst call.
  destruct (save_due_returns args step model optimizer scheduler score mode w)
    as (bs & _ & ->); try done.
  { rewrite after_bookkeeping_best_step. destruct Hbs as [?| ->]; [by case_match|done]. }
  pose proof (step_path_not_best args) as Hnb.
  pose proof (step_path_not_last args) as Hnl.
  cbn [fst snd]. split; [done|].
  split; [rewrite wrote_after_writes; intuition congruence|].
  split; [done|]. split; [done|].
  intros step' Hstep'.
  assert (step_path args step' ≠ step_path args step) as Hne
    by (by intros ?%step_path_inj).
  split; [done|]. split.
  - rewrite wrote_after_writes. intuition congruence.
  - rewrite files_after_writes_other by done. by rewrite files_create_dir.
Qed.

Lemma step_checkpoint_written_witness :
  valid_mode "min" = true
  ∧ wf_attrs (attrs (fresh_process ∅ ∅ ∅ ["train.py"])) = true
  ∧ (save_interval demo_args | 10)
  ∧ let w0 := fresh_process ∅ ∅ ∅ ["train.py"] in
    let call := save_checkpoint demo_args 10 (Some (Single "weights")) None None
                  (PyFloat (Fin 0.5)) "min" w0 in
    call.2 = inr tt
    ∧ (wrote (step_path demo_args 10) w0 call.1 ↔ step_checkpoints demo_args = true).
Proof.
  assert (save_interval demo_args | 10) as Hdiv by (exists 10; reflexivity).
  assert (save_interval demo_args ≠ 0) as Hsi by (simpl; lia).
  refine (conj eq_refl (conj eq_refl (conj Hdiv _))).
  destruct (step_checkpoint_written (fresh_process ∅ ∅ ∅ ["train.py"]) demo_args 10
              (Some (Single "weights")) None None (PyFloat (Fin 0.5)) "min"
              eq_refl eq_refl eq_refl eq_refl Hdiv Hsi (or_intror eq_refl))
    as (Hret & Hiff & _).
  exact (conj Hret Hiff).
Defined.

(** C7, as stated, fails: two saves at the same step both write
    [checkpoint10.pt], and the second replaces what the first stored. *)
Lemma step_checkpoint_overwritten :
  wrote (step_path demo_args 10) (fresh_process ∅ ∅ ∅ ["train.py"]) first_run
  ∧ repeated_save.2 = inr tt
  ∧ wrote (step_path demo_args 10) first_run repeated_save.1
  ∧ stored_field first_run (step_path demo_args 10) "score" = Some (PyFloat (Fin 0.5))
  ∧ stored_field repeated_save.1 (step_path demo_args 10) "score"
    = Some (PyFloat (Fin 0.7)).
Proof.
  assert (save_interval demo_args | 10) as Hdiv by (exists 10; reflexivity).
  assert (save_interval demo_args ≠ 0) as Hsi by (simpl; lia).
  split; [|split; [|split]].
  - unfold first_run.
    destruct (save_due_returns demo_args 10 (Some (Single "weights")) None None
                (PyFloat (Fin 0.5)) "min" (fresh_process ∅ ∅ ∅ ["train.py"]))
      as (bs & _ & ->); try done.
    cbn [fst]. apply wrote_after_writes. by left.
  - vm_compute. reflexivity.
  - unfold repeated_save.
    assert (is_Some (attrs (after_bookkeeping 10 (PyFloat (Fin 0.7)) "min" first_run)
                     !! "best_step")) as Hbs by (vm_compute; eauto).
    destruct (save_due_returns demo_args 10 (Some (Single "weights")) None None
                (PyFloat (Fin 0.7)) "min" first_run eq_refl eq_refl eq_refl eq_refl
                Hdiv Hsi Hbs)
      as (bs & _ & ->).
    cbn [fst]. apply wrote_after_writes. by left.
  - split; vm_compute; reflexivity.
Qed.

(** C3 at the failing input: in the resumed process the previous
    [last_step] is 10, and the due save at step 11 with a score that does
    not improve on the restored best raises before it writes
    [checkpoint_last.pt]. *)
Lemma resumed_save_leaves_last_unwritten :
  last_step_int (attrs resumed) = 10
  ∧ no_save demo_args = false
  ∧ 11 mod save_interval demo_args = 0
  ∧ let call := save_checkpoint demo_args 11 (Some (Single "weights")) None None
                  (PyFloat (Fin 0.7)) "min" resumed in
    call.2 = inl AttributeError
    ∧ new_events resumed call.1 = [EvMakedirs "ckpt"]
    ∧ ¬ wrote (last_path demo_args) resumed call.1.
Proof.
  split; [vm_compute; reflexivity|].
  split; [reflexivity|]. split; [reflexivity|].
  rewrite save_due_raises; try (vm_compute; reflexivity).
  - cbn [fst snd]. rewrite new_events_create_dir.
    repeat split. intros [d Hd]. rewrite new_events_create_dir in Hd.
    apply list_elem_of_singleton in Hd. discriminate.
  - exists 11. reflexivity.
  - simpl. lia.
Qed.

(** C4 at the failing input: the record that [first_run] wrote holds
    [best_step = 10]; the load in the resumed process restores [last_step]
    and [best_score] from it and leaves [best_step] unset. *)
Lemma load_leaves_best_step_unset :
  restore_file demo_args = Some "ckpt/checkpoint_last.pt"
  ∧ stored_field first_run "ckpt/checkpoint_last.pt" "best_step" = Some (PyInt 10)
  ∧ attrs resumed !! "last_step" = Some (PyInt 10)
  ∧ attrs resumed !! "best_score" = Some (PyFloat (Fin 0.5))
  ∧ attrs resumed !! "best_step" = None.
Proof. repeat split; vm_compute; reflexivity. Qed.

(** ** Sequences of saves *)

Lemma float_lt_le_trans (s s' b : pyfloat) :
  float_lt s b = false → float_le s s' = true → float_lt s' b = false.
Proof.
  destruct s, s', b; simpl; try done.
  rewrite !negb_false_iff, !Qle_bool_iff. intros; by eapply Qle_trans.
Qed.

Lemma strictly_improves_irrefl (s : pyval) (mode : string) :
  strictly_improves s s mode = false.
Proof.
  unfold strictly_improves. destruct (as_number s); [|done].
  rewrite float_lt_irrefl. by rewrite !andb_false_r.
Qed.

(** On well-formed bookkeeping every call with a valid mode leaves the
    attributes of [after_bookkeeping], whatever the score is. *)
Lemma attrs_save_checkpoint (args : Args) (step : Z)
    (model optimizer scheduler : option component) (score : pyval)
    (mode : string) (w : World) :
  valid_mode mode = true → wf_attrs (attrs w) = true →
  attrs (save_checkpoint args step model optimizer scheduler score mode w).1
  = attrs (after_bookkeeping step score mode w).
Proof.
  intros Hmode Hwf. destruct (is_number score) eqn:Hscore.
  - rewrite save_checkpoint_cases by done. apply attrs_save_cases.
  - rewrite save_checkpoint_not_number by done.
    unfold after_bookkeeping. by rewrite strictly_improves_not_number.
Qed.

Lemma strictly_improves_number (score best : pyval) (mode : string) :
  strictly_improves score best mode = true → is_number score = true.
Proof. by destruct score. Qed.

Lemma wf_attrs_after_bookkeeping (step : Z) (score : pyval) (mode : string)
    (w : World) :
  wf_attrs (attrs w) = true →
  wf_attrs (attrs (after_bookkeeping step score mode w)) = true.
Proof.
  intros Hwf. unfold wf_attrs, last_step_value.
  rewrite after_bookkeeping_last, after_bookkeeping_best_score. simpl.
  destruct (strictly_improves _ _ _) eqn:Hb; simpl.
  - by apply strictly_improves_number in Hb.
  - unfold wf_attrs in Hwf. by apply andb_true_iff in Hwf as [_ ?].
Qed.

Lemma wf_attrs_run_call (c : SaveCall) (w : World) :
  valid_mode (call_mode c) = true → wf_attrs (attrs w) = true →
  wf_attrs (attrs (run_call c w)) = true.
Proof.
  intros Hmode Hwf. unfold run_call.
  rewrite attrs_save_checkpoint by done. by apply wf_attrs_after_bookkeeping.
Qed.

Lemma attrs_run_call (c : SaveCall) (w : World) :
  valid_mode (call_mode c) = true → wf_attrs (attrs w) = true →
  attrs (run_call c w)
  = attrs (after_bookkeeping (call_step c) (call_score c) (call_mode c) w).
Proof. intros. unfold run_call. by apply attrs_save_checkpoint. Qed.

Lemma current_best_set (a : dict) (mode : string) (v : pyval) :
  a !! "best_score" = Some v → current_best a mode = v.
Proof. unfold current_best. by intros ->. Qed.

(** One call: the best pair changes exactly when the score strictly
    improves, and then becomes the score and step of the call. *)
Lemma best_updated_iff (c : SaveCall) (w : World) :
  valid_mode (call_mode c) = true → wf_attrs (attrs w) = true →
  (best_updated w (run_call c w) ↔ call_improves w c = true)
  ∧ (call_improves w c = true →
     attrs (run_call c w) !! "best_score" = Some (call_score c)
     ∧ attrs (run_call c w) !! "best_step" = Some (PyInt (call_step c))).
Proof.
  intros Hmode Hwf. unfold best_updated.
  rewrite attrs_run_call, after_bookkeeping_best_score, after_bookkeeping_best_step
    by done.
  fold (call_improves w c).
  destruct (call_improves w c) eqn:Himp.
  - split; [|done]. split; [done|]. intros _ [= Hs _].
    symmetry in Hs. apply (current_best_set _ (call_mode c)) in Hs.
    unfold call_improves in Himp. rewrite Hs, strictly_improves_irrefl in Himp.
    discriminate.
  - split; [|done]. split; [|done]. by intros [].
Qed.

Lemma last_step_run_call (c : SaveCall) (w : World) :
  valid_mode (call_mode c) = true → wf_attrs (attrs w) = true →
  last_step_int (attrs (run_call c w)) = Z.max (last_step_int (attrs w)) (call_step c).
Proof.
  intros Hmode Hwf. unfold last_step_int at 1, last_step_value.
  by rewrite attrs_run_call, after_bookkeeping_last by done.
Qed.

(** A second save at the step of the save before it never writes
    [checkpoint_last.pt]. *)
Lemma same_step_keeps_last (c1 c2 : SaveCall) (w : World) :
  valid_mode (call_mode c1) = true → valid_mode (call_mode c2) = true →
  wf_attrs (attrs w) = true → call_step c2 = call_step c1 →
  ¬ wrote (last_path (call_args c2)) (run_call c1 w) (run_call c2 (run_call c1 w)).
Proof.
  intros Hm1 Hm2 Hwf Hstep. unfold run_call at 2.
  apply last_kept_unless_forward; [done|by apply wf_attrs_run_call|].
  rewrite last_step_run_call by done. lia.
Qed.

(** A property that every well-formed call has holds along every
    sequence. *)
Lemma each_call_intro (P : World → SaveCall → World → Prop) (cs : list SaveCall)
    (w : World) :
  (∀ w c, wf_attrs (attrs w) = true → valid_mode (call_mode c) = true →
          P w c (run_call c w)) →
  valid_calls cs → wf_attrs (attrs w) = true → each_call P cs w.
Proof.
  intros HP Hcs. revert w. induction Hcs as [|c cs Hc _ IH]; intros w Hwf; simpl.
  - done.
  - split; [by apply HP|]. apply IH. by apply wf_attrs_run_call.
Qed.

Lemma min_calls_valid (cs : list SaveCall) : min_calls cs → valid_calls cs.
Proof. intros H. eapply Forall_impl; [exact H|]. by intros c ->. Qed.

Lemma strictly_improves_min (a b : pyval) :
  strictly_improves a b "min" = score_lt a b.
Proof.
  unfold strictly_improves, score_lt.
  destruct (as_number a), (as_number b); try done.
  simpl. by rewrite orb_false_r.
Qed.

Lemma decreasing_updates (cs : list SaveCall) (w : World) :
  min_calls cs → wf_attrs (attrs w) = true →
  strictly_decreasing (scores cs) = true → first_improves cs w →
  each_call (λ w _ w', best_updated w w') cs w.
Proof.
  intros Hmin. revert w.
  induction Hmin as [|c cs Hc Hmin IH]; intros w Hwf Hdec Hfirst; simpl; [done|].
  assert (valid_mode (call_mode c) = true) as Hmode by by rewrite Hc.
  destruct (best_updated_iff c w Hmode Hwf) as [Hiff Hnew].
  split; [by apply Hiff|].
  apply IH.
  - by apply wf_attrs_run_call.
  - simpl in Hdec. destruct (scores cs); [done|].
    by apply andb_true_iff in Hdec as [_ ?].
  - destruct Hmin as [|c' cs' Hc' _]; [done|]. simpl in *.
    apply andb_true_iff in Hdec as [Hlt _].
    destruct (Hnew Hfirst) as [Hbs _].
    unfold call_improves.
    by rewrite (current_best_set _ _ _ Hbs), Hc', strictly_improves_min.
Qed.

Lemma score_le_numbers (a b : pyval) :
  score_le a b = true →
  ∃ x y, as_number a = Some x ∧ as_number b = Some y ∧ float_le x y = true.
Proof.
  unfold score_le. destruct (as_number a), (as_number b); try done. eauto.
Qed.

Lemma non_decreasing_no_update_from (cs : list SaveCall) (w : World) (s : pyval) :
  min_calls cs → wf_attrs (attrs w) = true →
  non_decreasing (s :: scores cs) = true →
  strictly_improves s (current_best (attrs w) "min") "min" = false →
  each_call (λ w _ w', ¬ best_updated w w') cs w.
Proof.
  intros Hmin. revert w s.
  induction Hmin as [|c cs Hc Hmin IH]; intros w s Hwf Hnd Hs; simpl; [done|].
  assert (valid_mode (call_mode c) = true) as Hmode by by rewrite Hc.
  destruct (best_updated_iff c w Hmode Hwf) as [Hiff _].
  simpl in Hnd. apply andb_true_iff in Hnd as [Hle Hnd].
  assert (call_improves w c = false) as Hno.
  { unfold call_improves. rewrite Hc.
    destruct (score_le_numbers _ _ Hle) as (x & y & Hx & Hy & Hxy).
    destruct (is_number_inv _ (wf_attrs_best _ "min" Hwf)) as [b Hb].
    unfold strictly_improves in *. rewrite Hx, Hb in Hs. rewrite Hy, Hb.
    simpl in *. rewrite orb_false_r in *. by eapply float_lt_le_trans. }
  split; [rewrite Hiff, Hno; done|].
  apply (IH _ (call_score c)); [by apply wf_attrs_run_call|done|].
  unfold current_best.
  rewrite attrs_run_call, after_bookkeeping_best_score by done.
  fold (call_improves w c). rewrite Hno.
  fold (current_best (attrs w) "min"). by rewrite <- Hc.
Qed.

Lemma non_decreasing_no_update (c : SaveCall) (cs : list SaveCall) (w : World) :
  min_calls (c :: cs) → wf_attrs (attrs w) = true →
  non_decreasing (scores (c :: cs)) = true →
  each_call (λ w _ w', ¬ best_updated w w') cs (run_call c w).
Proof.
  intros Hmin Hwf Hnd. inversion Hmin as [|? ? Hc Hcs]; subst.
  assert (valid_mode (call_mode c) = true) as Hmode by by rewrite Hc.
  apply (non_decreasing_no_update_from _ _ (call_score c));
    [done|by apply wf_attrs_run_call|done|].
  unfold current_best.
  rewrite attrs_run_call, after_bookkeeping_best_score by done.
  fold (call_improves w c).
  destruct (call_improves w c) eqn:Himp; simpl.
  - apply strictly_improves_irrefl.
  - unfold call_improves in Himp. by rewrite Hc in Himp.
Qed.

(** C2. Along every sequence of [save_checkpoint] calls with valid modes,
    started on well-formed bookkeeping: a call changes the pair
    [best_score]/[best_step] exactly if its score strictly improves on the
    best so far under its mode (below it for ["min"], above it for
    ["max"]), the pair then being the score and step of the call, and
    [last_step] never decreases.  With mode ["min"] throughout, a strictly
    decreasing sequence of scores whose first score improves on the best so
    far changes the pair at every call, and a non-decreasing sequence
    changes it at no call after the first. *)
Theorem best_score_invariant (cs : list SaveCall) (w : World) :
  valid_calls cs → wf_attrs (attrs w) = true →
  each_call (λ w c w',
      (best_updated w w' ↔ call_improves w c = true)
      ∧ (call_improves w c = true →
         attrs w' !! "best_score" = Some (call_score c)
         ∧ attrs w' !! "best_step" = Some (PyInt (call_step c)))
      ∧ last_step_int (attrs w) ≤ last_step_int (attrs w')) cs w
  ∧ (min_calls cs → strictly_decreasing (scores cs) = true → first_improves cs w →
     each_call (λ w _ w', best_updated w w') cs w)
  ∧ (min_calls cs → non_decreasing (scores cs) = true →
     match cs with
     | [] => True
     | c :: cs' => each_call (λ w _ w', ¬ best_updated w w') cs' (run_call c w)
     end).
Proof.
  intros Hvalid Hwf. split; [|split].
  - apply each_call_intro; [|done..].
    intros w1 c Hwf1 Hmode.
    destruct (best_updated_iff c w1 Hmode Hwf1) as [Hiff Hnew].
    repeat split; try apply Hiff; try apply Hnew; try done.
    rewrite last_step_run_call by done. lia.
  - intros. by apply decreasing_updates.
  - intros Hmin Hnd. destruct cs as [|c cs]; [done|].
    by apply non_decreasing_no_update.
Qed.

Lemma best_score_invariant_witness :
  let cs := [bookkeeping_call 1 (PyFloat (Fin 0.5));
             bookkeeping_call 2 (PyFloat (Fin 0.25))] in
  let w := fresh_process ∅ ∅ ∅ [] in
  valid_calls cs
  ∧ wf_attrs (attrs w) = true
  ∧ min_calls cs ∧ strictly_decreasing (scores cs) = true ∧ first_improves cs w
  ∧ each_call (λ w _ w', best_updated w w') cs w.
Proof.
  intros cs w.
  assert (valid_calls cs) as H1 by (repeat constructor).
  assert (wf_attrs (attrs w) = true) as H2 by reflexivity.
  assert (min_calls cs) as H3 by (repeat constructor).
  assert (strictly_decreasing (scores cs) = true) as H4 by reflexivity.
  assert (first_improves cs w) as H5 by reflexivity.
  refine (conj H1 (conj H2 (conj H3 (conj H4 (conj H5 _))))).
  exact (proj1 (proj2 (best_score_invariant cs w H1 H2)) H3 H4 H5).
Defined.

(** C2, as stated, fails: under mode ["min"] in a fresh process the scores
    [inf, 1.0] are strictly decreasing, and the first call leaves the best
    pair unset. *)
Lemma decreasing_from_inf_not_updated :
  let cs := [bookkeeping_call 1 (PyFloat PosInf);
             bookkeeping_call 2 (PyFloat (Fin 1))] in
  let w := fresh_process ∅ ∅ ∅ [] in
  min_calls cs
  ∧ strictly_decreasing (scores cs) = true
  ∧ attrs (run_call (bookkeeping_call 1 (PyFloat PosInf)) w) !! "best_score" = None
  ∧ attrs (run_call (bookkeeping_call 1 (PyFloat PosInf)) w) !! "best_step" = None
  ∧ ¬ each_call (λ w _ w', best_updated w w') cs w.
Proof.
  intros cs w.
  split; [repeat constructor|]. split; [reflexivity|].
  split; [vm_compute; reflexivity|]. split; [vm_compute; reflexivity|].
  intros [Hupd _]. apply Hupd. vm_compute. reflexivity.
Qed.

(** ** [init_logging] *)

Lemma trace_foldl_handle (msg : string) (hs : list handler) (w : World) :
  ∃ l, trace (foldl (handle msg) w hs) = trace w ++ l.
Proof.
  revert w. induction hs as [|h hs IH]; intros w; simpl.
  - exists []. by rewrite app_nil_r.
  - destruct (IH (handle msg w h)) as [l ->].
    exists (EvLog h msg :: l).
    destruct h; simpl; by rewrite <- app_assoc.
Qed.

Lemma trace_logging_info (msg : string) (w : World) :
  ∃ l, trace (logging_info msg w).1 = trace w ++ l.
Proof.
  unfold logging_info, gets, when, modify, mbind, M_bind, mret, M_ret.
  repeat case_match; simplify_eq/=;
    try apply trace_foldl_handle; try (by eexists);
    exists []; by rewrite app_nil_r.
Qed.

(** The mode in which [init_logging] opens the log file is decided by the
    descriptor that the bool [resume_training] denotes, whatever
    [restore_file] is and whatever files exist. *)
Lemma init_logging_open_mode (repr_vars : Args → string) (args : Args)
    (w : World) (path : string) :
  no_log args = false → log_file args = Some path →
  ∃ rest,
    new_events w (init_logging repr_vars args w).1
    = EvOpen path
        (if bool_decide (Z.b2z (resume_training args) ∈ regular_fds w)
         then "a" else "w") :: rest.
Proof.
  intros Hno Hlog. unfold init_logging. rewrite Hno, Hlog.
  unfold isfile_fd, open_file_handler, basicConfig, gets, modify.
  unfold mbind, M_bind, mret, M_ret. cbv beta iota zeta.
  set (mode := if bool_decide _ then "a" else "w").
  set (w1 := match root_handlers _ with [] => _ | _ :: _ => _ end).
  assert (trace w1 = trace w ++ [EvOpen path mode]) as Hw1.
  { unfold w1. by case_match. }
  clearbody w1.
  destruct (trace_logging_info ("COMMAND: " +:+ String.concat " " (argv w1)) w1)
    as [l1 H1].
  destruct (logging_info ("COMMAND: " +:+ String.concat " " (argv w1)) w1)
    as [w2 [e|[]]]; simpl in H1.
  - exists l1. apply new_events_app. simpl. rewrite H1, Hw1.
    by rewrite <- app_assoc.
  - destruct (trace_logging_info ("Arguments: " +:+ repr_vars args) w2) as [l2 H2].
    exists (l1 ++ l2). apply new_events_app. rewrite H2, H1, Hw1.
    by rewrite <- !app_assoc.
Qed.

(** C5 at the failing inputs.  With the restore file on disk the log file
    is opened in mode ["w"] and the text of the earlier run is lost; without
    the restore file, but with standard output redirected to a file, it is
    opened in mode ["a"]. *)
Lemma init_logging_ignores_restore_file :
  let call := init_logging (λ _, "{}") demo_args resumed_logging in
  let call' := init_logging (λ _, "{}") demo_args redirected_logging in
  restore_file demo_args = Some "ckpt/checkpoint_last.pt"
  ∧ is_Some (files resumed_logging !! "ckpt/checkpoint_last.pt")
  ∧ head (new_events resumed_logging call.1) = Some (EvOpen "logs/train.log" "w")
  ∧ files call.1 !! "logs/train.log"
    = Some [Line "COMMAND: train.py --resume-training"; Line "Arguments: {}"]
  ∧ files redirected_logging !! "ckpt/checkpoint_last.pt" = None
  ∧ head (new_events redirected_logging call'.1) = Some (EvOpen "logs/train.log" "a")
  ∧ files call'.1 !! "logs/train.log"
    = Some [Line "epoch 1"; Line "COMMAND: train.py --resume-training";
            Line "Arguments: {}"].
Proof.
  split; [reflexivity|]. split; [vm_compute; eauto|].
  repeat split; vm_compute; reflexivity.
Qed.

(** ** [bool_mask] *)

Lemma traverse_fmap_ok {A B C} (f : B → result C) (h : A → B) (g : A → C)
    (l : list A) :
  (∀ x, x ∈ l → f (h x) = inr (g x)) → traverse f (h <$> l) = inr (g <$> l).
Proof.
  induction l as [|x l IH]; intros Hf; [done|].
  rewrite !fmap_cons. cbn [traverse].
  rewrite Hf by left.
  rewrite IH; [done|]. intros y Hy. apply Hf. by right.
Qed.

Lemma traverse_id_ok {A} (f : A → result A) (l : list A) :
  (∀ x, x ∈ l → f x = inr x) → traverse f l = inr l.
Proof.
  intros Hf. rewrite <- (list_fmap_id l) at 1.
  rewrite (traverse_fmap_ok f id id) by done. by rewrite list_fmap_id.
Qed.

Lemma expand_dim_single {A} (x : A) (n : nat) :
  expand_dim [x] n = inr (replicate n x).
Proof.
  unfold expand_dim. case_decide as Hn; [|done].
  simpl in Hn. by subst n.
Qed.

Lemma expand_dim_same {A} (l : list A) : expand_dim l (length l) = inr l.
Proof. unfold expand_dim. by rewrite decide_True. Qed.

(** [target.unsqueeze(-1).expand([T, C])]: row [i] repeats [target[i]]. *)
Lemma expand_unsqueeze_last {A} (t : list A) (cols : nat) :
  expand (unsqueeze_last t) (length t) cols = inr ((λ x, replicate cols x) <$> t).
Proof.
  unfold expand, unsqueeze_last.
  rewrite <- (length_fmap (λ x, [x]) t) at 1. rewrite expand_dim_same. simpl.
  apply traverse_fmap_ok. intros x _. apply expand_dim_single.
Qed.

(** [context.unsqueeze(0).expand([T, C])]: every row is [context]. *)
Lemma expand_unsqueeze_first {A} (c : list A) (rows : nat) :
  expand (unsqueeze_first c) rows (length c) = inr (replicate rows c).
Proof.
  unfold expand, unsqueeze_first. rewrite expand_dim_single. simpl.
  apply traverse_id_ok.
  intros r [-> _]%elem_of_replicate. apply expand_dim_same.
Qed.

(** The mask, entry by entry. *)
Lemma torch_eq_expanded (target context : list Z) :
  torch_eq ((λ x, replicate (length context) x) <$> target)
    (replicate (length target) context)
  = (λ t, (λ c, bool_decide (t = c)) <$> context) <$> target.
Proof.
  unfold torch_eq.
  rewrite zip_with_fmap_l, zip_with_replicate_r by done.
  apply list_fmap_ext. intros _ t _. unfold flip.
  by rewrite zip_with_replicate_l.
Qed.

Lemma bool_mask_eq (target context : list Z) (float : bool) :
  bool_mask target context float
  = let m := (λ t, (λ c, bool_decide (t = c)) <$> context) <$> target in
    inr (if float then FloatMask (map (map to_float) m) else BoolMask m).
Proof.
  unfold bool_mask. rewrite expand_unsqueeze_last. simpl.
  rewrite expand_unsqueeze_first. simpl.
  rewrite torch_eq_expanded. by destruct float.
Qed.

(** C8. For label sequences [target] and [context], [bool_mask] returns a
    matrix with one row per target and one column per context whose entry
    [(i, j)] is true exactly if [target[i] = context[j]]; with the float
    flag the matrix has the same shape and its entry [(i, j)] is 1.0 if
    [target[i] = context[j]] and 0.0 if not.  In particular
    [bool_mask([1,2],[2,2,1])] is [[[false,false,true],[true,true,false]]],
    and with the float flag [[[0.0,0.0,1.0],[1.0,1.0,0.0]]]. *)
Theorem bool_mask_spec :
  (∀ target context : list Z,
     ∃ (m : matrix bool) (fm : matrix pyfloat),
       bool_mask target context false = inr (BoolMask m)
       ∧ bool_mask target context true = inr (FloatMask (map (map to_float) m))
       ∧ length m = length target
       ∧ (∀ i row, m !! i = Some row → length row = length context)
       ∧ (∀ i j t c, target !! i = Some t → context !! j = Some c →
            ∃ row, m !! i = Some row ∧ row !! j = Some (bool_decide (t = c)))
       ∧ bool_mask target context true = inr (FloatMask fm)
       ∧ length fm = length target
       ∧ (∀ i row, fm !! i = Some row → length row = length context)
       ∧ (∀ i j t c, target !! i = Some t → context !! j = Some c →
            ∃ row, fm !! i = Some row
                   ∧ row !! j = Some (if bool_decide (t = c) then Fin 1 else Fin 0)))
  ∧ bool_mask [1; 2] [2; 2; 1] false
    = inr (BoolMask [[false; false; true]; [true; true; false]])
  ∧ bool_mask [1; 2] [2; 2; 1] true
    = inr (FloatMask [[Fin 0; Fin 0; Fin 1]; [Fin 1; Fin 1; Fin 0]]).
Proof.
  split; [|split; reflexivity].
  intros target context.
  exists ((λ t, (λ c, bool_decide (t = c)) <$> context) <$> target).
  exists ((λ t, (λ c, if bool_decide (t = c) then Fin 1 else Fin 0) <$> context)
            <$> target).
  rewrite !bool_mask_eq. simpl.
  split; [done|]. split; [done|]. split; [by rewrite length_fmap|]. split.
  { intros i row Hrow. apply list_lookup_fmap_Some in Hrow as (t & -> & _).
    by rewrite length_fmap. }
  split.
  { intros i j t c Ht Hc. eexists. split.
    + rewrite list_lookup_fmap, Ht. done.
    + rewrite list_lookup_fmap, Hc. done. }
  split.
  { do 2 f_equal. unfold to_float.
    change (@map) with (@fmap list _). rewrite <- list_fmap_compose.
    apply list_fmap_ext. intros _ t _. simpl.
    by rewrite <- list_fmap_compose. }
  split; [by rewrite length_fmap|]. split.
  { intros i row Hrow. apply list_lookup_fmap_Some in Hrow as (t & -> & _).
    by rewrite length_fmap. }
  intros i j t c Ht Hc. eexists. split.
  + rewrite list_lookup_fmap, Ht. done.
  + rewrite list_lookup_fmap, Hc. done.
Qed.

(** ** [connectivity] *)








Section ConnectivityFacts.
Context {R : Type}.
Variable add : R → R → R.
Variable div_int : R → Z → R.









End ConnectivityFacts.




(** * Further properties of the code *)

(** ** [save_checkpoint]: outcomes and frame *)

Lemma save_checkpoint_invalid_mode (args : Args) (step : Z)
    (model optimizer scheduler : option component) (score : pyval)
    (mode : string) (w : World) :
  valid_mode mode = false →
  save_checkpoint args step model optimizer scheduler score mode w
  = (w, inl AssertionError).
Proof.
  intros Hmode. unfold save_checkpoint. unfold valid_mode in Hmode.
  by rewrite Hmode.
Qed.

(** X1. On well-formed bookkeeping, and on a disk that lets a due call
    create [checkpoint_dir] and write its files (the directory is named, no
    regular file lies at it or above it, none of the three checkpoint paths
    is a directory), a call of [save_checkpoint] raises [AssertionError]
    for a mode other than ["min"] and ["max"], else [TypeError] for a score
    that is not a number, else (with [no_save] unset) [ZeroDivisionError]
    for [save_interval = 0], else (when due) [AttributeError] if
    [best_step] is unset and the score does not improve; in every other
    case it returns. *)
Theorem save_checkpoint_outcome (w : World) (args : Args) (step : Z)
    (model optimizer scheduler : option component) (score : pyval) (mode : string) :
  wf_attrs (attrs w) = true →
  can_save args step w = true →
  (save_checkpoint args step model optimizer scheduler score mode w).2
  = expected_outcome args step score mode (attrs w).
Proof.
  intros Hwf _. unfold expected_outcome.
  destruct (valid_mode mode) eqn:Hmode; simpl;
    [|by rewrite save_checkpoint_invalid_mode].
  destruct (is_number score) eqn:Hscore; simpl;
    [|by rewrite save_checkpoint_not_number].
  rewrite save_checkpoint_cases by done. unfold save_cases.
  destruct (no_save args); [done|].
  destruct (decide (save_interval args = 0)) as [Hsi|Hsi].
  { by rewrite bool_decide_eq_true_2. }
  rewrite (bool_decide_eq_false_2 (save_interval args = 0)) by done.
  destruct (bool_decide (step mod save_interval args = 0)); [|done]. simpl.
  rewrite after_bookkeeping_best_step.
  destruct (strictly_improves score (current_best (attrs w) mode) mode); simpl.
  - by rewrite andb_false_r.
  - rewrite andb_true_r. by destruct (attrs w !! "best_step").
Qed.

Lemma save_checkpoint_outcome_witness :
  wf_attrs (attrs resumed) = true
  ∧ can_save demo_args 11 resumed = true
  ∧ (save_checkpoint demo_args 11 None None None (PyFloat (Fin 0.7)) "min" resumed).2
    = expected_outcome demo_args 11 (PyFloat (Fin 0.7)) "min" (attrs resumed).
Proof.
  assert (wf_attrs (attrs resumed) = true) as H by (vm_compute; reflexivity).
  assert (can_save demo_args 11 resumed = true) as Hd by (vm_compute; reflexivity).
  exact (conj H (conj Hd (save_checkpoint_outcome resumed demo_args 11 None None None
                            (PyFloat (Fin 0.7)) "min" H Hd))).
Defined.

(** The world a call ends in, by the kind of its arguments. *)
Lemma save_checkpoint_world (w : World) (args : Args) (step : Z)
    (model optimizer scheduler : option component) (score : pyval) (mode : string) :
  wf_attrs (attrs w) = true →
  (save_checkpoint args step model optimizer scheduler score mode w).1
  = if negb (valid_mode mode) then w
    else if negb (is_number score)
         then set_attrs (insert "last_step"
                           (PyInt (Z.max (last_step_int (attrs w)) step))) w
    else (save_cases args step model optimizer scheduler score mode w).1.
Proof.
  intros Hwf.
  destruct (valid_mode mode) eqn:Hmode; simpl;
    [|by rewrite save_checkpoint_invalid_mode].
  destruct (is_number score) eqn:Hscore; simpl;
    [|by rewrite save_checkpoint_not_number].
  by rewrite save_checkpoint_cases.
Qed.

Lemma files_after_bookkeeping (step : Z) (score : pyval) (mode : string) (w : World) :
  files (after_bookkeeping step score mode w) = files w.
Proof. apply after_bookkeeping_no_io. Qed.

Lemma dirs_after_bookkeeping (step : Z) (score : pyval) (mode : string) (w : World) :
  dirs (after_bookkeeping step score mode w) = dirs w.
Proof. apply after_bookkeeping_no_io. Qed.

Lemma dirs_after_writes (args : Args) (step : Z)
    (model optimizer scheduler : option component) (score : pyval)
    (better forward : bool) (best_step : pyval) (w2 : World) :
  dirs (after_writes args step model optimizer scheduler score better forward
          best_step w2) = dirs w2.
Proof. unfold after_writes. by repeat case_match. Qed.



Lemma dirs_create_dir (p : string) (w : World) :
  dirs (create_dir p w)
  = if bool_decide (p ∈ dirs w) then dirs w
    else list_to_set (p :: parents p) ∪ dirs w.
Proof. reflexivity. Qed.

(** [os.makedirs] removes no directory, leaves [path] a directory, creates
    nothing but [path] and directories above it, and nothing at all when
    [path] is a directory already. *)
Lemma create_dir_dirs (p : string) (w : World) :
  dirs w ⊆ dirs (create_dir p w)
  ∧ p ∈ dirs (create_dir p w)
  ∧ dirs (create_dir p w) ⊆ dirs w ∪ list_to_set (p :: parents p)
  ∧ (p ∈ dirs w → dirs (create_dir p w) = dirs w).
Proof.
  rewrite dirs_create_dir. case_bool_decide as Hp.
  - split; [done|]. split; [done|]. split; [apply union_subseteq_l|done].
  - split; [apply union_subseteq_r|]. split.
    + apply elem_of_union_l, elem_of_list_to_set. left.
    + split; [|done]. by rewrite (comm_L (∪)).
Qed.

(** The directories after a call: those before it, or those after
    [os.makedirs] on [checkpoint_dir]. *)
Lemma save_checkpoint_dirs (w : World) (args : Args) (step : Z)
    (model optimizer scheduler : option component) (score : pyval) (mode : string) :
  wf_attrs (attrs w) = true →
  dirs (save_checkpoint args step model optimizer scheduler score mode w).1 = dirs w
  ∨ dirs (save_checkpoint args step model optimizer scheduler score mode w).1
    = dirs (create_dir (checkpoint_dir args) w).
Proof.
  intros Hwf. rewrite save_checkpoint_world by done.
  destruct (valid_mode mode); simpl; [|by left].
  destruct (is_number score); simpl; [|by left].
  unfold save_cases.
  destruct (no_save args); [left; apply dirs_after_bookkeeping|].
  destruct (decide (save_interval args = 0)); [left; apply dirs_after_bookkeeping|].
  destruct (bool_decide (step mod save_interval args = 0));
    [|left; apply dirs_after_bookkeeping].
  cbv zeta. right.
  destruct (attrs (after_bookkeeping step score mode w) !! "best_step"); cbn [fst].
  - rewrite dirs_after_writes, !dirs_create_dir.
    by rewrite dirs_after_bookkeeping.
  - rewrite !dirs_create_dir. by rewrite dirs_after_bookkeeping.
Qed.

Lemma save_checkpoint_files (w : World) (args : Args) (step : Z)
    (model optimizer scheduler : option component) (score : pyval) (mode : string) :
  wf_attrs (attrs w) = true →
  let call := save_checkpoint args step model optimizer scheduler score mode w in
  (∀ path, path ≠ step_path args step → path ≠ best_path args →
           path ≠ last_path args → files call.1 !! path = files w !! path)
  ∧ (∀ path, is_Some (files w !! path) → is_Some (files call.1 !! path)).
Proof.
  intros Hwf call. subst call. rewrite save_checkpoint_world by done.
  destruct (valid_mode mode); simpl; [|done].
  destruct (is_number score); simpl; [|done].
  unfold save_cases.
  destruct (no_save args);
    [cbn [fst]; by rewrite files_after_bookkeeping|].
  destruct (decide (save_interval args = 0));
    [cbn [fst]; by rewrite files_after_bookkeeping|].
  destruct (bool_decide (step mod save_interval args = 0));
    [|cbn [fst]; by rewrite files_after_bookkeeping].
  cbv zeta.
  destruct (attrs (after_bookkeeping step score mode w) !! "best_step"); cbn [fst].
  - split.
    + intros path H1 H2 H3. rewrite files_after_writes_other by done.
      by rewrite files_create_dir.
    + intros path Hpath. unfold after_writes.
      repeat case_match; rewrite ?files_write_pickle; repeat case_decide;
        rewrite ?files_create_dir; eauto.
  - by rewrite files_create_dir.
Qed.

(** X3. Whatever it is called with, [save_checkpoint] leaves every file
    other than its three checkpoint paths as it was and removes no file; it
    removes no directory, creates none but [checkpoint_dir] and directories
    above it, and none at all when [checkpoint_dir] is a directory
    already. *)
Theorem save_checkpoint_frame (w : World) (args : Args) (step : Z)
    (model optimizer scheduler : option component) (score : pyval) (mode : string) :
  wf_attrs (attrs w) = true →
  let call := save_checkpoint args step model optimizer scheduler score mode w in
  (∀ path, path ≠ step_path args step → path ≠ best_path args →
           path ≠ last_path args → files call.1 !! path = files w !! path)
  ∧ (∀ path, is_Some (files w !! path) → is_Some (files call.1 !! path))
  ∧ dirs w ⊆ dirs call.1
  ∧ dirs call.1
    ⊆ dirs w ∪ list_to_set (checkpoint_dir args :: parents (checkpoint_dir args))
  ∧ (checkpoint_dir args ∈ dirs w → dirs call.1 = dirs w).
Proof.
  intros Hwf call. subst call.
  destruct (save_checkpoint_files w args step model optimizer scheduler score mode Hwf)
    as (Hother & Hkept).
  split; [done|]. split; [done|].
  destruct (create_dir_dirs (checkpoint_dir args) w) as (Hmono & _ & Hbound & Hsame).
  destruct (save_checkpoint_dirs w args step model optimizer scheduler score mode Hwf)
    as [-> | ->].
  - split; [done|]. split; [apply union_subseteq_l|done].
  - done.
Qed.

Lemma save_checkpoint_frame_witness :
  wf_attrs (attrs first_run) = true
  ∧ files repeated_save.1 !! "logs/train.log" = files first_run !! "logs/train.log"
  ∧ dirs repeated_save.1 = dirs first_run.
Proof.
  assert (wf_attrs (attrs first_run) = true) as H by (vm_compute; reflexivity).
  refine (conj H _).
  destruct (save_checkpoint_frame first_run demo_args 10 (Some (Single "weights"))
              None None (PyFloat (Fin 0.7)) "min" H) as (Hother & _ & _ & _ & Hdirs).
  split; [apply Hother; intros [=]|].
  apply Hdirs. vm_compute. reflexivity.
Defined.

(** ** What the checkpoint files hold *)

(** A due call that returns: the record it pickles is built from the
    bookkeeping it leaves, and every file it wrote holds that record. *)
Lemma due_call_record (w : World) (args : Args) (step : Z)
    (model optimizer scheduler : option component) (score : pyval) (mode : string) :
  valid_mode mode = true → wf_attrs (attrs w) = true → is_number score = true →
  no_save args = false → (save_interval args | step) → save_interval args ≠ 0 →
  is_Some (attrs w !! "best_step")
  ∨ strictly_improves score (current_best (attrs w) mode) mode = true →
  let call := save_checkpoint args step model optimizer scheduler score mode w in
  ∃ best_step,
    attrs call.1 !! "best_step" = Some best_step
    ∧ call.2 = inr tt
    ∧ attrs call.1 = attrs (after_bookkeeping step score mode w)
    ∧ ∀ path, wrote path w call.1 →
        files call.1 !! path
        = Some [Pickled (record_of args step model optimizer scheduler score
                           (attrs call.1) best_step)].
Proof.
  intros Hmode Hwf Hscore Hno Hdiv Hsi Hbs call. subst call.
  destruct (save_due_returns args step model optimizer scheduler score mode w)
    as (bs & Hbs' & ->); try done.
  { rewrite after_bookkeeping_best_step. destruct Hbs as [?| ->]; [by case_match|done]. }
  cbn [fst snd]. rewrite attrs_after_writes, attrs_create_dir.
  exists bs. repeat split; try done.
  intros path [d Hd]. rewrite new_events_after_writes in Hd.
  apply elem_of_cons in Hd as [Hd|Hd]; [done|].
  apply files_after_writes_wrote in Hd. by rewrite attrs_create_dir in Hd.
Qed.

Lemma stored_field_pickled (w : World) (path key : string) (d : dict) :
  files w !! path = Some [Pickled d] → stored_field w path key = d !! key.
Proof. unfold stored_field. by intros ->. Qed.

(** X4. A due call of [save_checkpoint] that returns writes
    [checkpoint_best.pt] exactly if its score strictly improves on the best
    so far, and the record in that file then has the call's step and score
    as [best_step] and [best_score]; the record it writes to
    [checkpoint_last.pt] has the call's step as [last_step]. *)
Theorem best_and_last_records (w : World) (args : Args) (step : Z)
    (model optimizer scheduler : option component) (score : pyval) (mode : string) :
  valid_mode mode = true → wf_attrs (attrs w) = true → is_number score = true →
  no_save args = false → (save_interval args | step) → save_interval args ≠ 0 →
  is_Some (attrs w !! "best_step")
  ∨ strictly_improves score (current_best (attrs w) mode) mode = true →
  let call := save_checkpoint args step model optimizer scheduler score mode w in
  (wrote (best_path args) w call.1
   ↔ strictly_improves score (current_best (attrs w) mode) mode = true)
  ∧ (wrote (best_path args) w call.1 →
     stored_field call.1 (best_path args) "best_step" = Some (PyInt step)
     ∧ stored_field call.1 (best_path args) "best_score" = Some score)
  ∧ (wrote (last_path args) w call.1 →
     stored_field call.1 (last_path args) "last_step" = Some (PyInt step)).
Proof.
  intros Hmode Hwf Hscore Hno Hdiv Hsi Hbs call.
  destruct (due_call_record w args step model optimizer scheduler score mode)
    as (bs & Hattr & _ & Hattrs & Hfile); try done.
  fold call in Hattr, Hattrs, Hfile.
  assert (wrote (best_path args) w call.1
          ↔ strictly_improves score (current_best (attrs w) mode) mode = true)
    as Hbest.
  { subst call.
    destruct (save_due_returns args step model optimizer scheduler score mode w)
      as (bs' & _ & ->); try done.
    { rewrite after_bookkeeping_best_step.
      destruct Hbs as [?| ->]; [by case_match|done]. }
    cbn [fst]. rewrite wrote_after_writes.
    pose proof (step_path_not_best args step).
    pose proof (best_path_not_last args).
    intuition congruence. }
  assert (wrote (last_path args) w call.1 → last_step_int (attrs w) < step) as Hlast.
  { destruct (last_written_iff w args step model optimizer scheduler score mode)
      as [_ Hiff]; try done. apply Hiff. }
  split; [done|]. split.
  - intros Hw. pose proof (proj1 Hbest Hw) as Himp.
    rewrite !(stored_field_pickled _ _ _ _ (Hfile _ Hw)).
    destruct (record_of_lookup args step model optimizer scheduler score
                (attrs call.1) bs) as (_ & _ & _ & -> & -> & _).
    rewrite Hattrs, after_bookkeeping_best_step, Himp in Hattr.
    rewrite Hattrs, after_bookkeeping_best_score, Himp. simpl.
    by injection Hattr as <-.
  - intros Hw. pose proof (Hlast Hw) as Hlt.
    rewrite !(stored_field_pickled _ _ _ _ (Hfile _ Hw)).
    destruct (record_of_lookup args step model optimizer scheduler score
                (attrs call.1) bs) as (_ & _ & -> & _).
    rewrite Hattrs, after_bookkeeping_last. simpl. do 2 f_equal. lia.
Qed.

Lemma best_and_last_records_witness :
  wf_attrs (attrs (fresh_process ∅ ∅ ∅ ["train.py"])) = true
  ∧ (save_interval demo_args | 10)
  ∧ stored_field first_run (best_path demo_args) "best_score"
    = Some (PyFloat (Fin 0.5)).
Proof.
  assert (save_interval demo_args | 10) as Hdiv by (exists 10; reflexivity).
  assert (save_interval demo_args ≠ 0) as Hsi by (simpl; lia).
  refine (conj eq_refl (conj Hdiv _)).
  destruct (best_and_last_records (fresh_process ∅ ∅ ∅ ["train.py"]) demo_args 10
              (Some (Single "weights")) None None (PyFloat (Fin 0.5)) "min"
              eq_refl eq_refl eq_refl eq_refl Hdiv Hsi (or_intror eq_refl))
    as (Hiff & Hbest & _).
  exact (proj2 (Hbest (proj2 Hiff eq_refl))).
Defined.

(** X5. Every file that a returning due call of [save_checkpoint] wrote
    holds one and the same record: the call's step and score, the
    [last_step], [best_step] and [best_score] that the call leaves in the
    bookkeeping, and the states of the instances it was given. *)
Theorem written_record_fields (w : World) (args : Args) (step : Z)
    (model optimizer scheduler : option component) (score : pyval)
    (mode : string) (path : string) :
  valid_mode mode = true → wf_attrs (attrs w) = true → is_number score = true →
  no_save args = false → (save_interval args | step) → save_interval args ≠ 0 →
  is_Some (attrs w !! "best_step")
  ∨ strictly_improves score (current_best (attrs w) mode) mode = true →
  let call := save_checkpoint args step model optimizer scheduler score mode w in
  wrote path w call.1 →
  stored_field call.1 path "step" = Some (PyInt step)
  ∧ stored_field call.1 path "score" = Some score
  ∧ stored_field call.1 path "last_step" = attrs call.1 !! "last_step"
  ∧ stored_field call.1 path "last_step"
    = Some (PyInt (Z.max (last_step_int (attrs w)) step))
  ∧ stored_field call.1 path "best_step" = attrs call.1 !! "best_step"
  ∧ is_Some (stored_field call.1 path "best_step")
  ∧ stored_field call.1 path "best_score"
    = Some (default PyNone (attrs call.1 !! "best_score"))
  ∧ stored_field call.1 path "model" = Some (states_of (as_list model))
  ∧ stored_field call.1 path "optimizer" = Some (states_of (as_list optimizer))
  ∧ stored_field call.1 path "scheduler" = Some (states_of (as_list scheduler))
  ∧ stored_field call.1 path "args" = Some (PyNamespace args).
Proof.
  intros Hmode Hwf Hscore Hno Hdiv Hsi Hbs call Hw.
  destruct (due_call_record w args step model optimizer scheduler score mode)
    as (bs & Hattr & _ & Hattrs & Hfile); try done.
  fold call in Hattr, Hattrs, Hfile.
  rewrite !(stored_field_pickled _ _ _ _ (Hfile _ Hw)).
  destruct (record_of_lookup args step model optimizer scheduler score
              (attrs call.1) bs) as (-> & -> & -> & -> & -> & -> & -> & ->).
  rewrite Hattr.
  assert (attrs call.1 !! "last_step"
          = Some (PyInt (Z.max (last_step_int (attrs w)) step))) as ->
    by (by rewrite Hattrs, after_bookkeeping_last).
  repeat split; try done; eauto.
Qed.

Lemma written_record_fields_witness :
  wf_attrs (attrs (fresh_process ∅ ∅ ∅ ["train.py"])) = true
  ∧ (save_interval demo_args | 10)
  ∧ stored_field first_run "ckpt/checkpoint10.pt" "model"
    = Some (PyStates ["weights"]).
Proof.
  assert (save_interval demo_args | 10) as Hdiv by (exists 10; reflexivity).
  assert (save_interval demo_args ≠ 0) as Hsi by (simpl; lia).
  refine (conj eq_refl (conj Hdiv _)).
  assert (wrote "ckpt/checkpoint10.pt" (fresh_process ∅ ∅ ∅ ["train.py"]) first_run)
    as Hw.
  { unfold first_run.
    destruct (save_due_returns demo_args 10 (Some (Single "weights")) None None
                (PyFloat (Fin 0.5)) "min" (fresh_process ∅ ∅ ∅ ["train.py"]))
      as (bs & _ & ->); try done.
    cbn [fst]. apply wrote_after_writes. by left. }
  destruct (written_record_fields (fresh_process ∅ ∅ ∅ ["train.py"]) demo_args 10
              (Some (Single "weights")) None None (PyFloat (Fin 0.5)) "min"
              "ckpt/checkpoint10.pt"
              eq_refl eq_refl eq_refl eq_refl Hdiv Hsi (or_intror eq_refl) Hw)
    as (_ & _ & _ & _ & _ & _ & _ & Hm & _).
  exact Hm.
Defined.

(** ** [load_checkpoint]: what it returns and what it leaves alone *)

Lemma restore_component_restored (xs : option (list blob)) (d : dict)
    (key : string) (w : World) :
  states_or_none (default PyNone (d !! key)) = true →
  restore_component xs d key w = (w, inr (restored xs (default PyNone (d !! key)))).
Proof.
  unfold restore_component, restored. intros H.
  destruct xs; [|done]. by destruct (default PyNone (d !! key)).
Qed.

(** A load of an existing pickled record whose saved states are lists (or
    absent), in full. *)
Lemma load_checkpoint_found (args : Args)
    (model optimizer scheduler : option component) (w : World)
    (path : string) (d : dict) :
  restore_file args = Some path →
  files w !! path = Some [Pickled d] →
  states_or_none (default PyNone (d !! "model")) = true →
  states_or_none (default PyNone (d !! "optimizer")) = true →
  states_or_none (default PyNone (d !! "scheduler")) = true →
  load_checkpoint args model optimizer scheduler w
  = ((logging_info ("Loaded checkpoint " +:+ path) (restored_world d w)).1,
     inr (Some {| loaded_record := d;
                  loaded_model := restored (as_list model) (default PyNone (d !! "model"));
                  loaded_optimizer :=
                    restored (as_list optimizer) (default PyNone (d !! "optimizer"));
                  loaded_scheduler :=
                    restored (as_list scheduler) (default PyNone (d !! "scheduler")) |})).
Proof.
  intros Hpath Hfile Hm Ho Hs. unfold load_checkpoint. rewrite Hpath.
  unfold isfile, torch_load, gets.
  unfold mbind at 1, M_bind at 1. rewrite Hfile.
  rewrite bool_decide_eq_true_2 by eauto.
  unfold mbind at 1, M_bind at 1. rewrite Hfile.
  unfold mbind at 1, M_bind at 1.
  unfold mbind at 1, M_bind at 1. rewrite when_is_Some_setattr.
  unfold mbind at 1, M_bind at 1. rewrite when_is_Some_setattr.
  fold (restored_world d w).
  unfold mbind, M_bind.
  rewrite !restore_component_restored by done.
  pose proof (logging_info_returns ("Loaded checkpoint " +:+ path)
                (restored_world d w)) as H4.
  destruct (logging_info ("Loaded checkpoint " +:+ path) (restored_world d w))
    as [w2 [e|[]]]; simpl in H4; [done|]. done.
Qed.

Lemma length_load_states (ms saved : list blob) :
  length (load_states ms saved) = length ms.
Proof.
  revert saved. induction ms as [|m ms IH]; intros [|s saved]; simpl; auto.
Qed.

Lemma lookup_load_states (ms saved : list blob) (i : nat) :
  load_states ms saved !! i
  = match ms !! i with
    | Some m => Some (default m (saved !! i))
    | None => None
    end.
Proof.
  revert saved i. induction ms as [|m ms IH]; intros [|s saved] [|i]; simpl; auto.
  - by destruct (ms !! i).
Qed.

Lemma load_states_same_length (ms saved : list blob) :
  length ms = length saved → load_states ms saved = saved.
Proof.
  revert saved. induction ms as [|m ms IH]; intros [|s saved]; simpl; try done.
  intros [= Hlen]. f_equal. by apply IH.
Qed.

(** X6. With [restore_file] unset, or naming a path that is not a file,
    [load_checkpoint] returns [None] and changes nothing: not the
    bookkeeping, not the logger, not the instances. *)
Theorem load_checkpoint_absent (args : Args)
    (model optimizer scheduler : option component) (w : World) :
  (∀ path, restore_file args = Some path → files w !! path = None) →
  load_checkpoint args model optimizer scheduler w = (w, inr None).
Proof.
  intros Habsent. unfold load_checkpoint.
  destruct (restore_file args) as [path|]; [|done].
  unfold isfile, gets, mbind, M_bind. rewrite (Habsent path eq_refl).
  rewrite bool_decide_eq_false_2; [done|]. by intros [? ?].
Qed.

Lemma load_checkpoint_absent_witness :
  (∀ path, restore_file demo_args = Some path →
           files (fresh_process ∅ ∅ ∅ []) !! path = None)
  ∧ load_checkpoint demo_args None None None (fresh_process ∅ ∅ ∅ [])
    = (fresh_process ∅ ∅ ∅ [], inr None).
Proof.
  assert (∀ path, restore_file demo_args = Some path →
                  files (fresh_process ∅ ∅ ∅ []) !! path = None) as H
    by (intros path _; reflexivity).
  exact (conj H (load_checkpoint_absent demo_args None None None
                   (fresh_process ∅ ∅ ∅ []) H)).
Defined.

(** X7. [load_checkpoint] pairs the instances it is given with the saved
    states by position: it returns as many instances as it was given,
    instance [i] carries saved state [i] where there is one and keeps its
    own state otherwise; surplus saved states are ignored. *)
Theorem load_checkpoint_pairs_by_position (args : Args)
    (model optimizer scheduler : option component) (w : World)
    (path : string) (d : dict) (ms saved : list blob) :
  restore_file args = Some path →
  files w !! path = Some [Pickled d] →
  as_list model = Some ms →
  d !! "model" = Some (PyStates saved) →
  states_or_none (default PyNone (d !! "optimizer")) = true →
  states_or_none (default PyNone (d !! "scheduler")) = true →
  ∃ l r, (load_checkpoint args model optimizer scheduler w).2 = inr (Some l)
         ∧ loaded_model l = Some r
         ∧ length r = length ms
         ∧ (∀ i m, ms !! i = Some m → r !! i = Some (default m (saved !! i)))
         ∧ (length ms = length saved → r = saved).
Proof.
  intros Hpath Hfile Hms Hsaved Ho Hs.
  rewrite (load_checkpoint_found args model optimizer scheduler w path d)
    by (try done; by rewrite Hsaved).
  eexists _, (load_states ms saved). cbn [snd loaded_model].
  split; [done|]. rewrite Hms, Hsaved. simpl.
  split; [done|]. split; [apply length_load_states|]. split.
  - intros i m Hm. by rewrite lookup_load_states, Hm.
  - apply load_states_same_length.
Qed.

Lemma load_checkpoint_pairs_by_position_witness :
  restore_file demo_args = Some "ckpt/checkpoint_last.pt"
  ∧ stored_field first_run "ckpt/checkpoint_last.pt" "model"
    = Some (PyStates ["weights"])
  ∧ ∃ l, (load_checkpoint demo_args (Some (Many ["a"; "b"])) None None first_run).2
         = inr (Some l)
         ∧ loaded_model l = Some ["weights"; "b"].
Proof.
  refine (conj eq_refl (conj _ _)); [vm_compute; reflexivity|].
  assert (∃ d, files first_run !! "ckpt/checkpoint_last.pt" = Some [Pickled d]
               ∧ d !! "model" = Some (PyStates ["weights"])
               ∧ states_or_none (default PyNone (d !! "optimizer")) = true
               ∧ states_or_none (default PyNone (d !! "scheduler")) = true)
    as (d & Hd & Hm & Ho & Hs).
  { destruct (files first_run !! "ckpt/checkpoint_last.pt") as [[|[d|] [|]]|] eqn:Hf;
      try (vm_compute in Hf; discriminate).
    exists d. split; [done|].
    assert (Some [Pickled d] = files first_run !! "ckpt/checkpoint_last.pt") as Hf'
      by done.
    vm_compute in Hf'. injection Hf' as ->. repeat split; vm_compute; reflexivity. }
  destruct (load_checkpoint_pairs_by_position demo_args (Some (Many ["a"; "b"]))
              None None first_run "ckpt/checkpoint_last.pt" d ["a"; "b"] ["weights"]
              eq_refl Hd eq_refl Hm Ho Hs) as (l & r & Hl & Hr & Hlen & Hi & _).
  exists l. split; [done|]. rewrite Hr. f_equal.
  pose proof (Hi 0%nat "a" eq_refl) as H0. pose proof (Hi 1%nat "b" eq_refl) as H1.
  destruct r as [|x [|y [|z r]]]; simpl in *; try discriminate.
  by injection H0 as ->; injection H1 as ->.
Defined.

Lemma attrs_restored_world (d : dict) (w : World) :
  attrs (restored_world d w) = restore_attrs d (attrs w).
Proof.
  unfold restored_world, restore_attrs.
  by destruct (d !! "last_step"), (d !! "best_score").
Qed.

Lemma trace_restored_world (d : dict) (w : World) :
  trace (restored_world d w) = trace w.
Proof.
  unfold restored_world. by destruct (d !! "last_step"), (d !! "best_score").
Qed.

(** X8. A record whose [model] entry cannot be iterated (an int, a float or
    a namespace) makes [load_checkpoint] raise [TypeError] when a model is
    passed; by then the bookkeeping has been overwritten from the record,
    and nothing has been logged. *)
Theorem load_checkpoint_bad_entry (args : Args)
    (model optimizer scheduler : option component) (w : World)
    (path : string) (d : dict) (v : pyval) :
  restore_file args = Some path →
  files w !! path = Some [Pickled d] →
  is_Some (as_list model) →
  d !! "model" = Some v →
  not_iterable v = true →
  let loaded := load_checkpoint args model optimizer scheduler w in
  loaded.2 = inl TypeError
  ∧ attrs loaded.1 = restore_attrs d (attrs w)
  ∧ trace loaded.1 = trace w.
Proof.
  intros Hpath Hfile [ms Hms] Hv Hbad loaded.
  assert (loaded = (restored_world d w, inl TypeError)) as ->.
  { subst loaded. unfold load_checkpoint. rewrite Hpath.
    unfold isfile, torch_load, gets.
    unfold mbind at 1, M_bind at 1. rewrite Hfile.
    rewrite bool_decide_eq_true_2 by eauto.
    unfold mbind at 1, M_bind at 1. rewrite Hfile.
    unfold mbind at 1, M_bind at 1.
    unfold mbind at 1, M_bind at 1. rewrite when_is_Some_setattr.
    unfold mbind at 1, M_bind at 1. rewrite when_is_Some_setattr.
    fold (restored_world d w).
    unfold mbind, M_bind, restore_component. rewrite Hms, Hv.
    by destruct v. }
  cbn [fst snd]. by rewrite attrs_restored_world, trace_restored_world.
Qed.

Lemma load_checkpoint_bad_entry_witness :
  let d : dict := <["last_step" := PyInt 3]> (<["model" := PyInt 0]> ∅) in
  let w := fresh_process (<["ckpt/checkpoint_last.pt" := [Pickled d]]> ∅) ∅ ∅ [] in
  let loaded := load_checkpoint demo_args (Some (Single "init")) None None w in
  loaded.2 = inl TypeError ∧ attrs loaded.1 !! "last_step" = Some (PyInt 3).
Proof.
  intros d w loaded.
  destruct (load_checkpoint_bad_entry demo_args (Some (Single "init")) None None w
              "ckpt/checkpoint_last.pt" d (PyInt 0) eq_refl eq_refl
              (ex_intro _ _ eq_refl) eq_refl eq_refl) as (He & Ha & _).
  split; [exact He|]. fold loaded in Ha. rewrite Ha. reflexivity.
Defined.

(** X9. Round trip in general: after a due call of [save_checkpoint] that
    returns, a [load_checkpoint] whose [restore_file] names any file the call
    wrote returns the record that the call left in that file, with the
    [step] and the [score] of the call; it sets [last_step] and
    [best_score] to what the call left in the bookkeeping, and gives the
    instances it is passed the states that were saved, by position. *)
Theorem save_load_restores (w : World) (args : Args) (step : Z)
    (model optimizer scheduler : option component) (score : pyval)
    (mode : string) (path : string) (w' : World) (args' : Args)
    (model' optimizer' scheduler' : option component) :
  valid_mode mode = true → wf_attrs (attrs w) = true → is_number score = true →
  no_save args = false → (save_interval args | step) → save_interval args ≠ 0 →
  is_Some (attrs w !! "best_step")
  ∨ strictly_improves score (current_best (attrs w) mode) mode = true →
  let call := save_checkpoint args step model optimizer scheduler score mode w in
  wrote path w call.1 →
  files w' !! path = files call.1 !! path →
  restore_file args' = Some path →
  let loaded := load_checkpoint args' model' optimizer' scheduler' w' in
  ∃ l, loaded.2 = inr (Some l)
       ∧ files call.1 !! path = Some [Pickled (loaded_record l)]
       ∧ loaded_record l !! "step" = Some (PyInt step)
       ∧ loaded_record l !! "score" = Some score
       ∧ attrs loaded.1 !! "last_step" = attrs call.1 !! "last_step"
       ∧ attrs loaded.1 !! "best_score"
         = Some (default PyNone (attrs call.1 !! "best_score"))
       ∧ loaded_model l = restored (as_list model') (states_of (as_list model))
       ∧ loaded_optimizer l
         = restored (as_list optimizer') (states_of (as_list optimizer))
       ∧ loaded_scheduler l
         = restored (as_list scheduler') (states_of (as_list scheduler)).
Proof.
  intros Hmode Hwf Hscore Hno Hdiv Hsi Hbs call Hw Hfiles Hpath loaded.
  destruct (due_call_record w args step model optimizer scheduler score mode)
    as (bs & Hattr & _ & Hattrs & Hfile); try done.
  fold call in Hattr, Hattrs, Hfile.
  specialize (Hfile _ Hw). rewrite <- Hfiles in Hfile.
  destruct (record_of_lookup args step model optimizer scheduler score
              (attrs call.1) bs) as (Hst & Hsc & Hl & _ & Hb & Hm & Ho & Hs).
  set (d := record_of _ _ _ _ _ _ _ _) in *.
  subst loaded.
  rewrite (load_checkpoint_found args' model' optimizer' scheduler' w' path d)
    by (rewrite ?Hm, ?Ho, ?Hs; simpl; auto using states_of_ok).
  eexists.
  cbn [fst snd loaded_record loaded_model loaded_optimizer loaded_scheduler].
  split; [done|]. split; [by rewrite <- Hfiles|].
  split; [done|]. split; [done|].
  rewrite attrs_logging_info, attrs_restored_world. unfold restore_attrs.
  rewrite Hl, Hb, Hm, Ho, Hs. simpl.
  rewrite lookup_insert_eq, lookup_insert_ne, lookup_insert_eq by done.
  repeat split; try done.
  rewrite Hattrs, after_bookkeeping_last. done.
Qed.

Lemma save_load_restores_witness :
  wf_attrs (attrs first_run) = true
  ∧ (save_interval demo_args | 20)
  ∧ let call := save_checkpoint demo_args 20 (Some (Many ["w1"; "w2"])) None None
                  (PyFloat (Fin 0.7)) "min" first_run in
    let loaded := load_checkpoint demo_args (Some (Many ["a"; "b"])) None None call.1 in
    ∃ l, loaded.2 = inr (Some l)
         ∧ loaded_record l !! "step" = Some (PyInt 20)
         ∧ loaded_model l = Some ["w1"; "w2"]
         ∧ attrs loaded.1 !! "best_score" = Some (PyFloat (Fin 0.5)).
Proof.
  assert (wf_attrs (attrs first_run) = true) as Hwf by (vm_compute; reflexivity).
  assert (save_interval demo_args | 20) as Hdiv by (exists 20; reflexivity).
  assert (save_interval demo_args ≠ 0) as Hsi by (simpl; lia).
  assert (is_Some (attrs first_run !! "best_step")) as Hbs by (vm_compute; eauto).
  refine (conj Hwf (conj Hdiv _)).
  intros call loaded.
  assert (wrote "ckpt/checkpoint_last.pt" first_run call.1) as Hw.
  { destruct (last_written_iff first_run demo_args 20 (Some (Many ["w1"; "w2"]))
                None None (PyFloat (Fin 0.7)) "min" eq_refl Hwf eq_refl eq_refl
                Hdiv Hsi (or_introl Hbs)) as [_ Hiff].
    apply Hiff. vm_compute. reflexivity. }
  destruct (save_load_restores first_run demo_args 20 (Some (Many ["w1"; "w2"]))
              None None (PyFloat (Fin 0.7)) "min" "ckpt/checkpoint_last.pt" call.1
              demo_args (Some (Many ["a"; "b"])) None None
              eq_refl Hwf eq_refl eq_refl Hdiv Hsi (or_introl Hbs) Hw eq_refl eq_refl)
    as (l & Hl & _ & Hst & _ & _ & Hb & Hm & _).
  exists l. split; [exact Hl|]. split; [exact Hst|]. split; [exact Hm|].
  fold loaded in Hb. rewrite Hb. vm_compute. reflexivity.
Defined.

(** ** Invariants of a process that only saves *)

(** A call that wrote a file was due, had a valid mode and a numeric score,
    and found [best_step] set or improved. *)
Lemma wrote_inv (w : World) (args : Args) (step : Z)
    (model optimizer scheduler : option component) (score : pyval)
    (mode : string) (path : string) :
  wf_attrs (attrs w) = true →
  wrote path w (save_checkpoint args step model optimizer scheduler score mode w).1 →
  valid_mode mode = true ∧ is_number score = true
  ∧ no_save args = false ∧ (save_interval args | step) ∧ save_interval args ≠ 0
  ∧ (is_Some (attrs w !! "best_step")
     ∨ strictly_improves score (current_best (attrs w) mode) mode = true).
Proof.
  intros Hwf. rewrite save_checkpoint_world by done.
  destruct (valid_mode mode); simpl;
    [|intros []%not_wrote_same_trace; done].
  destruct (is_number score); simpl;
    [|intros []%not_wrote_same_trace; done].
  unfold save_cases.
  destruct (no_save args);
    [intros []%not_wrote_same_trace; apply trace_after_bookkeeping|].
  destruct (decide (save_interval args = 0)) as [|Hsi];
    [intros []%not_wrote_same_trace; apply trace_after_bookkeeping|].
  case_bool_decide as Hmod;
    [|intros []%not_wrote_same_trace; apply trace_after_bookkeeping].
  apply Z.mod_divide in Hmod; [|done].
  cbv zeta. rewrite after_bookkeeping_best_step.
  destruct (strictly_improves score (current_best (attrs w) mode) mode);
    [by intros _; repeat split; auto|].
  destruct (attrs w !! "best_step"); [by intros _; repeat split; eauto|].
  cbn [fst]. intros [d Hd]. rewrite new_events_create_dir in Hd.
  apply list_elem_of_singleton in Hd. discriminate.
Qed.

Lemma saves_only_wf (w : World) :
  saves_only w →
  wf_attrs (attrs w) = true
  ∧ (is_Some (attrs w !! "best_step") ↔ is_Some (attrs w !! "best_score")).
Proof.
  induction 1 as [|args step model optimizer scheduler score mode w _ [IHwf IHiff]].
  - split; [done|]. simpl. rewrite !lookup_empty. split; by intros [? ?].
  - rewrite save_checkpoint_world by done.
    destruct (valid_mode mode); simpl; [|done].
    destruct (is_number score) eqn:Hscore; simpl.
    + rewrite attrs_save_cases.
      split; [by apply wf_attrs_after_bookkeeping|].
      rewrite after_bookkeeping_best_step, after_bookkeeping_best_score.
      destruct (strictly_improves _ _ _); [|done]. split; eauto.
    + split.
      * pose proof (wf_attrs_after_bookkeeping step score mode w IHwf) as H.
        unfold after_bookkeeping in H.
        by rewrite strictly_improves_not_number in H.
      * by rewrite !lookup_insert_ne.
Qed.

(** X10. In a process that has only called [save_checkpoint] (with any
    arguments, whether the calls returned or raised) the bookkeeping is
    well-formed and [best_step] is set exactly if [best_score] is; hence
    the [best_score] of every record such a process writes is a number,
    never [None]. *)
Theorem saves_only_invariant (w : World) :
  saves_only w →
  wf_attrs (attrs w) = true
  ∧ (is_Some (attrs w !! "best_step") ↔ is_Some (attrs w !! "best_score"))
  ∧ ∀ (args : Args) (step : Z) (model optimizer scheduler : option component)
      (score : pyval) (mode : string) (path : string),
      let call := save_checkpoint args step model optimizer scheduler score mode w in
      wrote path w call.1 →
      ∃ v, stored_field call.1 path "best_score" = Some v ∧ is_number v = true.
Proof.
  intros Hsaves. destruct (saves_only_wf w Hsaves) as [Hwf Hiff].
  split; [done|]. split; [done|].
  intros args step model optimizer scheduler score mode path call Hw.
  destruct (wrote_inv w args step model optimizer scheduler score mode path Hwf Hw)
    as (Hmode & Hscore & Hno & Hdiv & Hsi & Hbs).
  destruct (due_call_record w args step model optimizer scheduler score mode)
    as (bs & Hattr & _ & _ & Hfile); try done.
  fold call in Hattr, Hfile.
  rewrite (stored_field_pickled _ _ _ _ (Hfile _ Hw)).
  destruct (record_of_lookup args step model optimizer scheduler score
              (attrs call.1) bs) as (_ & _ & _ & _ & -> & _).
  destruct (saves_only_wf call.1) as [Hwf' Hiff'].
  { subst call. by constructor. }
  destruct (proj1 Hiff' (ex_intro _ bs Hattr)) as [v Hv].
  exists v. rewrite Hv. split; [done|].
  unfold wf_attrs in Hwf'. rewrite Hv in Hwf'.
  by apply andb_true_iff in Hwf' as [_ ?].
Qed.

Lemma saves_only_invariant_witness :
  saves_only repeated_save.1
  ∧ wf_attrs (attrs repeated_save.1) = true
  ∧ (is_Some (attrs repeated_save.1 !! "best_step")
     ↔ is_Some (attrs repeated_save.1 !! "best_score")).
Proof.
  assert (saves_only repeated_save.1) as H
    by (unfold repeated_save, first_run; repeat constructor).
  destruct (saves_only_invariant repeated_save.1 H) as (Hwf & Hiff & _).
  exact (conj H (conj Hwf Hiff)).
Defined.

(** ** [init_logging]: handlers and log file *)

(** X11. In a process whose root logger has no handlers yet, [init_logging]
    with [no_log] set (or without a [log_file]) installs the console handler
    alone at level [DEBUG] for the root logger, touches no file, and logs
    the command line and the arguments to the console. *)
Theorem init_logging_console_only (repr_vars : Args → string) (args : Args)
    (w : World) :
  root_handlers w = [] →
  no_log args = true ∨ log_file args = None →
  let call := init_logging repr_vars args w in
  call.2 = inr tt
  ∧ root_handlers call.1 = [StreamHandler INFO]
  ∧ root_level call.1 = DEBUG
  ∧ files call.1 = files w
  ∧ new_events w call.1
    = [EvLog (StreamHandler INFO) ("COMMAND: " +:+ String.concat " " (argv w));
       EvLog (StreamHandler INFO) ("Arguments: " +:+ repr_vars args)].
Proof.
  intros Hroot Hnolog call.
  assert (call
          = (basicConfig [StreamHandler INFO] DEBUG;;
             av ← gets argv;
             logging_info ("COMMAND: " +:+ String.concat " " av);;
             logging_info ("Arguments: " +:+ repr_vars args)) w) as ->.
  { subst call. unfold init_logging.
    destruct Hnolog as [-> | ->]; [done|]. by destruct (no_log args). }
  unfold basicConfig, logging_info, gets, when, modify.
  unfold mbind, M_bind, mret, M_ret. rewrite Hroot. simpl.
  repeat split; try done.
  apply new_events_app. simpl. by rewrite <- app_assoc.
Qed.

Lemma init_logging_console_only_witness :
  let args := skip_args in
  let w := fresh_process ∅ ∅ ∅ ["train.py"] in
  root_handlers w = []
  ∧ (no_log args = true ∨ log_file args = None)
  ∧ root_handlers (init_logging (λ _, "{}") args w).1 = [StreamHandler INFO].
Proof.
  intros args w.
  refine (conj eq_refl (conj (or_introl eq_refl) _)).
  exact (proj1 (proj2 (init_logging_console_only (λ _, "{}") args w eq_refl
                         (or_introl eq_refl)))).
Defined.

(** X12. In a process whose root logger has no handlers yet, [init_logging]
    with a log file installs the console handler and the file handler, sets
    the root level to [DEBUG], and leaves in the log file the lines of the
    command line and of the arguments: after what the file held before in
    mode ["a"], as its only lines in mode ["w"].  Other files stay as they
    were. *)
Theorem init_logging_log_file (repr_vars : Args → string) (args : Args)
    (w : World) (path : string) :
  root_handlers w = [] → no_log args = false → log_file args = Some path →
  let append := bool_decide (Z.b2z (resume_training args) ∈ regular_fds w) in
  let mode := if append then "a" else "w" in
  let earlier := if append then default [] (files w !! path) else [] in
  let call := init_logging repr_vars args w in
  call.2 = inr tt
  ∧ root_handlers call.1 = [StreamHandler INFO; FileHandler path mode DEBUG]
  ∧ root_level call.1 = DEBUG
  ∧ files call.1 !! path
    = Some (earlier ++ [Line ("COMMAND: " +:+ String.concat " " (argv w));
                        Line ("Arguments: " +:+ repr_vars args)])
  ∧ ∀ p, p ≠ path → files call.1 !! p = files w !! p.
Proof.
  intros Hroot Hno Hlog append mode earlier call.
  subst call. unfold init_logging. rewrite Hno, Hlog.
  unfold isfile_fd, open_file_handler, basicConfig, logging_info, gets, when, modify.
  unfold mbind, M_bind, mret, M_ret. cbv beta iota zeta.
  fold append. subst mode earlier.
  destruct append; simpl; rewrite Hroot; simpl.
  - destruct (files w !! path) as [old|] eqn:Hold; simpl;
      repeat split; intros; simplify_map_eq; try done.
    by rewrite <- app_assoc.
  - repeat split; intros; by simplify_map_eq.
Qed.

Lemma init_logging_log_file_witness :
  root_handlers redirected_logging = []
  ∧ no_log demo_args = false
  ∧ log_file demo_args = Some "logs/train.log"
  ∧ files (init_logging (λ _, "{}") demo_args redirected_logging).1 !! "logs/train.log"
    = Some ([Line "epoch 1"]
            ++ [Line ("COMMAND: " +:+ String.concat " " (argv redirected_logging));
                Line ("Arguments: " +:+ "{}")]).
Proof.
  refine (conj eq_refl (conj eq_refl (conj eq_refl _))).
  destruct (init_logging_log_file (λ _, "{}") demo_args redirected_logging
              "logs/train.log" eq_refl eq_refl eq_refl) as (_ & _ & _ & Hf & _).
  exact Hf.
Defined.

Lemma root_foldl_handle (msg : string) (hs : list handler) (w : World) :
  root_handlers (foldl (handle msg) w hs) = root_handlers w
  ∧ root_level (foldl (handle msg) w hs) = root_level w.
Proof.
  revert w. induction hs as [|h hs IH]; intros w; simpl; [done|].
  destruct (IH (handle msg w h)) as [-> ->]. by destruct h.
Qed.

Lemma logging_info_configured (msg : string) (w : World) :
  root_handlers w ≠ [] →
  root_handlers (logging_info msg w).1 = root_handlers w
  ∧ root_level (logging_info msg w).1 = root_level w.
Proof.
  intros Hroot. unfold logging_info, gets, when, modify, mbind, M_bind, mret, M_ret.
  rewrite bool_decide_eq_false_2 by done.
  case_bool_decide; simpl; [apply root_foldl_handle|done].
Qed.

(** With handlers in place and the root level at [WARNING], an info record
    goes nowhere. *)
Lemma logging_info_quiet (msg : string) (w : World) :
  root_handlers w ≠ [] → root_level w = WARNING →
  logging_info msg w = (w, inr tt).
Proof.
  intros Hroot Hlevel. unfold logging_info, gets, when, modify, mbind, M_bind, mret, M_ret.
  rewrite bool_decide_eq_false_2 by done. by rewrite Hlevel.
Qed.

(** The world once [init_logging] has built its handlers: the log file is
    opened when there is one. *)
Lemma init_logging_on_configured_root (repr_vars : Args → string) (args : Args)
    (w : World) :
  root_handlers w ≠ [] →
  ∃ w1, root_handlers w1 = root_handlers w ∧ root_level w1 = root_level w
        ∧ argv w1 = argv w
        ∧ (∀ h msg, EvLog h msg ∉ new_events w w1)
        ∧ (∃ l, trace w1 = trace w ++ l)
        ∧ init_logging repr_vars args w
          = (logging_info ("COMMAND: " +:+ String.concat " " (argv w));;
             logging_info ("Arguments: " +:+ repr_vars args)) w1.
Proof.
  intros Hroot. unfold init_logging.
  destruct (no_log args); [|destruct (log_file args) as [path|]].
  - exists w. repeat split; try done.
    + intros h msg Hin. unfold new_events in Hin. rewrite drop_all in Hin.
      by apply elem_of_nil in Hin.
    + exists []. by rewrite app_nil_r.
    + unfold basicConfig, gets, modify, mbind, M_bind, mret, M_ret.
      by destruct (root_handlers w).
  - set (mode := if bool_decide (Z.b2z (resume_training args) ∈ regular_fds w)
                 then "a" else "w").
    exists (emit (EvOpen path mode)
              (set_files (λ fs, if bool_decide (mode = "w") then <[path := []]> fs
                                else match fs !! path with
                                     | Some _ => fs
                                     | None => <[path := []]> fs
                                     end) w)).
    repeat split; try done.
    + intros h msg Hin. unfold new_events in Hin. simpl in Hin.
      rewrite drop_app_length in Hin. apply list_elem_of_singleton in Hin. done.
    + by eexists.
    + unfold isfile_fd, open_file_handler, basicConfig, gets, modify,
        mbind, M_bind, mret, M_ret. cbv beta iota zeta. fold mode.
      simpl. by destruct (root_handlers w).
  - exists w. repeat split; try done.
    + intros h msg Hin. unfold new_events in Hin. rewrite drop_all in Hin.
      by apply elem_of_nil in Hin.
    + exists []. by rewrite app_nil_r.
    + unfold basicConfig, gets, modify, mbind, M_bind, mret, M_ret.
      by destruct (root_handlers w).
Qed.

(** With handlers in place and the root level at [WARNING], the whole of
    [init_logging] logs nothing. *)
Lemma init_logging_quiet (repr_vars : Args → string) (args : Args) (w : World) :
  root_handlers w ≠ [] → root_level w = WARNING →
  (init_logging repr_vars args w).2 = inr tt
  ∧ root_handlers (init_logging repr_vars args w).1 = root_handlers w
  ∧ root_level (init_logging repr_vars args w).1 = WARNING
  ∧ ∀ h msg, EvLog h msg ∉ new_events w (init_logging repr_vars args w).1.
Proof.
  intros Hroot Hlevel.
  destruct (init_logging_on_configured_root repr_vars args w Hroot)
    as (w1 & Hh & Hl & _ & Hev & _ & ->).
  unfold mbind, M_bind.
  rewrite logging_info_quiet by (done || congruence).
  rewrite logging_info_quiet by (done || congruence).
  simpl. split; [done|]. split; [done|]. split; [congruence|done].
Qed.

(** X13. Once the root logger has handlers, [init_logging] changes neither
    the handlers nor the level of the root logger: the handlers it builds
    are dropped.  If the level is [WARNING], the command line and the
    arguments are logged nowhere. *)
Theorem init_logging_configured (repr_vars : Args → string) (args : Args)
    (w : World) :
  root_handlers w ≠ [] →
  let call := init_logging repr_vars args w in
  root_handlers call.1 = root_handlers w
  ∧ root_level call.1 = root_level w
  ∧ (root_level w = WARNING → ∀ h msg, EvLog h msg ∉ new_events w call.1).
Proof.
  intros Hroot call. subst call.
  destruct (init_logging_on_configured_root repr_vars args w Hroot)
    as (w1 & Hh & Hl & _ & Hev & _ & ->).
  assert (root_handlers w1 ≠ []) as Hroot1 by (by rewrite Hh).
  split; [|split].
  - unfold mbind, M_bind.
    pose proof (logging_info_configured
                  ("COMMAND: " +:+ String.concat " " (argv w)) w1 Hroot1) as [H1 _].
    pose proof (logging_info_returns
                  ("COMMAND: " +:+ String.concat " " (argv w)) w1) as Hr.
    destruct (logging_info _ w1) as [w2 [e|[]]]; simpl in *; [done|].
    rewrite <- Hh, <- H1.
    apply logging_info_configured. by rewrite H1.
  - unfold mbind, M_bind.
    pose proof (logging_info_configured
                  ("COMMAND: " +:+ String.concat " " (argv w)) w1 Hroot1) as [H1 H2].
    pose proof (logging_info_returns
                  ("COMMAND: " +:+ String.concat " " (argv w)) w1) as Hr.
    destruct (logging_info _ w1) as [w2 [e|[]]]; simpl in *; [done|].
    rewrite <- Hl, <- H2.
    apply logging_info_configured. by rewrite H1.
  - intros Hlevel. unfold mbind, M_bind.
    rewrite logging_info_quiet by (done || congruence).
    rewrite logging_info_quiet by (done || congruence). done.
Qed.

Lemma init_logging_configured_witness :
  root_handlers resumed ≠ []
  ∧ root_handlers (init_logging (λ _, "{}") demo_args resumed).1 = root_handlers resumed.
Proof.
  assert (root_handlers resumed ≠ []) as H by (vm_compute; discriminate).
  exact (conj H (proj1 (init_logging_configured (λ _, "{}") demo_args resumed H))).
Defined.

Lemma root_restored_world (d : dict) (w : World) :
  root_handlers (restored_world d w) = root_handlers w
  ∧ root_level (restored_world d w) = root_level w.
Proof.
  unfold restored_world.
  by destruct (d !! "best_score"), (d !! "last_step").
Qed.

(** X14. [load_checkpoint] before [init_logging]: in a process whose root
    logger is still untouched, the message of a successful load makes
    [logging.info] install the default stream handler, and [init_logging]
    then installs nothing.  The root logger keeps that one handler at level
    [WARNING], [init_logging] logs neither the command line nor the
    arguments, and the load itself logged nothing either. *)
Theorem load_then_init_logging (repr_vars : Args → string) (args : Args)
    (model optimizer scheduler : option component) (w : World)
    (path : string) (d : dict) :
  root_handlers w = [] → root_level w = WARNING →
  restore_file args = Some path →
  files w !! path = Some [Pickled d] →
  states_or_none (default PyNone (d !! "model")) = true →
  states_or_none (default PyNone (d !! "optimizer")) = true →
  states_or_none (default PyNone (d !! "scheduler")) = true →
  let loaded := (load_checkpoint args model optimizer scheduler w).1 in
  let call := init_logging repr_vars args loaded in
  new_events w loaded = []
  ∧ call.2 = inr tt
  ∧ root_handlers call.1 = [StreamHandler NOTSET]
  ∧ root_level call.1 = WARNING
  ∧ ∀ h msg, EvLog h msg ∉ new_events loaded call.1.
Proof.
  intros Hroot Hlevel Hpath Hfile Hm Ho Hs loaded call.
  assert (loaded = set_root [StreamHandler NOTSET] WARNING (restored_world d w))
    as Hloaded.
  { subst loaded.
    rewrite (load_checkpoint_found args model optimizer scheduler w path d)
      by done.
    destruct (root_restored_world d w) as [Hh Hl].
    unfold logging_info, gets, when, modify, mbind, M_bind, mret, M_ret.
    rewrite Hh, Hroot. simpl. rewrite Hl, Hlevel. done. }
  assert (root_handlers loaded ≠ []) as Hroot' by (by rewrite Hloaded).
  assert (root_level loaded = WARNING) as Hlevel' by (by rewrite Hloaded).
  destruct (init_logging_quiet repr_vars args loaded Hroot' Hlevel')
    as (Hr & Hh & Hl & Hev).
  split; [|split; [|split; [|split]]]; try done.
  - rewrite Hloaded. unfold new_events. simpl.
    rewrite trace_restored_world. by rewrite drop_all.
  - subst call. rewrite Hh. by rewrite Hloaded.
Qed.

Lemma load_then_init_logging_witness :
  let w := fresh_process {["ckpt/checkpoint_last.pt" := [Pickled {["last_step" := PyInt 10]}]]}
             ∅ ∅ ["train.py"] in
  root_handlers
    (init_logging (λ _, "{}") demo_args
       (load_checkpoint demo_args None None None w).1).1
  = [StreamHandler NOTSET].
Proof.
  intros w.
  exact (proj1 (proj2 (proj2
    (load_then_init_logging (λ _, "{}") demo_args None None None w
       "ckpt/checkpoint_last.pt" {["last_step" := PyInt 10]}
       eq_refl eq_refl eq_refl eq_refl eq_refl eq_refl eq_refl)))).
Defined.

(** ** [setup_experiment] *)

Lemma os_path_join_snoc (a : string) (p : list string) (b : string) :
  os_path_join a (p ++ [b]) = os_path_join (os_path_join a p) [b].
Proof. unfold os_path_join. by rewrite foldl_app. Qed.

(** ["-".join([x])] is [x]. *)
Lemma concat_single (x : string) : String.concat "-" [x] = x.
Proof. reflexivity. Qed.

Lemma experiment_name_eq (args : Config) :
  (if negb (cfg_resume_training args)
   then String.concat "-"
          [match cfg_experiment args with
           | Some e => if bool_decide (e = "")
                       then replace_char "_" "-" (cfg_model args) else e
           | None => replace_char "_" "-" (cfg_model args)
           end]
   else match cfg_experiment args with
        | Some e => if bool_decide (e = "")
                    then replace_char "_" "-" (cfg_model args) else e
        | None => replace_char "_" "-" (cfg_model args)
        end) = experiment_name args.
Proof.
  rewrite concat_single. unfold experiment_name.
  destruct (negb (cfg_resume_training args));
    destruct (cfg_experiment args) as [[|x e]|]; done.
Qed.

(** The directories of a set-up, created in turn: what the calls leave
    alone. *)
Lemma create_dirs_world (ds : list string) (w : World) :
  trace (foldl (λ w d, create_dir d w) w ds) = trace w ++ (EvMakedirs <$> ds)
  ∧ files (foldl (λ w d, create_dir d w) w ds) = files w
  ∧ attrs (foldl (λ w d, create_dir d w) w ds) = attrs w
  ∧ root_handlers (foldl (λ w d, create_dir d w) w ds) = root_handlers w
  ∧ root_level (foldl (λ w d, create_dir d w) w ds) = root_level w
  ∧ regular_fds (foldl (λ w d, create_dir d w) w ds) = regular_fds w
  ∧ argv (foldl (λ w d, create_dir d w) w ds) = argv w.
Proof.
  revert w. induction ds as [|d ds IH]; intros w; simpl.
  - rewrite app_nil_r. repeat split; done.
  - destruct (IH (create_dir d w)) as (-> & -> & -> & -> & -> & -> & ->). simpl.
    rewrite <- app_assoc. repeat split; done.
Qed.

(** And the directories they leave: every one that was there, every one
    asked for, and beyond these only directories above one asked for;
    nothing new when each of them was there already. *)
Lemma create_dirs_dirs (ds : list string) (w : World) :
  dirs w ⊆ dirs (foldl (λ w d, create_dir d w) w ds)
  ∧ (∀ d, d ∈ ds → d ∈ dirs (foldl (λ w d, create_dir d w) w ds))
  ∧ (∀ x, x ∈ dirs (foldl (λ w d, create_dir d w) w ds) →
          x ∈ dirs w ∨ ∃ d, d ∈ ds ∧ x ∈ d :: parents d)
  ∧ ((∀ d, d ∈ ds → d ∈ dirs w) → dirs (foldl (λ w d, create_dir d w) w ds) = dirs w).
Proof.
  revert w. induction ds as [|d ds IH]; intros w; simpl.
  - split; [done|]. split; [by intros d Hd%elem_of_nil|]. split; [by left|done].
  - destruct (IH (create_dir d w)) as (Hmono & Hleaf & Hbound & Hsame).
    destruct (create_dir_dirs d w) as (Hmono1 & Hleaf1 & Hbound1 & Hsame1).
    split; [by etrans|]. split; [|split].
    + intros d' [->|Hd']%elem_of_cons; [by apply Hmono|by apply Hleaf].
    + intros x [Hx|(d' & Hd' & Hx)]%Hbound.
      * apply Hbound1 in Hx. apply elem_of_union in Hx as [Hx|Hx]; [by left|].
        right. exists d. split; [left|]. by apply elem_of_list_to_set in Hx.
      * right. exists d'. split; [by right|done].
    + intros Hall. rewrite Hsame.
      * apply Hsame1, Hall. left.
      * intros d' Hd'. apply Hmono1, Hall. by right.
Qed.

(** The first directory asked for, when it is missing, comes with the
    directories above it. *)
Lemma create_dirs_parents (d : string) (ds : list string) (w : World) (p : string) :
  d ∉ dirs w → p ∈ parents d →
  p ∈ dirs (foldl (λ w d, create_dir d w) w (d :: ds)).
Proof.
  intros Hd Hp. simpl.
  destruct (create_dirs_dirs ds (create_dir d w)) as (Hmono & _).
  apply Hmono. rewrite dirs_create_dir, bool_decide_eq_false_2 by done.
  apply elem_of_union_l, elem_of_list_to_set. by right.
Qed.

(** A dry run whose seed is taken, in one equation. *)
Lemma setup_experiment_dry (torch_takes numpy_takes : Z → bool)
    (args : Config) (rt : Runtime) :
  seeds_taken torch_takes numpy_takes args = true →
  cfg_dry_run args = true →
  setup_experiment torch_takes numpy_takes args rt
  = (seeded args (rt_world rt), inr (set_dry args)).
Proof.
  intros Hseeds Hdry. apply andb_prop in Hseeds as [Ht Hn].
  unfold setup_experiment. by rewrite Ht, Hn, Hdry.
Qed.

(** A set-up that is no dry run and whose seed is taken, in one equation:
    the namespace gets the name, the directories and the log file, and the
    directories are created in turn. *)
Lemma setup_experiment_run (torch_takes numpy_takes : Z → bool)
    (args : Config) (rt : Runtime) :
  seeds_taken torch_takes numpy_takes args = true →
  cfg_dry_run args = false →
  setup_experiment torch_takes numpy_takes args rt
  = (seeded args (foldl (λ w d, create_dir d w) (rt_world rt) (setup_dirs args)),
     inr (laid_out args)).
Proof.
  intros Hseeds Hdry. apply andb_prop in Hseeds as [Ht Hn].
  unfold setup_experiment. rewrite Ht, Hn, Hdry. cbn [negb].
  rewrite experiment_name_eq.
  unfold laid_out, setup_dirs, seeded. rewrite !os_path_join_snoc.
  unfold experiment_parts.
  generalize (experiment_name args). intros name.
  destruct args as [seed output_dir experiment resume restore valid_interval
    no_save save_interval step_checkpoints no_log log_interval no_visual
    visual_interval no_progress draft dry_run model dataset experiment_dir
    checkpoint_dir log_dir log_file].
  destruct no_save, no_log; reflexivity.
Qed.

(** A seed that is refused, in one equation. *)
Lemma setup_experiment_refused (torch_takes numpy_takes : Z → bool)
    (args : Config) (rt : Runtime) :
  seeds_taken torch_takes numpy_takes args = false →
  setup_experiment torch_takes numpy_takes args rt
  = if torch_takes (cfg_seed args)
    then ({| rt_world := rt_world rt; cudnn_deterministic := true;
             cudnn_benchmark := false; torch_seed := Some (cfg_seed args);
             numpy_seed := numpy_seed rt; random_seed := random_seed rt |},
          inl NumpySeedFault)
    else ({| rt_world := rt_world rt; cudnn_deterministic := true;
             cudnn_benchmark := false; torch_seed := torch_seed rt;
             numpy_seed := numpy_seed rt; random_seed := random_seed rt |},
          inl TorchSeedFault).
Proof.
  unfold seeds_taken, setup_experiment.
  destruct (torch_takes (cfg_seed args)); [|done].
  simpl. by intros ->.
Qed.

(** What [laid_out] sets and what it leaves. *)
Lemma laid_out_fields (c : Config) :
  let below := λ p, Some (os_path_join (cfg_output_dir c) (experiment_parts c ++ p)) in
  cfg_experiment (laid_out c) = Some (experiment_name c)
  ∧ cfg_experiment_dir (laid_out c) = below []
  ∧ cfg_checkpoint_dir (laid_out c)
    = (if cfg_no_save c then cfg_checkpoint_dir c else below ["checkpoints"])
  ∧ cfg_log_dir (laid_out c) = (if cfg_no_log c then cfg_log_dir c else below ["logs"])
  ∧ cfg_log_file (laid_out c)
    = (if cfg_no_log c then cfg_log_file c else below ["logs"; "train.log"]).
Proof.
  cbv beta zeta. rewrite app_nil_r.
  change (experiment_parts c ++ ["logs"; "train.log"])
    with ((experiment_parts c ++ ["logs"]) ++ ["train.log"]).
  rewrite !os_path_join_snoc. unfold laid_out.
  destruct (cfg_no_save c), (cfg_no_log c); done.
Qed.

Lemma laid_out_kept (c : Config) :
  cfg_seed (laid_out c) = cfg_seed c
  ∧ cfg_dry_run (laid_out c) = cfg_dry_run c
  ∧ cfg_no_save (laid_out c) = cfg_no_save c
  ∧ cfg_no_log (laid_out c) = cfg_no_log c
  ∧ cfg_output_dir (laid_out c) = cfg_output_dir c
  ∧ cfg_dataset (laid_out c) = cfg_dataset c
  ∧ cfg_draft (laid_out c) = cfg_draft c
  ∧ cfg_model (laid_out c) = cfg_model c
  ∧ cfg_resume_training (laid_out c) = cfg_resume_training c
  ∧ cfg_restore_file (laid_out c) = cfg_restore_file c
  ∧ cfg_save_interval (laid_out c) = cfg_save_interval c
  ∧ cfg_step_checkpoints (laid_out c) = cfg_step_checkpoints c.
Proof.
  unfold laid_out.
  destruct (cfg_no_save c) eqn:Hsave, (cfg_no_log c) eqn:Hlog;
    repeat split; try reflexivity; done.
Qed.

(** X15. A set-up that is no dry run, whose seed is taken and whose
    directories the disk lets it create (none is unnamed, no regular file
    lies at one or above it) returns, names the experiment, and lays the
    run out below [output_dir]: the experiment directory, [checkpoints] in
    it unless [no_save], [logs] and [logs/train.log] in it unless [no_log].
    It calls [os.makedirs] on these directories in this order and on
    nothing else, and touches no file.  Afterwards each of them is a
    directory, every directory that was there still is, the only new
    directories are these and directories above them, and an experiment
    directory that was missing has come with every directory above it. *)
Theorem setup_experiment_layout (torch_takes numpy_takes : Z → bool)
    (args : Config) (rt : Runtime) :
  seeds_taken torch_takes numpy_takes args = true →
  cfg_dry_run args = false →
  can_setup args (rt_world rt) = true →
  let call := setup_experiment torch_takes numpy_takes args rt in
  let below := λ p, os_path_join (cfg_output_dir args) (experiment_parts args ++ p) in
  ∃ args', call.2 = inr args'
    ∧ cfg_experiment args' = Some (experiment_name args)
    ∧ cfg_experiment_dir args' = Some (below [])
    ∧ cfg_checkpoint_dir args'
      = (if cfg_no_save args then cfg_checkpoint_dir args
         else Some (below ["checkpoints"]))
    ∧ cfg_log_dir args'
      = (if cfg_no_log args then cfg_log_dir args else Some (below ["logs"]))
    ∧ cfg_log_file args'
      = (if cfg_no_log args then cfg_log_file args
         else Some (below ["logs"; "train.log"]))
    ∧ new_events (rt_world rt) (rt_world call.1) = EvMakedirs <$> setup_dirs args
    ∧ files (rt_world call.1) = files (rt_world rt)
    ∧ dirs (rt_world rt) ⊆ dirs (rt_world call.1)
    ∧ (∀ d, d ∈ setup_dirs args → d ∈ dirs (rt_world call.1))
    ∧ (∀ x, x ∈ dirs (rt_world call.1) →
            x ∈ dirs (rt_world rt) ∨ ∃ d, d ∈ setup_dirs args ∧ x ∈ d :: parents d)
    ∧ (below [] ∉ dirs (rt_world rt) →
       ∀ p, p ∈ parents (below []) → p ∈ dirs (rt_world call.1)).
Proof.
  intros Hseeds Hdry _ call below. subst call below.
  rewrite setup_experiment_run by done. exists (laid_out args).
  split; [done|].
  destruct (laid_out_fields args) as (He & Hd & Hc & Hl & Hf).
  destruct (create_dirs_world (setup_dirs args) (rt_world rt))
    as (Htrace & Hfiles & _).
  destruct (create_dirs_dirs (setup_dirs args) (rt_world rt))
    as (Hmono & Hleaf & Hbound & _).
  cbn [fst rt_world seeded].
  rewrite (new_events_app _ _ _ Htrace).
  do 10 (split; [done|]).
  rewrite app_nil_r. intros Hmissing p Hp.
  by apply (create_dirs_parents _ _ _ p Hmissing).
Qed.

Lemma setup_experiment_layout_witness :
  ∃ args', demo_setup.2 = inr args'
    ∧ cfg_experiment args' = Some "graph-net"
    ∧ cfg_experiment_dir args' = Some "experiments/cora/graph-net"
    ∧ cfg_checkpoint_dir args' = Some "experiments/cora/graph-net/checkpoints"
    ∧ cfg_log_file args' = Some "experiments/cora/graph-net/logs/train.log"
    ∧ "experiments/cora" ∈ dirs (rt_world demo_setup.1).
Proof.
  assert (can_setup demo_config
            (rt_world (fresh_runtime (fresh_process ∅ ∅ ∅ ["train.py"]))) = true)
    as Hcan by (vm_compute; reflexivity).
  destruct (setup_experiment_layout (λ _, true) (λ _, true) demo_config
              (fresh_runtime (fresh_process ∅ ∅ ∅ ["train.py"]))
              eq_refl eq_refl Hcan)
    as (args' & Hr & He & Hd & Hc & _ & Hf & _ & _ & _ & _ & _ & Hp).
  exists args'.
  refine (conj Hr (conj He (conj Hd (conj Hc (conj Hf _))))).
  apply Hp.
  - vm_compute. intros [=].
  - vm_compute. apply list_elem_of_further, list_elem_of_here.
Defined.

(** X16. The flag [resume_training] has no bearing on the set-up: joining
    the single name with dashes gives the name back, so the runtime that
    [setup_experiment] leaves and every attribute it sets are the same
    with the flag and without it, on every path through the function. *)
Theorem setup_experiment_ignores_resume (torch_takes numpy_takes : Z → bool)
    (args : Config) (rt : Runtime) (b : bool) :
  let call := setup_experiment torch_takes numpy_takes args rt in
  let other := setup_experiment torch_takes numpy_takes
                 (with_resume_training b args) rt in
  other.1 = call.1
  ∧ other.2 = sum_map id (with_resume_training b) call.2.
Proof.
  intros call other. subst call other.
  destruct (seeds_taken torch_takes numpy_takes args) eqn:Hseeds;
    [destruct (cfg_dry_run args) eqn:Hdry|].
  - rewrite (setup_experiment_dry torch_takes numpy_takes args rt) by done.
    rewrite (setup_experiment_dry torch_takes numpy_takes
               (with_resume_training b args) rt) by done.
    split; [done|]. cbn [snd sum_map]. by destruct args.
  - rewrite (setup_experiment_run torch_takes numpy_takes args rt) by done.
    rewrite (setup_experiment_run torch_takes numpy_takes
               (with_resume_training b args) rt) by done.
    split; [done|]. cbn [snd sum_map]. f_equal.
    unfold laid_out.
    change (experiment_name (with_resume_training b args))
      with (experiment_name args).
    change (experiment_parts (with_resume_training b args))
      with (experiment_parts args).
    cbn [cfg_output_dir cfg_no_save cfg_no_log with_resume_training].
    destruct (cfg_no_save args), (cfg_no_log args); by destruct args.
  - rewrite (setup_experiment_refused torch_takes numpy_takes args rt) by done.
    rewrite (setup_experiment_refused torch_takes numpy_takes
               (with_resume_training b args) rt) by done.
    cbn [cfg_seed with_resume_training].
    by destruct (torch_takes (cfg_seed args)).
Qed.

Lemma setup_experiment_returns (torch_takes numpy_takes : Z → bool)
    (args args' : Config) (rt : Runtime) :
  (setup_experiment torch_takes numpy_takes args rt).2 = inr args' →
  seeds_taken torch_takes numpy_takes args = true.
Proof.
  destruct (seeds_taken torch_takes numpy_takes args) eqn:Hseeds; [done|].
  rewrite setup_experiment_refused by done.
  by destruct (torch_takes (cfg_seed args)).
Qed.

Lemma experiment_name_laid_out (c : Config) :
  experiment_name (laid_out c) = experiment_name c.
Proof.
  destruct (laid_out_fields c) as (He & _).
  destruct (laid_out_kept c) as (_ & _ & _ & _ & _ & _ & _ & Hm & _).
  unfold experiment_name at 1. rewrite He, Hm. unfold experiment_name.
  destruct (cfg_experiment c) as [[|x e]|]; try done;
    by destruct (replace_char "_" "-" (cfg_model c)).
Qed.

Lemma setup_dirs_laid_out (c : Config) : setup_dirs (laid_out c) = setup_dirs c.
Proof.
  destruct (laid_out_kept c) as (_ & _ & Hns & Hnl & Ho & Hds & Hdr & _).
  unfold setup_dirs, experiment_parts.
  by rewrite experiment_name_laid_out, Hns, Hnl, Ho, Hds, Hdr.
Qed.

Lemma laid_out_idemp (c : Config) : laid_out (laid_out c) = laid_out c.
Proof.
  destruct (laid_out_kept c) as (_ & _ & Hns & Hnl & Ho & Hds & Hdr & _).
  unfold laid_out at 1. unfold experiment_parts.
  rewrite experiment_name_laid_out, Hns, Hnl, Ho, Hds, Hdr.
  fold (experiment_parts c). unfold laid_out.
  destruct (cfg_no_save c), (cfg_no_log c); by destruct c.
Qed.

(** X17. Setting up twice is setting up once: a second call of
    [setup_experiment], on the namespace and in the process that a first
    call left, returns the same namespace, seeds the generators as before
    and adds neither a directory nor a file. *)
Theorem setup_experiment_idempotent (torch_takes numpy_takes : Z → bool)
    (args args' : Config) (rt : Runtime) :
  let call := setup_experiment torch_takes numpy_takes args rt in
  call.2 = inr args' →
  let again := setup_experiment torch_takes numpy_takes args' call.1 in
  again.2 = inr args'
  ∧ dirs (rt_world again.1) = dirs (rt_world call.1)
  ∧ files (rt_world again.1) = files (rt_world call.1)
  ∧ torch_seed again.1 = torch_seed call.1
  ∧ numpy_seed again.1 = numpy_seed call.1
  ∧ random_seed again.1 = random_seed call.1.
Proof.
  intros call Hcall again. subst call again.
  pose proof (setup_experiment_returns _ _ _ _ _ Hcall) as Hseeds.
  destruct (cfg_dry_run args) eqn:Hdry.
  - revert Hcall. rewrite (setup_experiment_dry torch_takes numpy_takes args rt) by done.
    cbn [fst snd]. intros Hcall. apply (inj inr) in Hcall. subst args'.
    rewrite (setup_experiment_dry torch_takes numpy_takes (set_dry args)) by done.
    cbn [fst snd rt_world seeded torch_seed numpy_seed random_seed].
    split; [|done]. by destruct args.
  - revert Hcall. rewrite (setup_experiment_run torch_takes numpy_takes args rt) by done.
    cbn [fst snd]. intros Hcall. apply (inj inr) in Hcall. subst args'.
    destruct (laid_out_kept args) as (Hs & Hd & _).
    rewrite (setup_experiment_run torch_takes numpy_takes (laid_out args))
      by (unfold seeds_taken; rewrite ?Hs, ?Hd; done).
    cbn [fst snd rt_world seeded torch_seed numpy_seed random_seed].
    rewrite laid_out_idemp, setup_dirs_laid_out, Hs.
    destruct (create_dirs_dirs (setup_dirs args) (rt_world rt))
      as (_ & Hleaf & _).
    destruct (create_dirs_world (setup_dirs args)
                (foldl (λ w d, create_dir d w) (rt_world rt) (setup_dirs args)))
      as (_ & Hfiles' & _).
    destruct (create_dirs_dirs (setup_dirs args)
                (foldl (λ w d, create_dir d w) (rt_world rt) (setup_dirs args)))
      as (_ & _ & _ & Hsame).
    rewrite Hfiles', (Hsame Hleaf). done.
Qed.

Lemma setup_experiment_idempotent_witness :
  (setup_experiment (λ _, true) (λ _, true) (laid_out demo_config) demo_setup.1).2
  = inr (laid_out demo_config).
Proof.
  exact (proj1 (setup_experiment_idempotent (λ _, true) (λ _, true) demo_config
                  (laid_out demo_config)
                  (fresh_runtime (fresh_process ∅ ∅ ∅ ["train.py"])) eq_refl)).
Defined.

(** X18. A seed that [torch] or [numpy] refuses makes [setup_experiment]
    raise before it touches the namespace or the disk: no directory is
    asked for and [random] is not seeded.  The flags of cudnn are set by
    then, and [torch] is seeded when it is [numpy] that refused. *)
Theorem setup_experiment_seed_fault (torch_takes numpy_takes : Z → bool)
    (args : Config) (rt : Runtime) :
  seeds_taken torch_takes numpy_takes args = false →
  let call := setup_experiment torch_takes numpy_takes args rt in
  call.2 = inl (if torch_takes (cfg_seed args) then NumpySeedFault
                else TorchSeedFault)
  ∧ rt_world call.1 = rt_world rt
  ∧ cudnn_deterministic call.1 = true ∧ cudnn_benchmark call.1 = false
  ∧ torch_seed call.1 = (if torch_takes (cfg_seed args) then Some (cfg_seed args)
                         else torch_seed rt)
  ∧ numpy_seed call.1 = numpy_seed rt
  ∧ random_seed call.1 = random_seed rt.
Proof.
  intros Hseeds call. subst call.
  rewrite setup_experiment_refused by done.
  by destruct (torch_takes (cfg_seed args)).
Qed.

Lemma setup_experiment_seed_fault_witness :
  let call := setup_experiment (λ _, true) numpy_seed_range negative_seed_config
                (fresh_runtime (fresh_process ∅ ∅ ∅ ["train.py"])) in
  seeds_taken (λ _, true) numpy_seed_range negative_seed_config = false
  ∧ call.2 = inl NumpySeedFault
  ∧ torch_seed call.1 = Some (-1)
  ∧ random_seed call.1 = None.
Proof.
  intros call.
  destruct (setup_experiment_seed_fault (λ _, true) numpy_seed_range
              negative_seed_config
              (fresh_runtime (fresh_process ∅ ∅ ∅ ["train.py"])) eq_refl)
    as (Hr & _ & _ & _ & Ht & _ & Hrand).
  exact (conj eq_refl (conj Hr (conj Ht Hrand))).
Defined.

(** ** [setup_experiment] and the functions that read its namespace *)

Lemma save_checkpoint_no_save (w : World) (args : Args) (step : Z)
    (model optimizer scheduler : option component) (score : pyval) (mode : string) :
  wf_attrs (attrs w) = true → no_save args = true →
  no_io w (save_checkpoint args step model optimizer scheduler score mode w).1.
Proof.
  intros Hwf Hno. rewrite save_checkpoint_world by done.
  destruct (valid_mode mode); simpl; [|done].
  destruct (is_number score); simpl; [|done].
  apply save_cases_skipped. by left.
Qed.

(** With no handler on the root logger and no log file to open,
    [init_logging] leaves the console handler and the disk as it was. *)
Lemma init_logging_console_world (repr_vars : Args → string) (args : Args)
    (w : World) :
  root_handlers w = [] →
  no_log args = true ∨ log_file args = None →
  root_handlers (init_logging repr_vars args w).1 = [StreamHandler INFO]
  ∧ files (init_logging repr_vars args w).1 = files w
  ∧ dirs (init_logging repr_vars args w).1 = dirs w.
Proof.
  intros Hroot Hnolog.
  assert (init_logging repr_vars args w
          = (basicConfig [StreamHandler INFO] DEBUG;;
             av ← gets argv;
             logging_info ("COMMAND: " +:+ String.concat " " av);;
             logging_info ("Arguments: " +:+ repr_vars args)) w) as ->.
  { unfold init_logging.
    destruct Hnolog as [-> | ->]; [done|]. by destruct (no_log args). }
  unfold basicConfig, logging_info, gets, when, modify.
  unfold mbind, M_bind, mret, M_ret. rewrite Hroot. simpl. done.
Qed.

(** With no handler on the root logger and a log file, [init_logging] opens
    the file and installs both handlers. *)
Lemma init_logging_file_world (repr_vars : Args → string) (args : Args)
    (w : World) (path : string) :
  root_handlers w = [] → no_log args = false → log_file args = Some path →
  let mode := if bool_decide (Z.b2z (resume_training args) ∈ regular_fds w)
              then "a" else "w" in
  root_handlers (init_logging repr_vars args w).1
  = [StreamHandler INFO; FileHandler path mode DEBUG]
  ∧ EvOpen path mode ∈ new_events w (init_logging repr_vars args w).1
  ∧ is_Some (files (init_logging repr_vars args w).1 !! path)
  ∧ dirs (init_logging repr_vars args w).1 = dirs w.
Proof.
  intros Hroot Hno Hlog mode.
  unfold init_logging. rewrite Hno, Hlog.
  unfold isfile_fd, open_file_handler, basicConfig, logging_info, gets, when, modify.
  unfold mbind, M_bind, mret, M_ret. cbv beta iota zeta.
  fold mode.
  destruct (bool_decide (Z.b2z (resume_training args) ∈ regular_fds w));
    subst mode; simpl; rewrite Hroot; simpl.
  - split; [done|]. split.
    { unfold new_events. simpl. rewrite <- !app_assoc, drop_app_length.
      apply list_elem_of_here. }
    split; [|done].
    destruct (files w !! path) as [old|] eqn:Hold; simpl; simplify_map_eq; eauto.
  - split; [done|]. split.
    { unfold new_events. simpl. rewrite <- !app_assoc, drop_app_length.
      apply list_elem_of_here. }
    split; [|done]. simplify_map_eq. eauto.
Qed.

(** X19. A dry run writes nothing, neither in the set-up nor after it:
    [setup_experiment] sets the three flags, leaves the paths of the
    namespace as they were and asks for no directory; with the namespace it
    leaves, [save_checkpoint] performs no I/O whatever it is called with,
    and [init_logging] installs the console handler alone and touches no
    file. *)
Theorem dry_run_writes_nothing (torch_takes numpy_takes : Z → bool)
    (args : Config) (rt : Runtime) :
  seeds_taken torch_takes numpy_takes args = true →
  cfg_dry_run args = true →
  let call := setup_experiment torch_takes numpy_takes args rt in
  ∃ args', call.2 = inr args'
    ∧ rt_world call.1 = rt_world rt
    ∧ cfg_no_save args' = true ∧ cfg_no_log args' = true ∧ cfg_no_visual args' = true
    ∧ cfg_experiment_dir args' = cfg_experiment_dir args
    ∧ cfg_checkpoint_dir args' = cfg_checkpoint_dir args
    ∧ cfg_log_file args' = cfg_log_file args
    ∧ (∀ w step model optimizer scheduler score mode,
         wf_attrs (attrs w) = true →
         no_io w (save_checkpoint (args_of args') step model optimizer scheduler
                    score mode w).1)
    ∧ (∀ repr_vars w,
         root_handlers w = [] →
         root_handlers (init_logging repr_vars (args_of args') w).1 = [StreamHandler INFO]
         ∧ files (init_logging repr_vars (args_of args') w).1 = files w
         ∧ dirs (init_logging repr_vars (args_of args') w).1 = dirs w).
Proof.
  intros Hseeds Hdry call. subst call.
  rewrite setup_experiment_dry by done. exists (set_dry args).
  do 8 (split; [reflexivity|]). split.
  - intros w step model optimizer scheduler score mode Hwf.
    by apply save_checkpoint_no_save.
  - intros repr_vars w Hroot. apply init_logging_console_world; [done|by left].
Qed.

Lemma dry_run_writes_nothing_witness :
  ∃ args',
    (setup_experiment (λ _, true) (λ _, true) dry_config
       (fresh_runtime (fresh_process ∅ ∅ ∅ ["train.py"]))).2 = inr args'
    ∧ cfg_no_save args' = true.
Proof.
  destruct (dry_run_writes_nothing (λ _, true) (λ _, true) dry_config
              (fresh_runtime (fresh_process ∅ ∅ ∅ ["train.py"])) eq_refl eq_refl)
    as (args' & Hr & _ & Hs & _).
  exists args'. exact (conj Hr Hs).
Defined.

(** [save_checkpoint] joins a directory and a relative name as
    [os.path.join] does. *)
Lemma path_join_os (d name : string) :
  starts_with_slash name = false → path_join d name = os_path_join d [name].
Proof. intros Hname. unfold os_path_join, path_join; simpl. unfold join_step. by rewrite Hname. Qed.

Lemma elem_of_setup_dirs_checkpoints (c : Config) :
  cfg_no_save c = false →
  os_path_join (cfg_output_dir c) (experiment_parts c ++ ["checkpoints"]) ∈ setup_dirs c.
Proof.
  intros Hsave. unfold setup_dirs. rewrite Hsave.
  rewrite !elem_of_app, !list_elem_of_singleton. auto.
Qed.

Lemma elem_of_setup_dirs_logs (c : Config) :
  cfg_no_log c = false →
  os_path_join (cfg_output_dir c) (experiment_parts c ++ ["logs"]) ∈ setup_dirs c.
Proof.
  intros Hlog. unfold setup_dirs. rewrite Hlog.
  rewrite !elem_of_app, !list_elem_of_singleton. auto.
Qed.

(** X20. [save_checkpoint] after [setup_experiment]: with [no_save] unset
    the set-up leaves a checkpoint directory that exists, the three kinds
    of checkpoint file lie in [checkpoints] below the experiment directory,
    and no call of [save_checkpoint] in a process that still has this
    directory changes the set of directories. *)
Theorem setup_then_save_checkpoint (torch_takes numpy_takes : Z → bool)
    (args : Config) (rt : Runtime) :
  seeds_taken torch_takes numpy_takes args = true →
  cfg_dry_run args = false →
  cfg_no_save args = false →
  let call := setup_experiment torch_takes numpy_takes args rt in
  let below := λ p, os_path_join (cfg_output_dir args) (experiment_parts args ++ p) in
  ∃ args', call.2 = inr args'
    ∧ no_save (args_of args') = false
    ∧ checkpoint_dir (args_of args') = below ["checkpoints"]
    ∧ below ["checkpoints"] ∈ dirs (rt_world call.1)
    ∧ best_path (args_of args') = below ["checkpoints"; "checkpoint_best.pt"]
    ∧ last_path (args_of args') = below ["checkpoints"; "checkpoint_last.pt"]
    ∧ (∀ step, step_path (args_of args') step
               = below ["checkpoints"; checkpoint_step_name step])
    ∧ (∀ w step model optimizer scheduler score mode,
         wf_attrs (attrs w) = true →
         below ["checkpoints"] ∈ dirs w →
         dirs (save_checkpoint (args_of args') step model optimizer scheduler
                 score mode w).1 = dirs w).
Proof.
  intros Hseeds Hdry Hsave call below. subst call.
  rewrite setup_experiment_run by done. exists (laid_out args).
  destruct (laid_out_fields args) as (_ & _ & Hc & _).
  destruct (laid_out_kept args) as (_ & _ & Hns & _).
  rewrite Hsave in Hc, Hns.
  assert (checkpoint_dir (args_of (laid_out args)) = below ["checkpoints"]) as Hdir.
  { unfold args_of; simpl. by rewrite Hc. }
  assert (∀ name, starts_with_slash name = false →
            path_join (checkpoint_dir (args_of (laid_out args))) name
            = below ["checkpoints"; name]) as Hpath.
  { intros name Hname. rewrite Hdir, path_join_os by done. subst below.
    cbv beta.
    change (experiment_parts args ++ ["checkpoints"; name])
      with ((experiment_parts args ++ ["checkpoints"]) ++ [name]).
    by rewrite os_path_join_snoc. }
  split; [done|]. split; [done|]. split; [done|]. split.
  { cbn [fst rt_world seeded].
    destruct (create_dirs_dirs (setup_dirs args) (rt_world rt)) as (_ & Hleaf & _).
    by apply Hleaf, elem_of_setup_dirs_checkpoints. }
  split; [by apply Hpath|]. split; [by apply Hpath|]. split.
  { intros step. by apply Hpath. }
  intros w step model optimizer scheduler score mode Hwf Hin.
  destruct (save_checkpoint_dirs w (args_of (laid_out args)) step model optimizer
              scheduler score mode Hwf) as [->| ->]; [done|].
  rewrite Hdir. by apply create_dir_dirs.
Qed.

Lemma setup_then_save_checkpoint_witness :
  ∃ args', demo_setup.2 = inr args'
    ∧ best_path (args_of args')
      = "experiments/cora/graph-net/checkpoints/checkpoint_best.pt".
Proof.
  destruct (setup_then_save_checkpoint (λ _, true) (λ _, true) demo_config
              (fresh_runtime (fresh_process ∅ ∅ ∅ ["train.py"]))
              eq_refl eq_refl eq_refl)
    as (args' & Hr & _ & _ & _ & Hb & _).
  exists args'. exact (conj Hr Hb).
Defined.

(** X21. [init_logging] after [setup_experiment]: with [no_log] unset, in
    a process whose root logger has no handlers, [init_logging] opens
    [logs/train.log] below the experiment directory, in a directory that the
    set-up has created, and installs the console and the file handler.  The
    mode of the file is decided by the descriptor that [resume_training]
    denotes, as before the set-up. *)
Theorem setup_then_init_logging (torch_takes numpy_takes : Z → bool)
    (repr_vars : Args → string) (args : Config) (rt : Runtime) :
  seeds_taken torch_takes numpy_takes args = true →
  cfg_dry_run args = false →
  cfg_no_log args = false →
  root_handlers (rt_world rt) = [] →
  let call := setup_experiment torch_takes numpy_takes args rt in
  let below := λ p, os_path_join (cfg_output_dir args) (experiment_parts args ++ p) in
  let mode := if bool_decide (Z.b2z (cfg_resume_training args)
                               ∈ regular_fds (rt_world rt))
              then "a" else "w" in
  ∃ args', call.2 = inr args'
    ∧ below ["logs"] ∈ dirs (rt_world call.1)
    ∧ let logged := (init_logging repr_vars (args_of args') (rt_world call.1)).1 in
      root_handlers logged
      = [StreamHandler INFO; FileHandler (below ["logs"; "train.log"]) mode DEBUG]
      ∧ EvOpen (below ["logs"; "train.log"]) mode
        ∈ new_events (rt_world call.1) logged
      ∧ is_Some (files logged !! below ["logs"; "train.log"])
      ∧ dirs logged = dirs (rt_world call.1).
Proof.
  intros Hseeds Hdry Hlog Hroot call below mode. subst call.
  rewrite setup_experiment_run by done. exists (laid_out args).
  destruct (laid_out_fields args) as (_ & _ & _ & _ & Hf).
  destruct (laid_out_kept args) as (_ & _ & _ & Hnl & _ & _ & _ & _ & Hres & _).
  rewrite Hlog in Hf, Hnl. cbv beta zeta in Hf.
  destruct (create_dirs_world (setup_dirs args) (rt_world rt))
    as (_ & _ & _ & Hroot' & _ & Hfds & _).
  destruct (create_dirs_dirs (setup_dirs args) (rt_world rt)) as (_ & Hleaf & _).
  cbn [fst snd rt_world seeded].
  split; [done|]. split.
  { by apply Hleaf, elem_of_setup_dirs_logs. }
  cbv zeta.
  pose proof (init_logging_file_world repr_vars (args_of (laid_out args))
                (foldl (λ w d, create_dir d w) (rt_world rt) (setup_dirs args))
                (below ["logs"; "train.log"])) as Hinit.
  cbv zeta in Hinit. rewrite Hfds in Hinit.
  change (resume_training (args_of (laid_out args)))
    with (cfg_resume_training (laid_out args)) in Hinit.
  rewrite Hres in Hinit. apply Hinit.
  - by rewrite Hroot'.
  - done.
  - done.
Qed.

Lemma setup_then_init_logging_witness :
  ∃ args', demo_setup.2 = inr args'
    ∧ root_handlers (init_logging (λ _, "{}") (args_of args') (rt_world demo_setup.1)).1
      = [StreamHandler INFO;
         FileHandler "experiments/cora/graph-net/logs/train.log" "w" DEBUG].
Proof.
  destruct (setup_then_init_logging (λ _, true) (λ _, true) (λ _, "{}") demo_config
              (fresh_runtime (fresh_process ∅ ∅ ∅ ["train.py"]))
              eq_refl eq_refl eq_refl eq_refl)
    as (args' & Hr & _ & Hh & _).
  exists args'. exact (conj Hr Hh).
Defined.

(** An absolute component makes [os.path.join] drop what comes before
    it. *)
Lemma os_path_join_absolute (a b : string) (p q : list string) :
  starts_with_slash b = true →
  os_path_join a (p ++ b :: q) = os_path_join b q.
Proof.
  intros Hb. unfold os_path_join. rewrite foldl_app. simpl.
  unfold join_step at 2. by rewrite Hb.
Qed.

(** X22. An experiment named by an absolute path leaves [output_dir]: with
    [draft] unset the experiment directory is that path itself, whatever
    [output_dir] and [dataset] are, and the checkpoints and the log go below
    it. *)
Theorem setup_experiment_absolute_name (torch_takes numpy_takes : Z → bool)
    (args : Config) (rt : Runtime) (e : string) :
  seeds_taken torch_takes numpy_takes args = true →
  cfg_dry_run args = false →
  cfg_draft args = false →
  cfg_experiment args = Some e →
  starts_with_slash e = true →
  let call := setup_experiment torch_takes numpy_takes args rt in
  ∃ args', call.2 = inr args'
    ∧ cfg_experiment_dir args' = Some e
    ∧ (cfg_no_save args = false →
       cfg_checkpoint_dir args' = Some (os_path_join e ["checkpoints"]))
    ∧ (cfg_no_log args = false →
       cfg_log_file args' = Some (os_path_join e ["logs"; "train.log"]))
    ∧ e ∈ dirs (rt_world call.1).
Proof.
  intros Hseeds Hdry Hdraft Hexp He call. subst call.
  rewrite setup_experiment_run by done. exists (laid_out args).
  destruct (laid_out_fields args) as (_ & Hd & Hc & _ & Hf).
  cbv beta zeta in Hd, Hc, Hf.
  assert (experiment_name args = e) as Hname.
  { unfold experiment_name. rewrite Hexp. by destruct e. }
  assert (∀ q, os_path_join (cfg_output_dir args) (experiment_parts args ++ q)
               = os_path_join e q) as Hjoin.
  { intros q. unfold experiment_parts. rewrite Hdraft, Hname.
    change ("" +:+ e) with e.
    by rewrite (os_path_join_absolute _ e [cfg_dataset args] q). }
  rewrite !Hjoin in Hd, Hc, Hf.
  split; [done|]. split; [done|]. split; [by intros Hs; rewrite Hs in Hc|].
  split; [by intros Hl; rewrite Hl in Hf|].
  cbn [fst rt_world seeded].
  destruct (create_dirs_dirs (setup_dirs args) (rt_world rt)) as (_ & Hleaf & _).
  apply Hleaf.
  unfold setup_dirs. rewrite <- (app_nil_r (experiment_parts args)) at 1.
  rewrite Hjoin. apply elem_of_app. left. apply list_elem_of_singleton. done.
Qed.

Lemma setup_experiment_absolute_name_witness :
  ∃ args',
    (setup_experiment (λ _, true) (λ _, true) absolute_config
       (fresh_runtime (fresh_process ∅ ∅ ∅ ["train.py"]))).2 = inr args'
    ∧ cfg_experiment_dir args' = Some "/scratch/run1".
Proof.
  destruct (setup_experiment_absolute_name (λ _, true) (λ _, true) absolute_config
              (fresh_runtime (fresh_process ∅ ∅ ∅ ["train.py"])) "/scratch/run1"
              eq_refl eq_refl eq_refl eq_refl eq_refl)
    as (args' & Hr & Hd & _).
  exists args'. exact (conj Hr Hd).
Defined.

(** ** [bool_mask]: symmetry and rows *)

(** X23. The mask of [context] against [target] is the transpose of the
    mask of [target] against [context], and a row of the mask holds a true
    entry exactly when the label of the row occurs in [context]. *)
Theorem bool_mask_transpose (target context : list Z) :
  ∃ m mt,
    bool_mask target context false = inr (BoolMask m)
    ∧ bool_mask context target false = inr (BoolMask mt)
    ∧ (∀ i j, mask_entry m i j = mask_entry mt j i)
    ∧ (∀ i t row, target !! i = Some t → m !! i = Some row →
         (true ∈ row ↔ t ∈ context)).
Proof.
  rewrite !bool_mask_eq. cbv zeta. do 2 eexists.
  split; [done|]. split; [done|]. split.
  - intros i j. unfold mask_entry. rewrite !list_lookup_fmap.
    destruct (target !! i) as [t|] eqn:Ht, (context !! j) as [c|] eqn:Hc; simpl;
      rewrite ?list_lookup_fmap, ?Ht, ?Hc; simpl; try done.
    f_equal. apply bool_decide_ext. split; congruence.
  - intros i t row Ht. rewrite list_lookup_fmap, Ht. simpl. intros [= <-].
    rewrite list_elem_of_fmap. split.
    + intros (c & Hc & Hin). symmetry in Hc. apply bool_decide_eq_true in Hc.
      by subst.
    + intros Hin. exists t. split; [|done]. symmetry. by apply bool_decide_eq_true.
Qed.

(** ** [connectivity]: outcome by the number of distances *)

Section ConnectivityOutcome.
Context {R : Type}.
Variable add : R → R → R.
Variable div_int : R → Z → R.





End ConnectivityOutcome.


(** ** From the defaults of the parser to a save *)

(** X25. With the defaults of [add_logging_arguments] every step is due:
    after the set-up of a namespace that holds these defaults, each call of
    [save_checkpoint] with a valid mode and a numeric score reaches
    [os.makedirs] on [checkpoints] below
    [experiments/<dataset>/<model with dashes>], whatever the step is. *)
Theorem defaults_save_every_step (torch_takes numpy_takes : Z → bool)
    (model_name dataset : string) (rt : Runtime) :
  seeds_taken torch_takes numpy_takes (parsed_defaults model_name dataset) = true →
  let call := setup_experiment torch_takes numpy_takes
                (parsed_defaults model_name dataset) rt in
  let dir := os_path_join "experiments"
               [dataset; replace_char "_" "-" model_name; "checkpoints"] in
  ∃ args', call.2 = inr args'
    ∧ cfg_checkpoint_dir args' = Some dir
    ∧ ∀ w step model optimizer scheduler score mode,
        valid_mode mode = true → wf_attrs (attrs w) = true →
        is_number score = true →
        ∃ rest,
          new_events w (save_checkpoint (args_of args') step model optimizer
                          scheduler score mode w).1
          = EvMakedirs dir :: rest.
Proof.
  intros Hseeds call dir. subst call.
  rewrite setup_experiment_run by done.
  exists (laid_out (parsed_defaults model_name dataset)).
  split; [done|]. split; [done|].
  intros w step model optimizer scheduler score mode Hmode Hwf Hscore.
  rewrite save_checkpoint_cases by done.
  unfold save_cases.
  change (no_save (args_of (laid_out (parsed_defaults model_name dataset))))
    with false.
  change (save_interval (args_of (laid_out (parsed_defaults model_name dataset))))
    with 1.
  change (checkpoint_dir (args_of (laid_out (parsed_defaults model_name dataset))))
    with dir.
  rewrite decide_False by done.
  rewrite bool_decide_eq_true_2 by apply Z.mod_1_r.
  cbv zeta.
  destruct (attrs (after_bookkeeping step score mode w) !! "best_step"); cbn [fst].
  - eexists. apply new_events_app. rewrite trace_after_writes.
    unfold create_dir; simpl. rewrite trace_after_bookkeeping.
    rewrite <- app_assoc. done.
  - eexists. apply new_events_app. unfold create_dir; simpl.
    by rewrite trace_after_bookkeeping.
Qed.

Lemma defaults_save_every_step_witness :
  ∃ args', demo_setup.2 = inr args'
    ∧ cfg_checkpoint_dir args' = Some "experiments/cora/graph-net/checkpoints".
Proof.
  destruct (defaults_save_every_step (λ _, true) (λ _, true) "graph_net" "cora"
              (fresh_runtime (fresh_process ∅ ∅ ∅ ["train.py"])) eq_refl)
    as (args' & Hr & Hd & _).
  exists args'. exact (conj Hr Hd).
Defined.
